(** * cf-proxy: an edge gateway for generic APIs and container registries

    A shallow embedding of the Cloudflare-Worker scripts of the repository
    and the properties of its specification.

    The repository holds four scripts that evolved from one another; each
    is embedded in a module of its own, next to the definitions it shares
    with the others:

    - [Gateway]        : the script with in-place [library/] rewriting and
                         scope inference, token endpoint [/v2/token];
    - [AuthVariant]    : the script with the 301 redirect for official
                         images, token endpoint [/v2/auth];
    - [TableVariant]   : the script with a single prefix table,
                         token endpoint [/v2/token];
    - [IndexJs]        : [src/index.js], the webpack entry.

    A JavaScript string is modelled by a [string] of bytes. A header
    value is a byte string whose bytes are the code units of the
    JavaScript string, as the Fetch standard has it; a query parameter is
    the UTF-8 encoding of its value, which is what [encodeURIComponent]
    escapes. Paths, header names and the configured tables are ASCII,
    where the two readings coincide. *)

From Stdlib Require Import Ascii String List Bool Arith Lia.
From stdpp Require Import gmap strings list fin_maps.

(** String literals are appended by computation in the proofs below. *)
#[global] Arguments String.append !s1 s2 : simpl nomatch.

(** ** JavaScript string primitives used by the scripts *)
Module JS.

(** The double quote, built from its code. *)
Definition dquote : string := String (ascii_of_nat 34) EmptyString.

(** [if (s)] on a string: the empty string is falsy. *)
Definition truthy (s : string) : bool :=
  match s with EmptyString => false | String _ _ => true end.

(** [if (o)] on a value that is a string or [null]. *)
Definition truthy_opt (o : option string) : bool :=
  match o with Some s => truthy s | None => false end.

(** [s.startsWith(p)] *)
Definition startsWith (s p : string) : bool := String.prefix p s.

(** [s.slice(n)] and [s.substring(n)] for [0 <= n]. *)
Fixpoint slice (s : string) (n : nat) {struct n} : string :=
  match n, s with
  | 0, _ => s
  | S n', String _ s' => slice s' n'
  | S _, EmptyString => EmptyString
  end.

(** The first [n] characters of [s]. *)
Fixpoint take (n : nat) (s : string) {struct n} : string :=
  match n, s with
  | S n', String c s' => String c (take n' s')
  | _, _ => EmptyString
  end.

(** [s.substring(a, b)]: the arguments are swapped when [a > b], and
    clamped to the length of [s]. *)
Definition substring (s : string) (a b : nat) : string :=
  take (Nat.max a b - Nat.min a b) (slice s (Nat.min a b)).

(** [s.includes(sub)] *)
Fixpoint includes (s sub : string) : bool :=
  String.prefix sub s ||
  match s with
  | EmptyString => false
  | String _ s' => includes s' sub
  end.

(** [s.split(sep)[0]] for a non-empty separator: the part of [s] before
    the first occurrence of [sep], all of [s] when there is none. *)
Fixpoint splitHead (sep s : string) : string :=
  if String.prefix sep s then EmptyString
  else match s with
       | EmptyString => EmptyString
       | String c s' => String c (splitHead sep s')
       end.

(** [s.split(c)] for a separator of one character. *)
Fixpoint split (c : ascii) (s : string) : list string :=
  match s with
  | EmptyString => [EmptyString]
  | String a s' =>
      if Ascii.eqb a c then EmptyString :: split c s'
      else match split c s' with
           | h :: t => String a h :: t
           | [] => [String a EmptyString]
           end
  end.

(** [l.join(sep)] *)
Fixpoint join (sep : string) (l : list string) : string :=
  match l with
  | [] => EmptyString
  | [x] => x
  | x :: t => x +:+ sep +:+ join sep t
  end.

(** [l.splice(i, 0, x)]: insert [x] before index [i] (at the end when the
    list is shorter). *)
Fixpoint splice_insert (i : nat) (x : string) (l : list string) : list string :=
  match i, l with
  | 0, _ => x :: l
  | S i', y :: t => y :: splice_insert i' x t
  | S _, [] => [x]
  end.

(** The white space and line terminators that [trim] removes, among the
    code units below 256 that a header value is made of: TAB, LF, VT, FF,
    CR, SP and the no-break space U+00A0. *)
Definition is_space (c : ascii) : bool :=
  let n := nat_of_ascii c in
  ((9 <=? n) && (n <=? 13)) || (n =? 32) || (n =? 160).

Fixpoint trimStart (s : string) : string :=
  match s with
  | String c s' => if is_space c then trimStart s' else s
  | EmptyString => EmptyString
  end.

Fixpoint trimEnd (s : string) : string :=
  match s with
  | EmptyString => EmptyString
  | String c s' =>
      match trimEnd s' with
      | EmptyString => if is_space c then EmptyString else String c EmptyString
      | r => String c r
      end
  end.

(** [s.trim()] *)
Definition trim (s : string) : string := trimEnd (trimStart s).

Definition lower (c : ascii) : ascii :=
  let n := nat_of_ascii c in
  if (65 <=? n) && (n <=? 90) then ascii_of_nat (n + 32) else c.

(** [s.toLowerCase()], on ASCII letters. *)
Fixpoint toLowerCase (s : string) : string :=
  match s with
  | EmptyString => EmptyString
  | String c s' => String (lower c) (toLowerCase s')
  end.

(** [l.includes(x)] on an array of strings. *)
Definition arrayIncludes (l : list string) (x : string) : bool :=
  existsb (String.eqb x) l.

(** The string a value that is a string or [null] is converted to, by a
    template literal or by [encodeURIComponent]. *)
Definition toString (o : option string) : string :=
  match o with Some s => s | None => "null" end.

Definition hexDigit (n : nat) : ascii :=
  if n <? 10 then ascii_of_nat (48 + n) else ascii_of_nat (55 + n).

(** Characters [encodeURIComponent] leaves as they are:
    [A-Z a-z 0-9 - _ . ! ~ * ' ( )]. *)
Definition unreserved (c : ascii) : bool :=
  let n := nat_of_ascii c in
  ((65 <=? n) && (n <=? 90)) || ((97 <=? n) && (n <=? 122)) ||
  ((48 <=? n) && (n <=? 57)) ||
  existsb (Nat.eqb n) [45; 95; 46; 33; 126; 42; 39; 40; 41].

(** [encodeURIComponent(s)]: every other byte of the UTF-8 encoding is
    written [%XX]. *)
Fixpoint encodeURIComponent (s : string) : string :=
  match s with
  | EmptyString => EmptyString
  | String c s' =>
      if unreserved c then String c (encodeURIComponent s')
      else let n := nat_of_ascii c in
           String "%" (String (hexDigit (n / 16)) (String (hexDigit (n mod 16))
             (encodeURIComponent s')))
  end.

End JS.

(** ** The platform: headers, requests, responses and [fetch] *)

(** A [Headers] object: a finite map from lower-cased header names to
    values; every operation lower-cases the name it is given. *)
Module Headers.

Definition get (h : gmap string string) (name : string) : option string :=
  h !! JS.toLowerCase name.

Definition has (h : gmap string string) (name : string) : bool :=
  bool_decide (is_Some (h !! JS.toLowerCase name)).

Definition set (name value : string) (h : gmap string string) : gmap string string :=
  <[JS.toLowerCase name := value]> h.

Definition delete (name : string) (h : gmap string string) : gmap string string :=
  base.delete (JS.toLowerCase name) h.

(** [h.entries()]: the pairs of a lower-cased name and its value. *)
Definition entries (h : gmap string string) : list (string * string) :=
  map_to_list h.

(** [new Headers(init)] from an object literal. *)
Definition of_list (l : list (string * string)) : gmap string string :=
  fold_left (fun h kv => set (fst kv) (snd kv) h) l ∅.

End Headers.

Module URL.
(** The parts of a parsed request URL the scripts read. [searchParams] is
    the decoded view of the query string that the platform computes. *)
Record t := mk {
  hostname : string;
  pathname : string;
  search : string;
  searchParams : list (string * string)
}.

(** [url.searchParams.get(name)]: the first value of [name], or [null]. *)
Fixpoint get (params : list (string * string)) (name : string) : option string :=
  match params with
  | [] => None
  | (k, v) :: rest => if String.eqb k name then Some v else get rest name
  end.
End URL.

Module Request.
Record t := mk {
  url : URL.t;
  method : string;
  headers : gmap string string;
  body : option string
}.
End Request.

Module Response.
Record t := mk {
  status : nat;
  statusText : string;
  headers : gmap string string;
  body : string
}.
End Response.

(** What a script hands to [fetch]. *)
Module Fetch.
Inductive redirect_mode := follow | manual.
Record t := mk {
  url : string;
  method : string;
  headers : gmap string string;
  body : option string;
  redirect : redirect_mode
}.
End Fetch.

(** ** Asynchronous computations

    A handler runs against the network, a function from the request
    handed to [fetch] to the response of the upstream ([None]: the
    network failed and the promise of [fetch] is rejected). It yields the
    requests it issued, in order, and how its promise settles. *)
Module Async.

Inductive outcome (A : Type) :=
| Resolved (a : A)
| Rejected.
Arguments Resolved {A} a.
Arguments Rejected {A}.

Definition network := Fetch.t -> option Response.t.

Definition t (A : Type) := network -> list Fetch.t * outcome A.

Definition ret {A} (a : A) : t A := fun _ => ([], Resolved a).

Definition bind {A B} (m : t A) (k : A -> t B) : t B :=
  fun net =>
    match m net with
    | (tr, Resolved a) => let '(tr', o) := k a net in (tr ++ tr', o)
    | (tr, Rejected) => (tr, Rejected)
    end.

(** [await fetch(req)] *)
Definition fetch (req : Fetch.t) : t Response.t :=
  fun net => ([req], match net req with Some r => Resolved r | None => Rejected end).

(** [try { m } catch (error) { handler }] around awaited calls. *)
Definition tryCatch {A} (m : t A) (handler : t A) : t A :=
  fun net =>
    match m net with
    | (tr, Rejected) => let '(tr', o) := handler net in (tr ++ tr', o)
    | r => r
    end.

(** An exception thrown inside an [async] function outside every [try]:
    its promise is rejected. *)
Definition throw {A} : t A := fun _ => ([], Rejected).

(** The value of an expression that may throw. *)
Definition attempt {A} (o : option A) : t A :=
  match o with
  | Some a => ret a
  | None => throw
  end.

Definition trace {A} (r : list Fetch.t * outcome A) : list Fetch.t := fst r.
Definition result {A} (r : list Fetch.t * outcome A) : outcome A := snd r.

End Async.

#[global] Instance async_ret : MRet Async.t := @Async.ret.
#[global] Instance async_bind : MBind Async.t := fun A B k m => Async.bind m k.

(** Responses the scripts build themselves. *)
Module Build.

Definition quoted (s : string) : string := JS.dquote +:+ s +:+ JS.dquote.

(** [JSON.stringify({ key: value })] for one string field. *)
Definition json1 (key value : string) : string :=
  "{" +:+ quoted key +:+ ":" +:+ quoted value +:+ "}".

(** [new Response(text, { status, headers })] with a string body: the
    platform adds a [Content-Type] when the headers name none. *)
Definition text (body : string) (status : nat) (headers : gmap string string)
  : Response.t :=
  Response.mk status EmptyString
    (if Headers.has headers "Content-Type" then headers
     else Headers.set "Content-Type" "text/plain;charset=UTF-8" headers)
    body.

(** The status codes the constructor of [Response] accepts: it throws a
    [RangeError] for a status outside 200..599. *)
Definition validStatus (status : nat) : bool := (200 <=? status) && (status <=? 599).

(** [new Response(upstream.body, { status, statusText, headers })] with
    the body stream, the status and the status text of an upstream
    response; [None] when the constructor throws. The status text of an
    upstream response is a reason phrase, which the constructor accepts;
    the body of an upstream response with a null body status (204, 205,
    304) is [null], which the constructor accepts with such a status. *)
Definition stream (body : string) (status : nat) (statusText : string)
  (headers : gmap string string) : option Response.t :=
  if validStatus status then Some (Response.mk status statusText headers body)
  else None.

End Build.

(** [headers.set] of the three hardening headers, the same function in
    three of the scripts and written out in the fourth. *)
Definition addSecurityHeaders (headers : gmap string string) : gmap string string :=
  Headers.set "Referrer-Policy" "no-referrer"
    (Headers.set "X-Frame-Options" "DENY"
       (Headers.set "X-Content-Type-Options" "nosniff" headers)).

(** The [Location] a redirect of Docker Hub is chased to, if any: the
    test of the status and the read of the header that the registry
    handlers make before they fetch the blob themselves. *)
Definition blobRedirect (isDockerHub : bool) (response : Response.t)
  : option string :=
  if isDockerHub
     && ((Response.status response =? 307) || (Response.status response =? 302))
  then
    match Headers.get (Response.headers response) "Location" with
    | Some location => if JS.truthy location then Some location else None
    | None => None
    end
  else None.

(** An entry of a configuration table; [allowedHeaders] may be absent. *)
Record ApiConfig := mkConfig {
  baseUrl : string;
  allowedHeaders : option (list string)
}.

(** [Object.keys(table)] and [table[key]] of a configuration object, whose
    keys are kept in insertion order. *)
Definition keys (table : list (string * ApiConfig)) : list string := map fst table.

Fixpoint lookupConfig (table : list (string * ApiConfig)) (key : string)
  : option ApiConfig :=
  match table with
  | [] => None
  | (k, c) :: rest => if String.eqb k key then Some c else lookupConfig rest key
  end.

(** The generic API table, the same entries in every script. *)
Definition aiEntries : list (string * ApiConfig) :=
  [ ("discord", mkConfig "https://discord.com/api" None);
    ("telegram", mkConfig "https://api.telegram.org" None);
    ("openai", mkConfig "https://api.openai.com" None);
    ("claude", mkConfig "https://api.anthropic.com" (Some ["anthropic-version"]));
    ("gemini", mkConfig "https://generativelanguage.googleapis.com"
                 (Some ["x-goog-api-key"]));
    ("meta", mkConfig "https://www.meta.ai/api" None);
    ("groq", mkConfig "https://api.groq.com/openai" None);
    ("xai", mkConfig "https://api.x.ai" (Some ["x-api-key"]));
    ("cohere", mkConfig "https://api.cohere.ai" None);
    ("huggingface", mkConfig "https://api.huggingface.co" None);
    ("together", mkConfig "https://api.together.ai" None);
    ("novita", mkConfig "https://api.novita.ai" None);
    ("portkey", mkConfig "https://api.portkey.ai" None);
    ("fireworks", mkConfig "https://api.fireworks.ai" None);
    ("openrouter", mkConfig "https://openrouter.ai/api" None) ].

(** The registry table; the Docker Hub entry differs between scripts. *)
Definition registryEntries (dockerHub : string) : list (string * ApiConfig) :=
  [ ("docker/elastic", mkConfig "https://docker.elastic.co" None);
    ("docker/hub", mkConfig dockerHub None);
    ("google", mkConfig "https://gcr.io" None);
    ("github", mkConfig "https://ghcr.io" None);
    ("k8s", mkConfig "https://registry.k8s.io" None);
    ("microsoft", mkConfig "https://mcr.microsoft.com" None);
    ("nvidia", mkConfig "https://nvcr.io" None);
    ("quay", mkConfig "https://quay.io" None);
    ("ollama", mkConfig "https://registry.ollama.ai" None) ].

(** A table with [prefix] put before every key. *)
Definition withPrefix (prefix : string) (entries : list (string * ApiConfig))
  : list (string * ApiConfig) :=
  map (fun kc => (prefix +:+ fst kc, snd kc)) entries.

(** ** The gateway script: in-place namespace rewriting, [/v2/token] *)
Module Gateway.

Definition DOCKER_HUB_URL : string := "https://registry-1.docker.io".

Definition DEFAULT_HEADERS : list string :=
  ["accept"; "content-type"; "authorization"; "user-agent"].

(** Keys are the path segments after [/v2/]. *)
Definition registryConfigs : list (string * ApiConfig) :=
  withPrefix "register/" (registryEntries DOCKER_HUB_URL).

(** Keys include the leading slash. *)
Definition aiConfigs : list (string * ApiConfig) := withPrefix "/ai/" aiEntries.

(** The longest prefix that [pathSegment] starts with on a segment
    boundary, and the rest of the path; [null] and the path itself when
    none matches. *)
Definition extractPrefixAndRest (pathSegment : string) (prefixes : list string)
  : option string * string :=
  let bestMatch :=
    fold_left
      (fun (bestMatch : option string) (prefix : string) =>
         if JS.startsWith pathSegment (prefix +:+ "/") || String.eqb pathSegment prefix
         then
           match bestMatch with
           | Some b =>
               if negb (JS.truthy b) || (String.length b <? String.length prefix)
               then Some prefix else bestMatch
           | None => Some prefix
           end
         else bestMatch)
      prefixes None in
  match bestMatch with
  | Some b =>
      if JS.truthy b then (Some b, JS.slice pathSegment (String.length b))
      else (None, pathSegment)
  | None => (None, pathSegment)
  end.

(** The repository name of an image path: what stands before
    [/manifests/] and before [/blobs/]. *)
Definition repoNameOf (imagePath : string) : string :=
  JS.splitHead "/blobs/" (JS.splitHead "/manifests/" imagePath).

(** A name of one segment that is no digest: the test both the path
    rewriting and the scope inference make before they add [library/]. *)
Definition singleSegment (repoName : string) : bool :=
  JS.truthy repoName && negb (JS.includes repoName "/")
  && negb (JS.includes repoName ":").

(** The special handling of Docker Hub official images in
    [handleApiRequest]: [hello-world] becomes [library/hello-world]. *)
Definition officialImagePath (finalImagePath : string) : string :=
  if singleSegment (repoNameOf finalImagePath)
  then "library/" +:+ finalImagePath
  else finalImagePath.

(** One turn of the loop of [responseUnauthorized] over the parts of the
    upstream challenge; the state is [service], [scope], [otherParams]. *)
Definition challengePart (st : string * string * list string) (part : string)
  : string * string * list string :=
  let '(service, scope, otherParams) := st in
  let trimmedPart := JS.trim part in
  if JS.startsWith trimmedPart ("realm=" +:+ JS.dquote) then st
  else if JS.startsWith trimmedPart ("service=" +:+ JS.dquote) then
    (JS.substring trimmedPart (String.length ("service=" +:+ JS.dquote))
       (String.length trimmedPart - 1), scope, otherParams)
  else if JS.startsWith trimmedPart ("scope=" +:+ JS.dquote) then
    (service,
     JS.substring trimmedPart (String.length ("scope=" +:+ JS.dquote))
       (String.length trimmedPart - 1), otherParams)
  else (service, scope, otherParams ++ [trimmedPart]).

(** The service, the scope and the other parameters read from the
    challenge of the upstream; the defaults stand when the header is
    absent and for each parameter the header does not give. *)
Definition parseChallenge (authHeader : option string)
  : string * string * list string :=
  match authHeader with
  | Some h =>
      if JS.truthy h
      then fold_left challengePart (JS.split "," h)
             ("registry.docker.io", "repository:*:pull", [])
      else ("registry.docker.io", "repository:*:pull", [])
  | None => ("registry.docker.io", "repository:*:pull", [])
  end.

(** The scope of the new challenge: inferred from the image path when
    the upstream gave none or the generic one. *)
Definition inferScope (authHeader : option string) (service scope : string)
  (requestedImagePath : option string) : string :=
  if (negb (JS.truthy_opt authHeader)
      || negb (JS.includes (JS.toString authHeader) "scope=")
      || String.eqb scope "repository:*:pull")
     && JS.truthy_opt requestedImagePath
  then
    let repoName := repoNameOf (JS.toString requestedImagePath) in
    let repoName :=
      if String.eqb service "registry.docker.io" && singleSegment repoName
      then "library/" +:+ repoName else repoName in
    if JS.truthy repoName then "repository:" +:+ repoName +:+ ":pull" else scope
  else scope.

(** The value of the rewritten [WWW-Authenticate] header. *)
Definition newAuthHeader (hostname : string) (authHeader : option string)
  (requestedImagePath : option string) : string :=
  let newRealm := "https://" +:+ hostname +:+ "/v2/token" in
  let '(service, scope, otherParams) := parseChallenge authHeader in
  let scope := inferScope authHeader service scope requestedImagePath in
  let header :=
    "Bearer realm=" +:+ Build.quoted newRealm +:+ ",service=" +:+ Build.quoted service
    +:+ ",scope=" +:+ Build.quoted scope in
  if 0 <? length otherParams then header +:+ "," +:+ JS.join "," otherParams
  else header.

(** The 401 with the challenge that points at the gateway. *)
Definition responseUnauthorized (url : URL.t) (authHeader : option string)
  (requestedImagePath : option string) : Response.t :=
  let headers := Headers.set "Content-Type" "application/json" ∅ in
  let headers :=
    Headers.set "WWW-Authenticate"
      (newAuthHeader (URL.hostname url) authHeader requestedImagePath) headers in
  Build.text (Build.json1 "error" "Unauthorized") 401 headers.

(** The request forwarded to the registry. *)
Definition registryRequest (request : Request.t) (baseUrl imagePath search : string)
  : Fetch.t :=
  let cleanedImagePath :=
    if JS.startsWith imagePath "/" then JS.slice imagePath 1 else imagePath in
  Fetch.mk (baseUrl +:+ "/v2/" +:+ cleanedImagePath +:+ search)
    (Request.method request) (Request.headers request) (Request.body request)
    Fetch.manual.

(** The request that chases a blob redirect. *)
Definition redirectRequest (location : string) : Fetch.t :=
  Fetch.mk location "GET" ∅ None Fetch.follow.

Definition handleRegistryRequest (request : Request.t)
  (baseUrl imagePath search : string) : Async.t Response.t :=
  let cleanedImagePath :=
    if JS.startsWith imagePath "/" then JS.slice imagePath 1 else imagePath in
  let isDockerHub := String.eqb baseUrl DOCKER_HUB_URL in
  response ← Async.fetch (registryRequest request baseUrl imagePath search);
  if Response.status response =? 401 then
    mret (responseUnauthorized (Request.url request)
            (Headers.get (Response.headers response) "Www-Authenticate")
            (Some cleanedImagePath))
  else
    match blobRedirect isDockerHub response with
    | Some location => Async.fetch (redirectRequest location)
    | None =>
        Async.attempt
          (Build.stream (Response.body response) (Response.status response)
             (Response.statusText response)
             (addSecurityHeaders (Response.headers response)))
    end.

(** The headers of the inbound request that are forwarded to a generic
    API: the loop of [handleGenericApiRequest] over [entries()]. *)
Definition filterHeaders (requestHeaders : gmap string string)
  (combinedAllowedHeaders : list string) : gmap string string :=
  fold_left
    (fun headers kv =>
       if JS.arrayIncludes combinedAllowedHeaders (JS.toLowerCase (fst kv))
       then Headers.set (fst kv) (snd kv) headers else headers)
    (Headers.entries requestHeaders) ∅.

(** The request forwarded to a generic API; an absent [allowedHeaders]
    takes the default [[]]. *)
Definition genericRequest (request : Request.t) (baseUrl restPath search : string)
  (allowedHeaders : option (list string)) : Fetch.t :=
  let combinedAllowedHeaders := DEFAULT_HEADERS ++ default [] allowedHeaders in
  Fetch.mk
    (baseUrl +:+ (if JS.startsWith restPath "/" then restPath else "/" +:+ restPath)
     +:+ search)
    (Request.method request)
    (filterHeaders (Request.headers request) combinedAllowedHeaders)
    (Request.body request) Fetch.follow.

Definition handleGenericApiRequest (request : Request.t)
  (baseUrl restPath search : string) (allowedHeaders : option (list string))
  : Async.t Response.t :=
  response ← Async.fetch (genericRequest request baseUrl restPath search allowedHeaders);
  Async.attempt
    (Build.stream (Response.body response) (Response.status response)
       (Response.statusText response)
       (addSecurityHeaders (Response.headers response))).

Definition internalServerError : Response.t :=
  Build.text "Internal Server Error" 500 ∅.

Definition notFound : Response.t :=
  Build.text (Build.json1 "error" "Not Found") 404
    (Headers.of_list [("Content-Type", "application/json")]).

Definition landingPage : Response.t :=
  Build.text "Service is running!" 200
    (Headers.of_list [("Content-Type", "text/html; charset=utf-8")]).

Definition robotsTxt : Response.t :=
  Build.text ("User-agent: *" +:+ String (ascii_of_nat 10) "Disallow: /") 200
    (Headers.of_list [("Content-Type", "text/plain; charset=utf-8")]).

(** The request of the [/v2/] ping, sent to Docker Hub. *)
Definition pingRequest (request : Request.t) : Fetch.t :=
  Fetch.mk (DOCKER_HUB_URL +:+ "/v2/") (Request.method request)
    (Request.headers request) None Fetch.manual.

(** The registry and the image path a [/v2/] path resolves to. *)
Definition resolveRegistry (v2Path : string) : option (string * string) :=
  let '(registryPrefix, imagePath) :=
    extractPrefixAndRest v2Path (keys registryConfigs) in
  let target :=
    match registryPrefix with
    | Some p =>
        match lookupConfig registryConfigs p with
        | Some config => Some (baseUrl config, imagePath)
        | None => None
        end
    | None => Some (DOCKER_HUB_URL, v2Path)
    end in
  match target with
  | Some (targetBaseUrl, finalImagePath) =>
      let finalImagePath :=
        if String.eqb targetBaseUrl DOCKER_HUB_URL
        then officialImagePath finalImagePath else finalImagePath in
      let cleanedFinalImagePath :=
        if JS.startsWith finalImagePath "/" then JS.slice finalImagePath 1
        else finalImagePath in
      Some (targetBaseUrl, cleanedFinalImagePath)
  | None => None
  end.

(** Handles all requests except the token endpoint. The [catch] of the
    script covers the awaited ping and a failed table lookup; the
    promises of the two forwarding handlers are returned without
    [await], so their rejections pass through. *)
Definition handleApiRequest (request : Request.t) : Async.t Response.t :=
  let url := Request.url request in
  let pathname := URL.pathname url in
  let search := URL.search url in
  if String.eqb pathname "/" || String.eqb pathname "/index.html" then
    mret landingPage
  else if String.eqb pathname "/robots.txt" then mret robotsTxt
  else if JS.startsWith pathname "/v2/" then
    let v2Path := JS.slice pathname 4 in
    if String.eqb v2Path EmptyString || String.eqb v2Path "/" then
      Async.tryCatch
        (pingResponse ← Async.fetch (pingRequest request);
         if Response.status pingResponse =? 401 then
           mret (responseUnauthorized url
                   (Headers.get (Response.headers pingResponse) "Www-Authenticate")
                   None)
         else mret pingResponse)
        (mret internalServerError)
    else
      match resolveRegistry v2Path with
      | Some (targetBaseUrl, cleanedFinalImagePath) =>
          handleRegistryRequest request targetBaseUrl cleanedFinalImagePath search
      | None => mret internalServerError
      end
  else
    let '(aiPrefix, restPath) := extractPrefixAndRest pathname (keys aiConfigs) in
    match aiPrefix with
    | Some p =>
        match lookupConfig aiConfigs p with
        | Some config =>
            handleGenericApiRequest request (baseUrl config) restPath search
              (allowedHeaders config)
        | None => mret internalServerError
        end
    | None => mret notFound
    end.

(** The request relayed to the token server of Docker Hub: [service] and
    [scope] are the query parameters of the client, or [null]. *)
Definition tokenRequest (request : Request.t) : Fetch.t :=
  let searchParams := URL.searchParams (Request.url request) in
  let service := URL.get searchParams "service" in
  let scope := URL.get searchParams "scope" in
  let encodedService := JS.encodeURIComponent (JS.toString service) in
  let encodedScope := JS.encodeURIComponent (JS.toString scope) in
  let tokenUrl :=
    "https://auth.docker.io/token?service=" +:+ encodedService
    +:+ "&scope=" +:+ encodedScope in
  Fetch.mk tokenUrl "GET" (Headers.delete "host" (Request.headers request))
    None Fetch.follow.

(** The handler of [/v2/token]. *)
Definition handleTokenRequest (request : Request.t) : Async.t Response.t :=
  tokenResponse ← Async.fetch (tokenRequest request);
  mret tokenResponse.

(** The router. *)
Definition handleRequest (request : Request.t) : Async.t Response.t :=
  if String.eqb (URL.pathname (Request.url request)) "/v2/token"
  then handleTokenRequest request
  else handleApiRequest request.

End Gateway.

(** ** The script with the 301 redirect for official images, [/v2/auth] *)
Module AuthVariant.

Definition DOCKER_HUB_URL : string := "https://registry-1.docker.io".

(** The test [handleApiRequest] makes on a Docker Hub image path, and the
    path of the 301 redirect it answers with: [library] is inserted after
    [/v2/] in the path of the request. *)
Definition officialImageRedirect (pathname finalImagePath : string)
  : option string :=
  let pathParts := JS.split "/" finalImagePath in
  let first := hd EmptyString pathParts in
  if (2 <=? length pathParts) && negb (JS.includes first ".")
     && negb (JS.includes first ":") && negb (String.eqb first "library")
  then Some (JS.join "/" (JS.splice_insert 2 "library" (JS.split "/" pathname)))
  else None.

(** The challenge of every 401: a constant service name. *)
Definition responseUnauthorized (url : URL.t) : Response.t :=
  let headers := Headers.set "Content-Type" "application/json" ∅ in
  let headers :=
    Headers.set "WWW-Authenticate"
      ("Bearer realm=" +:+ Build.quoted ("https://" +:+ URL.hostname url +:+ "/v2/auth")
       +:+ ",service=" +:+ Build.quoted "cloudflare-docker-proxy") headers in
  Build.text (Build.json1 "message" "UNAUTHORIZED") 401 headers.

Definition isQuote (c : ascii) : bool := Ascii.eqb c (ascii_of_nat 34).
Definition isBackslash (c : ascii) : bool := Ascii.eqb c (ascii_of_nat 92).
Definition isLineTerminator (c : ascii) : bool :=
  Ascii.eqb c (ascii_of_nat 10) || Ascii.eqb c (ascii_of_nat 13).

(** The body of the regular expression of [parseAuthenticate] matched at
    the start of [s]: escaped characters and characters other than the
    quote and the backslash, as many as there are, and then a quote. *)
Fixpoint quotedBody (s : string) : option string :=
  match s with
  | EmptyString => None
  | String c s' =>
      if isQuote c then Some EmptyString
      else if isBackslash c then
        match s' with
        | String d s'' =>
            if isLineTerminator d then None
            else option_map (fun m => String c (String d m)) (quotedBody s'')
        | EmptyString => None
        end
      else option_map (String c) (quotedBody s')
  end.

(** [str.match(re)] for the global expression of [parseAuthenticate]: the
    matches from left to right, none overlapping. [p1] and [p2] are the
    two characters before [s]; [skip] counts the characters left of the
    match found last. *)
Fixpoint matchQuoted (p1 p2 : ascii) (skip : nat) (s : string) : list string :=
  match s with
  | EmptyString => []
  | String c s' =>
      match skip with
      | S k => matchQuoted p2 c k s'
      | 0 =>
          if Ascii.eqb p1 "="%char && isQuote p2 then
            match quotedBody s with
            | Some m => m :: matchQuoted p2 c (String.length m - 1) s'
            | None => matchQuoted p2 c 0 s'
            end
          else matchQuoted p2 c 0 s'
      end
  end.

(** The realm and the service of a challenge; [None] when the script
    throws [invalid Www-Authenticate Header]. *)
Definition parseAuthenticate (authenticateStr : string) : option (string * string) :=
  match matchQuoted " "%char " "%char 0 authenticateStr with
  | realm :: service :: _ => Some (realm, service)
  | _ => None
  end.

(** The service and the scope [handleAuthRequest] works with, from the
    query parameters of the client. *)
Definition mapService (service : option string) : option string :=
  match service with
  | Some s => if String.eqb s "cloudflare-docker-proxy"
              then Some "registry.docker.io" else service
  | None => None
  end.

Definition completeScope (service scope : option string) : option string :=
  match scope, service with
  | Some sc, Some sv =>
      if JS.truthy sc && String.eqb sv "registry.docker.io" then
        match JS.split ":" sc with
        | [a; b; c] =>
            if negb (JS.includes b "/")
            then Some (JS.join ":" [a; "library/" +:+ b; c]) else scope
        | _ => scope
        end
      else scope
  | _, _ => scope
  end.

Section Platform.

(** [new URL(realm)] followed by [searchParams.set] of each pair, as the
    string of the resulting URL; [None] when [realm] is no URL and the
    constructor throws. *)
Variable urlWithParams : string -> list (string * string) -> option string.

Definition fetchToken (wwwAuthenticate : string * string) (scope : option string)
  (authorization : option string) : Async.t Response.t :=
  let '(realm, service) := wwwAuthenticate in
  let params :=
    (if 0 <? String.length service then [("service", service)] else [])
    ++ (if JS.truthy_opt scope then [("scope", JS.toString scope)] else []) in
  let headers :=
    if JS.truthy_opt authorization
    then Headers.set "Authorization" (JS.toString authorization) ∅ else ∅ in
  match urlWithParams realm params with
  | Some url => Async.fetch (Fetch.mk url "GET" headers None Fetch.follow)
  | None => fun _ => ([], Async.Rejected)
  end.

Definition probeRequest : Fetch.t :=
  Fetch.mk (DOCKER_HUB_URL +:+ "/v2/") "GET" ∅ None Fetch.manual.

Definition discoveryFailure : Response.t :=
  Build.text (Build.json1 "error" "Failed to get upstream authentication challenge")
    500 ∅.

(** The handler of [/v2/auth]. *)
Definition handleAuthRequest (request : Request.t) : Async.t Response.t :=
  let searchParams := URL.searchParams (Request.url request) in
  let service := mapService (URL.get searchParams "service") in
  let scope := completeScope service (URL.get searchParams "scope") in
  let authorization := Headers.get (Request.headers request) "Authorization" in
  pingResp ← Async.fetch probeRequest;
  match Headers.get (Response.headers pingResp) "WWW-Authenticate" with
  | Some authenticateStr =>
      if JS.truthy authenticateStr then
        match parseAuthenticate authenticateStr with
        | Some wwwAuthenticate => fetchToken wwwAuthenticate scope authorization
        | None => fun _ => ([], Async.Rejected)
        end
      else mret discoveryFailure
  | None => mret discoveryFailure
  end.

End Platform.

(** The two tables, the router and the generic forwarder of this script
    have the text of those of the gateway script. *)
Definition registryConfigs : list (string * ApiConfig) :=
  withPrefix "register/" (registryEntries DOCKER_HUB_URL).

Definition aiConfigs : list (string * ApiConfig) := withPrefix "/ai/" aiEntries.

Definition extractPrefixAndRest (pathSegment : string) (prefixes : list string)
  : option string * string :=
  Gateway.extractPrefixAndRest pathSegment prefixes.

Definition handleGenericApiRequest (request : Request.t)
  (baseUrl restPath search : string) (allowedHeaders : option (list string))
  : Async.t Response.t :=
  Gateway.handleGenericApiRequest request baseUrl restPath search allowedHeaders.

Section Routing.

Variable urlWithParams : string -> list (string * string) -> option string.

(** [new URL(s).toString()]: the string of the URL that [s] parses to;
    [None] when [s] is no URL and the constructor throws. *)
Variable parseUrl : string -> option string.

(** The string of the URL of the request after its path is set to
    [pathname]. *)
Variable hrefWithPath : URL.t -> string -> string.

(** [Response.redirect(url, 301)] *)
Definition redirect301 (href : string) : Response.t :=
  Response.mk 301 EmptyString (Headers.set "Location" href ∅) EmptyString.

(** The request forwarded to the registry: the image path is put after
    [/v2/] as it is. *)
Definition registryRequest (request : Request.t) (baseUrl imagePath search : string)
  : Fetch.t :=
  Fetch.mk (baseUrl +:+ "/v2/" +:+ imagePath +:+ search)
    (Request.method request) (Request.headers request) (Request.body request)
    Fetch.manual.

(** The registry handler: the location of a Docker Hub redirect goes
    through [new URL], which throws on a header that is absent ([null])
    or no URL. *)
Definition handleRegistryRequest (request : Request.t)
  (baseUrl imagePath search : string) : Async.t Response.t :=
  let isDockerHub := String.eqb baseUrl DOCKER_HUB_URL in
  response ← Async.fetch (registryRequest request baseUrl imagePath search);
  if Response.status response =? 401 then
    mret (responseUnauthorized (Request.url request))
  else if isDockerHub
          && ((Response.status response =? 307) || (Response.status response =? 302))
  then
    match parseUrl (JS.toString (Headers.get (Response.headers response) "Location")) with
    | Some location => Async.fetch (Fetch.mk location "GET" ∅ None Fetch.follow)
    | None => fun _ => ([], Async.Rejected)
    end
  else
    Async.attempt
      (Build.stream (Response.body response) (Response.status response)
         (Response.statusText response)
         (addSecurityHeaders (Response.headers response))).

Definition pingRequest (request : Request.t) : Fetch.t :=
  Fetch.mk (DOCKER_HUB_URL +:+ "/v2/") (Request.method request)
    (Request.headers request) None Fetch.manual.

(** What a [/v2/] path other than the ping resolves to: the 301 of an
    official image, or the registry and the image path to forward to;
    [None] when the lookup in the table fails. *)
Definition resolveRegistry (url : URL.t) (v2Path : string)
  : option (Response.t + string * string) :=
  let '(registryPrefix, imagePath) :=
    extractPrefixAndRest v2Path (keys registryConfigs) in
  let target :=
    match registryPrefix with
    | Some p =>
        match lookupConfig registryConfigs p with
        | Some config =>
            Some (baseUrl config, imagePath, String.eqb (baseUrl config) DOCKER_HUB_URL)
        | None => None
        end
    | None => Some (DOCKER_HUB_URL, v2Path, true)
    end in
  match target with
  | Some (targetBaseUrl, finalImagePath, isDockerHub) =>
      match
        (if isDockerHub then officialImageRedirect (URL.pathname url) finalImagePath
         else None)
      with
      | Some newPath => Some (inl (redirect301 (hrefWithPath url newPath)))
      | None =>
          let cleanedFinalImagePath :=
            if JS.startsWith finalImagePath "/" then JS.slice finalImagePath 1
            else finalImagePath in
          Some (inr (targetBaseUrl, cleanedFinalImagePath))
      end
  | None => None
  end.

Definition internalServerError : Response.t :=
  Build.text "Internal Server Error" 500 ∅.

(** Handles all requests except the auth endpoint. *)
Definition handleApiRequest (request : Request.t) : Async.t Response.t :=
  let url := Request.url request in
  let pathname := URL.pathname url in
  let search := URL.search url in
  if String.eqb pathname "/" || String.eqb pathname "/index.html" then
    mret Gateway.landingPage
  else if String.eqb pathname "/robots.txt" then mret Gateway.robotsTxt
  else if JS.startsWith pathname "/v2/" then
    let v2Path := JS.slice pathname 4 in
    if String.eqb v2Path EmptyString || String.eqb v2Path "/" then
      Async.tryCatch
        (pingResponse ← Async.fetch (pingRequest request);
         if Response.status pingResponse =? 401 then mret (responseUnauthorized url)
         else mret pingResponse)
        (mret internalServerError)
    else
      match resolveRegistry url v2Path with
      | Some (inl redirect) => mret redirect
      | Some (inr (targetBaseUrl, cleanedFinalImagePath)) =>
          handleRegistryRequest request targetBaseUrl cleanedFinalImagePath search
      | None => mret internalServerError
      end
  else
    let '(aiPrefix, restPath) := extractPrefixAndRest pathname (keys aiConfigs) in
    match aiPrefix with
    | Some p =>
        match lookupConfig aiConfigs p with
        | Some config =>
            handleGenericApiRequest request (baseUrl config) restPath search
              (allowedHeaders config)
        | None => mret internalServerError
        end
    | None => mret Gateway.notFound
    end.

(** The router. *)
Definition handleRequest (request : Request.t) : Async.t Response.t :=
  if String.eqb (URL.pathname (Request.url request)) "/v2/auth"
  then handleAuthRequest urlWithParams request
  else handleApiRequest request.

End Routing.

End AuthVariant.

(** ** The script with one prefix table, [/v2/token]

    The handlers of the script are embedded. *)
Module TableVariant.

Definition DOCKER_HUB_URL : string := "https://registry-1.docker.io".

Definition DEFAULT_HEADERS : list string :=
  ["accept"; "content-type"; "authorization"; "user-agent"].

Definition apiConfigs : list (string * ApiConfig) :=
  withPrefix "/registry/" (registryEntries DOCKER_HUB_URL)
  ++ withPrefix "/ai/" aiEntries.

(** The longest prefix followed by a slash in the path, after a leading
    slash is put before the path. *)
Definition extractPrefixAndRest (pathname : string) (prefixes : list string)
  : option string * string :=
  let normalizedPath :=
    if JS.startsWith pathname "/" then pathname else "/" +:+ pathname in
  let bestMatch :=
    fold_left
      (fun (bestMatch : option string) (prefix : string) =>
         if JS.startsWith normalizedPath (prefix +:+ "/") then
           match bestMatch with
           | Some b =>
               if negb (JS.truthy b) || (String.length b <? String.length prefix)
               then Some prefix else bestMatch
           | None => Some prefix
           end
         else bestMatch)
      prefixes None in
  match bestMatch with
  | Some b =>
      if JS.truthy b then (Some b, JS.slice normalizedPath (String.length b))
      else (None, pathname)
  | None => (None, pathname)
  end.

(** Characters other than the quote, and then a quote, at the start of
    [s]: the characters before the quote. *)
Fixpoint quotedRun (s : string) : option string :=
  match s with
  | EmptyString => None
  | String c s' =>
      if Ascii.eqb c (ascii_of_nat 34) then Some EmptyString
      else option_map (String c) (quotedRun s')
  end.

(** The group of the first match in [s] of the expression for [key]: the
    key, an equals sign, a quote, one character or more other than the
    quote, a quote. *)
Fixpoint regexParam (key s : string) : option string :=
  let here :=
    if JS.startsWith s (key +:+ "=" +:+ JS.dquote) then
      match quotedRun (JS.slice s (String.length key + 2)) with
      | Some m => if JS.truthy m then Some m else None
      | None => None
      end
    else None in
  match here with
  | Some m => Some m
  | None =>
      match s with
      | EmptyString => None
      | String _ s' => regexParam key s'
      end
  end.

Definition unauthorized (challenge : string) : Response.t :=
  Build.text (Build.json1 "error" "Unauthorized") 401
    (Headers.of_list [("Www-Authenticate", challenge);
                      ("Content-Type", "application/json")]).

(** The 401 with the realm rewritten; the fallback when the upstream
    challenge is absent or has no realm or no service. *)
Definition responseUnauthorized (url : URL.t) (authHeader : option string)
  : Response.t :=
  let newRealm := "https://" +:+ URL.hostname url +:+ "/v2/token" in
  let parsed :=
    match authHeader with
    | Some h =>
        if JS.truthy h then
          match regexParam "realm" h, regexParam "service" h with
          | Some _, Some service => Some service
          | _, _ => None
          end
        else None
    | None => None
    end in
  match parsed with
  | Some service =>
      unauthorized ("Bearer realm=" +:+ Build.quoted newRealm +:+ ",service="
                    +:+ Build.quoted service)
  | None =>
      unauthorized ("Bearer realm=" +:+ Build.quoted newRealm +:+ ",service="
                    +:+ Build.quoted "registry.docker.io")
  end.

(** The upstream URL of a registry request and whether it is Docker Hub. *)
Definition registryTarget (pathname search : string) : option (string * bool) :=
  let v2Path := JS.slice pathname 4 in
  let '(prefix, imagePath) := extractPrefixAndRest v2Path (keys apiConfigs) in
  match prefix with
  | Some p =>
      if JS.startsWith p "/registry/" then
        match lookupConfig apiConfigs p with
        | Some config =>
            Some (baseUrl config +:+ "/v2"
                  +:+ (if JS.startsWith imagePath "/" then imagePath
                       else "/" +:+ imagePath) +:+ search,
                  String.eqb (baseUrl config) DOCKER_HUB_URL)
        | None => None
        end
      else Some (DOCKER_HUB_URL +:+ "/v2/" +:+ v2Path +:+ search, true)
  | None => Some (DOCKER_HUB_URL +:+ "/v2/" +:+ v2Path +:+ search, true)
  end.

Definition redirectRequest (location : string) : Fetch.t :=
  Fetch.mk location "GET" ∅ None Fetch.follow.

Definition pingRequest (request : Request.t) : Fetch.t :=
  Fetch.mk (DOCKER_HUB_URL +:+ "/v2/") (Request.method request)
    (Request.headers request) None Fetch.manual.

(** The request forwarded to the registry. *)
Definition registryRequest (request : Request.t) (targetUrl : string) : Fetch.t :=
  Fetch.mk targetUrl (Request.method request) (Request.headers request)
    (Request.body request) Fetch.manual.

(** A failed table lookup throws inside the handler, whose promise is
    rejected. *)
Definition handleRegistryRequest (request : Request.t) (pathname search : string)
  : Async.t Response.t :=
  let v2Path := JS.slice pathname 4 in
  if String.eqb v2Path EmptyString || String.eqb v2Path "/" then
    pingResponse ← Async.fetch (pingRequest request);
    if Response.status pingResponse =? 401 then
      mret (responseUnauthorized (Request.url request) None)
    else mret pingResponse
  else
    match registryTarget pathname search with
    | None => fun _ => ([], Async.Rejected)
    | Some (targetUrl, isDockerHub) =>
        response ← Async.fetch (registryRequest request targetUrl);
        if Response.status response =? 401 then
          mret (responseUnauthorized (Request.url request)
                  (Headers.get (Response.headers response) "Www-Authenticate"))
        else
          match blobRedirect isDockerHub response with
          | Some location => Async.fetch (redirectRequest location)
          | None =>
              Async.attempt
                (Build.stream (Response.body response) (Response.status response)
                   (Response.statusText response)
                   (addSecurityHeaders (Response.headers response)))
          end
    end.

(** The request relayed to the token server: the parameters are put into
    the URL as they are, [null] for one that is absent. *)
Definition tokenRequest (request : Request.t) : Fetch.t :=
  let searchParams := URL.searchParams (Request.url request) in
  let service := URL.get searchParams "service" in
  let scope := URL.get searchParams "scope" in
  let tokenUrl :=
    "https://auth.docker.io/token?service=" +:+ JS.toString service
    +:+ "&scope=" +:+ JS.toString scope in
  let headers :=
    match Headers.get (Request.headers request) "authorization" with
    | Some a => Headers.set "authorization" a ∅
    | None => ∅
    end in
  Fetch.mk tokenUrl "GET" headers None Fetch.follow.

Definition handleTokenRequest (request : Request.t) : Async.t Response.t :=
  tokenResponse ← Async.fetch (tokenRequest request);
  mret tokenResponse.

Definition notFound : Response.t :=
  Build.text (Build.json1 "error" "Not Found") 404
    (Headers.of_list [("Content-Type", "application/json")]).

(** The request forwarded to a generic API. *)
Definition genericRequest (request : Request.t) (config : ApiConfig)
  (rest search : string) : Fetch.t :=
  let allowedHeaders := DEFAULT_HEADERS ++ default [] (allowedHeaders config) in
  Fetch.mk
    (baseUrl config +:+ (if JS.startsWith rest "/" then rest else "/" +:+ rest)
     +:+ search)
    (Request.method request)
    (Gateway.filterHeaders (Request.headers request) allowedHeaders)
    (Request.body request) Fetch.follow.

(** The generic handler: it looks the path up in the whole table, the
    registry prefixes with it. *)
Definition handleGenericApiRequest (request : Request.t) (pathname search : string)
  : Async.t Response.t :=
  let '(prefix, rest) := extractPrefixAndRest pathname (keys apiConfigs) in
  match prefix with
  | None => mret notFound
  | Some p =>
      match lookupConfig apiConfigs p with
      | None => fun _ => ([], Async.Rejected)
      | Some config =>
          response ← Async.fetch (genericRequest request config rest search);
          Async.attempt
            (Build.stream (Response.body response) (Response.status response)
               (Response.statusText response)
               (addSecurityHeaders (Response.headers response)))
      end
  end.

End TableVariant.

(** ** [src/index.js] *)
Module IndexJs.

Definition DEFAULT_HEADERS : list string :=
  ["accept"; "content-type"; "authorization"].

(** [mergeConfigs([aiApis, registryApis])] *)
Definition apiMapping : list (string * ApiConfig) :=
  withPrefix "/ai/" aiEntries
  ++ withPrefix "/registry/" (registryEntries "https://docker.io").

(** The first prefix the path starts with. *)
Definition extractPrefixAndRest (pathname : string) (prefixes : list string)
  : option string * option string :=
  let normalizedPath :=
    if JS.startsWith pathname "/" then pathname else "/" +:+ pathname in
  match find (fun prefix => JS.startsWith normalizedPath prefix) prefixes with
  | Some prefix => (Some prefix, Some (JS.slice normalizedPath (String.length prefix)))
  | None => (None, None)
  end.

(** The headers every upstream request starts with. *)
Definition necessaryHeaders (requestHeaders : gmap string string)
  : gmap string string :=
  fold_left
    (fun headers key =>
       if Headers.has requestHeaders (JS.toLowerCase key)
       then match Headers.get requestHeaders (JS.toLowerCase key) with
            | Some v => Headers.set key v headers
            | None => headers
            end
       else headers)
    ["accept"; "content-type"; "authorization"; "user-agent"] ∅.

(** The headers forwarded to a generic API: the necessary ones and those
    the target allows. *)
Definition forwardedHeaders (requestHeaders : gmap string string)
  (allowedHeaders : list string) : gmap string string :=
  fold_left
    (fun headers kv =>
       let lowerKey := JS.toLowerCase (fst kv) in
       if JS.arrayIncludes allowedHeaders lowerKey
       then Headers.set (fst kv) (snd kv) headers else headers)
    (Headers.entries requestHeaders) (necessaryHeaders requestHeaders).

Definition landingPage : Response.t :=
  Build.text "Service is running!" 200
    (Headers.of_list [("Content-Type", "text/html; charset=utf-8")]).

Definition robotsTxt : Response.t :=
  Build.text ("User-agent: *" +:+ String (ascii_of_nat 10) "Disallow: /") 200
    (Headers.of_list [("Content-Type", "text/plain; charset=utf-8")]).

Definition withSlash (rest : string) : string :=
  if JS.startsWith rest "/" then rest else "/" +:+ rest.

Definition secured (response : Response.t) : option Response.t :=
  Build.stream (Response.body response) (Response.status response)
    (Response.statusText response) (addSecurityHeaders (Response.headers response)).

(** The request handler. The [catch] of the script reads [targetUrl],
    which is declared inside the [try] block: it throws in its turn, and
    the promise is rejected when a [fetch] fails and when the constructor
    of [Response] throws. *)
Definition handleRequest (request : Request.t) : Async.t Response.t :=
  let url := Request.url request in
  let pathname := URL.pathname url in
  let search := URL.search url in
  if String.eqb pathname "/" || String.eqb pathname "/index.html" then
    mret landingPage
  else if String.eqb pathname "/robots.txt" then mret robotsTxt
  else
    match extractPrefixAndRest pathname (keys apiMapping) with
    | (Some prefix, Some rest) =>
        if negb (JS.truthy prefix) then mret (Build.text "Not Found" 404 ∅)
        else
          match lookupConfig apiMapping prefix with
          | None => fun _ => ([], Async.Rejected)
          | Some config =>
              let headers := necessaryHeaders (Request.headers request) in
              if JS.startsWith prefix "/registry/" then
                let registryType := nth 2 (JS.split "/" prefix) EmptyString in
                let targetUrl := baseUrl config +:+ withSlash rest +:+ search in
                if String.eqb registryType "docker/hub" then
                  response ←
                    Async.fetch
                      (Fetch.mk ("https://registry-1.docker.io" +:+ withSlash rest
                                 +:+ search)
                         (Request.method request) headers (Request.body request)
                         Fetch.follow);
                  Async.attempt (secured response)
                else
                  response ←
                    Async.fetch (Fetch.mk targetUrl (Request.method request) headers
                                   (Request.body request) Fetch.follow);
                  Async.attempt (secured response)
              else
                let targetUrl := baseUrl config +:+ withSlash rest +:+ search in
                let allowedHeaders := default [] (allowedHeaders config) in
                response ←
                  Async.fetch
                    (Fetch.mk targetUrl (Request.method request)
                       (forwardedHeaders (Request.headers request) allowedHeaders)
                       (Request.body request) Fetch.follow);
                Async.attempt (secured response)
          end
    | _ => mret (Build.text "Not Found" 404 ∅)
    end.

End IndexJs.

(** ** Vocabulary of the properties *)

(** The test of the gateway router: the prefix ends on a segment
    boundary of the path. *)
Definition segmentMatch (pathSegment prefix : string) : bool :=
  JS.startsWith pathSegment (prefix +:+ "/") || String.eqb pathSegment prefix.

(** One turn of the loop of a longest-match router whose test of a
    prefix is [test]. *)
Definition better (test : string -> bool) (bestMatch : option string)
  (prefix : string) : option string :=
  if test prefix then
    match bestMatch with
    | Some b =>
        if negb (JS.truthy b) || (String.length b <? String.length prefix)
        then Some prefix else bestMatch
    | None => Some prefix
    end
  else bestMatch.

(** A prefix that owns the path: no prefix of the table that passes the
    test is longer, and one as long is the prefix itself. *)
Definition owns (test : string -> bool) (prefixes : list string) (P : string)
  : Prop :=
  forall q, In q prefixes -> test q = true ->
    String.length q <= String.length P /\
    (String.length q = String.length P -> q = P).

(** No prefix of the table goes on with a further segment after [P]. *)
Definition unextended (prefixes : list string) (P : string) : Prop :=
  forall q, In q prefixes -> JS.startsWith q (P +:+ "/") = false.

(** A table all of whose prefixes are non-empty and unextended. *)
Definition flatTable (prefixes : list string) : bool :=
  forallb (fun P => JS.truthy P
                    && forallb (fun q => negb (JS.startsWith q (P +:+ "/"))) prefixes)
    prefixes.

(** A client of the gateway script, for the examples below. *)
Definition client (pathname : string) : Request.t :=
  Request.mk (URL.mk "gw.example" pathname EmptyString []) "GET" ∅ None.

(** An upstream that answers every request with status [status], the
    headers [headers] and the body [blob]. *)
Definition upstream (status : nat) (headers : list (string * string))
  : Async.network :=
  fun _ => Some (Response.mk status EmptyString (Headers.of_list headers) "blob").

(** Docker Hub answering a blob request with a 307 to a storage origin,
    which answers with the blob. *)
Definition blobUrl : string := "https://blobs.example/sha256".

Definition hubWithBlob : Async.network :=
  fun req =>
    if String.eqb (Fetch.url req) blobUrl
    then Some (Response.mk 200 "OK" ∅ "layer")
    else Some (Response.mk 307 EmptyString (Headers.of_list [("Location", blobUrl)])
                 EmptyString).

(** A client that pulls a blob with a token. *)
Definition blobClient : Request.t :=
  Request.mk
    (URL.mk "gw.example" "/v2/library/busybox/blobs/sha256:0" EmptyString [])
    "GET" (Headers.of_list [("Authorization", "Bearer t0")]) None.

(** A client asking the token endpoint at [pathname] for a token, with
    the query parameters [params] and no [Authorization] header. *)
Definition tokenClient (pathname : string) (params : list (string * string))
  : Request.t :=
  Request.mk (URL.mk "gw.example" pathname EmptyString params) "GET" ∅ None.

(** The challenge Docker Hub sends with its 401. *)
Definition hubChallenge : string :=
  "Bearer realm=" +:+ Build.quoted "https://auth.docker.io/token"
  +:+ ",service=" +:+ Build.quoted "registry.docker.io".

(** No part of the challenge of the upstream names the service, the way
    the gateway script reads the parts. *)
Definition noServicePart (authHeader : option string) : Prop :=
  match authHeader with
  | Some h =>
      Forall (fun part =>
                JS.startsWith (JS.trim part) ("service=" +:+ JS.dquote) = false)
        (JS.split "," h)
  | None => True
  end.

(** A client of the Claude API that sends one header the target does not
    allow. *)
Definition claudeClient : Request.t :=
  Request.mk (URL.mk "gw.example" "/ai/claude/v1/messages" EmptyString []) "POST"
    (Headers.of_list [("Content-Type", "application/json");
                      ("Authorization", "Bearer k0");
                      ("Anthropic-Version", "2023-06-01");
                      ("X-Random", "1")])
    (Some "{}").

(** A URL with query parameters, written without escaping: enough for
    the examples, whose values need none. *)
Definition plainUrlWithParams (realm : string) (params : list (string * string))
  : option string :=
  Some (realm +:+ "?"
        +:+ JS.join "&" (map (fun kv => fst kv +:+ "=" +:+ snd kv) params)).

(** The three hardening headers, with the values of the gateway. *)
Definition hardened (headers : gmap string string) : Prop :=
  Headers.get headers "X-Content-Type-Options" = Some "nosniff"
  /\ Headers.get headers "X-Frame-Options" = Some "DENY"
  /\ Headers.get headers "Referrer-Policy" = Some "no-referrer".

(** The realm of a challenge: the quoted value of its first [realm]
    parameter, read the way the scripts read the challenge of an upstream. *)
Definition challengeRealm (challenge : string) : option string :=
  TableVariant.regexParam "realm" challenge.

Definition isDelimiter (c : ascii) : bool :=
  existsb (Ascii.eqb c) ["/"%char; "?"%char; "#"%char].

Fixpoint authority (s : string) : string :=
  match s with
  | EmptyString => EmptyString
  | String c s' => if isDelimiter c then EmptyString else String c (authority s')
  end.

(** The host name of an [https] URL that has no port and no user
    information. *)
Definition urlHostname (u : string) : option string :=
  if JS.startsWith u "https://" then Some (authority (JS.slice u 8)) else None.

(** A host name holds no quote and no delimiter of a URL. *)
Definition hostChar (c : ascii) : bool :=
  negb (isDelimiter c) && negb (Ascii.eqb c (ascii_of_nat 34)).

Fixpoint hostName (h : string) : bool :=
  match h with
  | EmptyString => true
  | String c h' => hostChar c && hostName h'
  end.

(** No quote in the string. *)
Fixpoint quoteFree (s : string) : bool :=
  match s with
  | EmptyString => true
  | String c s' => negb (Ascii.eqb c (ascii_of_nat 34)) && quoteFree s'
  end.

(** The status codes of a temporary redirect the gateway chases. *)
Definition isRedirect (status : nat) : bool := (status =? 307) || (status =? 302).

(** The character [c] does not occur in the string. *)
Fixpoint charFree (c : ascii) (s : string) : bool :=
  match s with
  | EmptyString => true
  | String a s' => negb (Ascii.eqb a c) && charFree c s'
  end.

(** The path the routers of the two later scripts and of [src/index.js]
    match against: the path with a leading slash. *)
Definition normalizedPath (pathname : string) : string :=
  if JS.startsWith pathname "/" then pathname else "/" +:+ pathname.

(** A repository name of one segment: not empty, without slash and
    without colon. *)
Definition oneSegment (name : string) : bool :=
  JS.truthy name && charFree "/" name && charFree ":" name.

(** The hosts the gateway script sends the first request of a client
    request to: the token server, Docker Hub and the bases of its tables. *)
Definition upstreamBases : list string :=
  "https://auth.docker.io/token" :: Gateway.DOCKER_HUB_URL
  :: map (fun kc => baseUrl (snd kc)) (Gateway.registryConfigs ++ Gateway.aiConfigs).

(** A value of a challenge without quote and without backslash. *)
Fixpoint plainValue (s : string) : bool :=
  match s with
  | EmptyString => true
  | String c s' =>
      negb (AuthVariant.isQuote c) && negb (AuthVariant.isBackslash c)
      && plainValue s'
  end.

(** The last character of a string, [d] for the empty string. *)
Fixpoint lastChar (d : ascii) (s : string) : ascii :=
  match s with
  | EmptyString => d
  | String c s' => lastChar c s'
  end.

(** What [encodeURIComponent] writes: unreserved characters, the percent
    sign and hexadecimal digits. *)
Definition encodedChar (c : ascii) : bool :=
  JS.unreserved c || Ascii.eqb c "%"%char.

Fixpoint encodedText (s : string) : bool :=
  match s with
  | EmptyString => true
  | String c s' => encodedChar c && encodedText s'
  end.

(** A network on which every request fails. *)
Definition offline : Async.network := fun _ => None.

(** How a forwarder settles on the response [up] of its upstream: with
    the response under the security headers when the status is one the
    constructor of [Response] accepts, with a rejected promise when the
    constructor throws. *)
Definition relayed (up : Response.t) : Async.outcome Response.t :=
  if Build.validStatus (Response.status up)
  then Async.Resolved
         (Response.mk (Response.status up) (Response.statusText up)
            (addSecurityHeaders (Response.headers up)) (Response.body up))
  else Async.Rejected.

(** Every realm a challenge names: the quoted values of all its [realm]
    parameters, from left to right. *)
Fixpoint realmParameters (challenge : string) : list string :=
  match challenge with
  | EmptyString => []
  | String _ rest =>
      (if JS.startsWith challenge ("realm=" +:+ JS.dquote) then
         match TableVariant.quotedRun (JS.slice challenge 7) with
         | Some m => if JS.truthy m then [m] else []
         | None => []
         end
       else [])
      ++ realmParameters rest
  end.

(** A 401 whose challenge begins with the token endpoint of the gateway
    on [hostname] as its realm and with the default service. *)
Definition defaultedChallenge (hostname : string) (r : Response.t) : Prop :=
  Response.status r = 401
  /\ exists scope others,
       Headers.get (Response.headers r) "WWW-Authenticate"
       = Some ("Bearer realm=" +:+ Build.quoted ("https://" +:+ hostname +:+ "/v2/token")
               +:+ ",service=" +:+ Build.quoted "registry.docker.io"
               +:+ ",scope=" +:+ Build.quoted scope +:+ others).

(** ** Facts about the string primitives *)
Section StringFacts.

Lemma prefix_app (p s : string) : String.prefix p (p +:+ s) = true.
Proof.
  induction p as [|c p IH]; simpl.
  - now destruct s.
  - destruct (ascii_dec c c) as [_|n]; [exact IH | now destruct n].
Qed.

Lemma prefix_cons (c d : ascii) (p s : string) :
  String.prefix (String c p) (String d s) = Ascii.eqb c d && String.prefix p s.
Proof.
  simpl. destruct (ascii_dec c d) as [->|n].
  - now rewrite Ascii.eqb_refl.
  - apply Ascii.eqb_neq in n. now rewrite n.
Qed.

Lemma prefix_nil_r (p : string) :
  String.prefix p EmptyString = true -> p = EmptyString.
Proof. destruct p; simpl; [reflexivity | discriminate]. Qed.

Lemma prefix_app_cancel (p a b : string) :
  String.prefix (p +:+ a) (p +:+ b) = String.prefix a b.
Proof.
  induction p as [|c p IH]; simpl; [reflexivity|].
  destruct (ascii_dec c c) as [_|n]; [exact IH | now destruct n].
Qed.

Lemma prefix_length (p s : string) :
  String.prefix p s = true -> String.length p <= String.length s.
Proof.
  revert s; induction p as [|c p IH]; intros [|d s]; simpl; try lia; try discriminate.
  destruct (ascii_dec c d); [|discriminate]. intros H. apply IH in H. lia.
Qed.

(** Two prefixes of one string: the shorter is a prefix of the longer. *)
Lemma prefix_prefix (a b s : string) :
  String.prefix a s = true -> String.prefix b s = true ->
  String.length b <= String.length a -> String.prefix b a = true.
Proof.
  revert b s; induction a as [|c a IH]; intros [|d b] [|e s]; simpl;
    try reflexivity; try discriminate; try lia.
  destruct (ascii_dec c e) as [->|]; [|discriminate].
  destruct (ascii_dec d e) as [->|]; [|discriminate].
  destruct (ascii_dec e e) as [_|n]; [|now destruct n].
  intros Ha Hb Hl. apply (IH b s); [assumption | assumption | lia].
Qed.

Lemma prefix_same_length (a b : string) :
  String.prefix b a = true -> String.length a = String.length b -> a = b.
Proof.
  revert b; induction a as [|c a IH]; intros [|d b]; simpl;
    try reflexivity; try discriminate.
  destruct (ascii_dec d c) as [->|]; [|discriminate].
  intros H Hl. f_equal. apply IH; [assumption | lia].
Qed.

(** A prefix of [a +:+ c] no longer than [a] is a prefix of [a]. *)
Lemma prefix_app_short (b a c : string) :
  String.prefix b (a +:+ c) = true -> String.length b <= String.length a ->
  String.prefix b a = true.
Proof.
  revert a; induction b as [|d b IH]; intros [|e a]; simpl;
    try reflexivity; try lia.
  destruct (ascii_dec d e) as [->|]; [|discriminate].
  intros H Hl. apply IH; [assumption | lia].
Qed.

Lemma prefix_app_r (p s x : string) :
  String.prefix p s = true -> String.prefix p (s +:+ x) = true.
Proof.
  revert s; induction p as [|c p IH]; intros [|d s]; simpl; intros H;
    try reflexivity; try discriminate.
  - now destruct x.
  - destruct (ascii_dec c d); [now apply IH | discriminate].
Qed.

Lemma prefix_empty_l (s : string) : String.prefix EmptyString s = true.
Proof. now destruct s. Qed.

Lemma length_app (a b : string) :
  String.length (a +:+ b) = String.length a + String.length b.
Proof. induction a as [|c a IH]; simpl; [reflexivity | now rewrite IH]. Qed.

Lemma app_assoc_s (a b c : string) : (a +:+ b) +:+ c = a +:+ (b +:+ c).
Proof. induction a as [|x a IH]; simpl; [reflexivity | now rewrite IH]. Qed.

Lemma app_inv_tail_s (a b c : string) : a +:+ c = b +:+ c -> a = b.
Proof.
  revert b; induction a as [|x a IH]; intros [|y b] H; simpl in H.
  - reflexivity.
  - exfalso. apply (f_equal String.length) in H. simpl in H.
    rewrite length_app in H. lia.
  - exfalso. apply (f_equal String.length) in H. simpl in H.
    rewrite length_app in H. lia.
  - injection H as -> H. f_equal. now apply IH.
Qed.

Lemma slice_app (p s : string) : JS.slice (p +:+ s) (String.length p) = s.
Proof. induction p as [|c p IH]; simpl; [reflexivity | exact IH]. Qed.

Lemma truthy_nonempty (s : string) : JS.truthy s = true <-> s <> EmptyString.
Proof. destruct s; simpl; split; intros H; congruence. Qed.

Lemma eqb_app_self_false (p x : string) :
  x <> EmptyString -> String.eqb (p +:+ x) p = false.
Proof.
  intros Hx. apply String.eqb_neq. intros H.
  apply (f_equal String.length) in H. rewrite length_app in H.
  destruct x; [congruence | simpl in H; lia].
Qed.

End StringFacts.

(** ** Facts about asynchronous computations *)
Section AsyncFacts.

(** A [fetch] and what follows it: the request is issued, and the rest
    runs on the response when there is one. *)
Lemma run_fetch_bind {B : Type} (req : Fetch.t) (k : Response.t -> Async.t B)
  (net : Async.network) :
  (Async.fetch req ≫= k) net =
  match net req with
  | Some r => (req :: Async.trace (k r net), Async.result (k r net))
  | None => ([req], Async.Rejected)
  end.
Proof.
  unfold mbind, async_bind, Async.bind, Async.fetch.
  destruct (net req) as [r|]; [|reflexivity].
  now destruct (k r net).
Qed.

Lemma run_fetch (req : Fetch.t) (net : Async.network) :
  Async.fetch req net =
  ([req], match net req with
          | Some r => Async.Resolved r
          | None => Async.Rejected
          end).
Proof. reflexivity. Qed.

Lemma run_ret {A : Type} (a : A) (net : Async.network) :
  (mret a : Async.t A) net = ([], Async.Resolved a).
Proof. reflexivity. Qed.

Lemma run_attempt {A : Type} (o : option A) (net : Async.network) :
  Async.attempt o net
  = ([], match o with Some a => Async.Resolved a | None => Async.Rejected end).
Proof. now destruct o. Qed.

(** A forwarder: one request, and the response of the upstream relayed
    under the security headers. *)
Lemma run_relay (req : Fetch.t) (net : Async.network) :
  (response ← Async.fetch req;
   Async.attempt
     (Build.stream (Response.body response) (Response.status response)
        (Response.statusText response)
        (addSecurityHeaders (Response.headers response)))) net
  = ([req], match net req with Some up => relayed up | None => Async.Rejected end).
Proof.
  rewrite run_fetch_bind. destruct (net req) as [up|]; [|reflexivity].
  rewrite run_attempt. unfold relayed, Build.stream.
  now destruct (Build.validStatus (Response.status up)).
Qed.

End AsyncFacts.

(** ** The prefix router *)
Section PrefixRouter.

Lemma extract_unfold (pathSegment : string) (prefixes : list string) :
  Gateway.extractPrefixAndRest pathSegment prefixes =
  match fold_left (better (segmentMatch pathSegment)) prefixes None with
  | Some b =>
      if JS.truthy b then (Some b, JS.slice pathSegment (String.length b))
      else (None, pathSegment)
  | None => (None, pathSegment)
  end.
Proof. reflexivity. Qed.

(** What the loop holds at its end was there at the start or is a
    prefix of the table that passed the test. *)
Lemma better_fold_origin (test : string -> bool) (prefixes : list string) :
  forall best b,
    fold_left (better test) prefixes best = Some b ->
    best = Some b \/ (In b prefixes /\ test b = true).
Proof.
  induction prefixes as [|q l IH]; intros best b H; simpl in H.
  - now left.
  - apply IH in H as [H | [Hin Hm]].
    + unfold better in H. destruct (test q) eqn:Hq.
      * destruct best as [b0|].
        -- destruct (negb (JS.truthy b0) || (String.length b0 <? String.length q)).
           ++ injection H as <-. right. split; [now left | assumption].
           ++ now left.
        -- injection H as <-. right. split; [now left | assumption].
      * now left.
    + right. split; [now right | assumption].
Qed.

Lemma better_fold_owner (test : string -> bool) (P : string)
  (prefixes : list string) :
  P <> EmptyString -> test P = true ->
  forall l best,
    (forall q, In q l -> In q prefixes) ->
    owns test prefixes P ->
    (best = None \/ exists b, best = Some b /\ String.length b <= String.length P
                              /\ (String.length b = String.length P -> b = P)) ->
    (best = Some P \/ In P l) ->
    fold_left (better test) l best = Some P.
Proof.
  intros HP HmP. induction l as [|q l IH]; intros best Hsub Hown Hinv Hsee; simpl.
  - destruct Hsee as [H | []]. exact H.
  - assert (Hl : forall q0, In q0 l -> In q0 prefixes)
      by (intros q0 Hq0; apply Hsub; now right).
    apply IH; [exact Hl | exact Hown | |].
    + unfold better. destruct (test q) eqn:Hq; [|exact Hinv].
      destruct (Hown q (Hsub q (or_introl eq_refl)) Hq) as [Hle Heq].
      destruct best as [b0|].
      * destruct (negb (JS.truthy b0) || (String.length b0 <? String.length q)).
        -- right. exists q. auto.
        -- exact Hinv.
      * right. exists q. auto.
    + unfold better. destruct (test q) eqn:Hq.
      * destruct (Hown q (Hsub q (or_introl eq_refl)) Hq) as [Hle Heq].
        destruct best as [b0|].
        -- destruct Hinv as [Hn | [b [Hb [Hble Hbeq]]]]; [discriminate|].
           injection Hb as <-.
           destruct (negb (JS.truthy b0) || (String.length b0 <? String.length q)) eqn:Hc.
           ++ destruct Hsee as [Hs | [-> | Hin]]; [| now left | now right].
              injection Hs as ->. left.
              apply orb_true_iff in Hc as [Hc | Hc].
              ** apply negb_true_iff in Hc.
                 destruct P; [congruence | discriminate].
              ** apply Nat.ltb_lt in Hc. f_equal. apply Heq. lia.
           ++ destruct Hsee as [Hs | [-> | Hin]]; [now left | | now right].
              left. apply orb_false_iff in Hc as [_ Hc].
              apply Nat.ltb_ge in Hc. f_equal. apply Hbeq. lia.
        -- destruct Hsee as [Hs | [-> | Hin]]; [discriminate | now left | now right].
      * destruct Hsee as [Hs | [-> | Hin]]; [now left | | now right].
        congruence.
Qed.

Lemma slash_path_match (P x : string) : segmentMatch (P +:+ "/" +:+ x) P = true.
Proof.
  unfold segmentMatch, JS.startsWith.
  rewrite <- app_assoc_s, prefix_app. reflexivity.
Qed.

(** Among the prefixes followed by a slash in [P/x], none is longer than
    [P] when no prefix of the table extends [P]. *)
Lemma slash_prefix_bound (prefixes : list string) (P x q : string) :
  unextended prefixes P -> In q prefixes ->
  String.prefix (q +:+ "/") (P +:+ "/" +:+ x) = true ->
  String.length q <= String.length P /\
  (String.length q = String.length P -> q = P).
Proof.
  intros Hun Hin Hm. specialize (Hun q Hin). unfold JS.startsWith in Hun.
  assert (HP : String.prefix (P +:+ "/") (P +:+ "/" +:+ x) = true)
    by (rewrite <- app_assoc_s; apply prefix_app).
  destruct (le_lt_dec (String.length q) (String.length P)) as [Hle | Hlt].
  - split; [exact Hle|]. intros Heq.
    assert (Hqp : String.prefix (P +:+ "/") (q +:+ "/") = true).
    { apply (prefix_prefix _ _ _ Hm HP). rewrite !length_app. simpl. lia. }
    apply prefix_same_length in Hqp; [| rewrite !length_app; simpl; lia].
    now apply app_inv_tail_s in Hqp.
  - exfalso.
    assert (Hqp : String.prefix (P +:+ "/") (q +:+ "/") = true).
    { apply (prefix_prefix _ _ _ Hm HP). rewrite !length_app. simpl. lia. }
    apply prefix_app_short in Hqp; [congruence|].
    rewrite length_app. simpl. lia.
Qed.

Lemma unextended_owns (prefixes : list string) (P x : string) :
  unextended prefixes P -> owns (segmentMatch (P +:+ "/" +:+ x)) prefixes P.
Proof.
  intros Hun q Hin Hm.
  unfold segmentMatch, JS.startsWith in Hm.
  apply orb_true_iff in Hm as [Hm | Hm].
  - now apply (slash_prefix_bound prefixes P x q).
  - apply String.eqb_eq in Hm. subst q. exfalso.
    specialize (Hun _ Hin). unfold JS.startsWith in Hun.
    rewrite <- app_assoc_s, prefix_app in Hun. discriminate.
Qed.

(** The gateway router on a path [P/x]: the prefix [P] and the rest
    [/x], for every table in which no prefix extends [P]. *)
Lemma gateway_router_slash (prefixes : list string) (P x : string) :
  In P prefixes -> P <> EmptyString -> unextended prefixes P ->
  Gateway.extractPrefixAndRest (P +:+ "/" +:+ x) prefixes = (Some P, "/" +:+ x).
Proof.
  intros Hin HP Hun. rewrite extract_unfold.
  rewrite (better_fold_owner (segmentMatch (P +:+ "/" +:+ x)) P prefixes HP
             (slash_path_match P x) prefixes None (fun q H => H)
             (unextended_owns prefixes P x Hun)
             (or_introl eq_refl) (or_intror Hin)).
  destruct P as [|c P]; [congruence|]. simpl JS.truthy. cbv iota.
  now rewrite slice_app.
Qed.

(** The gateway router never answers [P] for a path that goes on after
    [P] with something other than a slash. *)
Lemma gateway_router_boundary (prefixes : list string) (P x : string) :
  x <> EmptyString -> JS.startsWith x "/" = false ->
  fst (Gateway.extractPrefixAndRest (P +:+ x) prefixes) <> Some P.
Proof.
  intros Hx Hs. rewrite extract_unfold.
  destruct (fold_left (better (segmentMatch (P +:+ x))) prefixes None)
    as [b|] eqn:Hf; [| simpl; discriminate].
  destruct (JS.truthy b); [| simpl; discriminate].
  simpl. intros Hb. injection Hb as ->.
  apply better_fold_origin in Hf as [Hf | [_ Hm]]; [discriminate|].
  unfold segmentMatch, JS.startsWith in Hm.
  rewrite prefix_app_cancel, (eqb_app_self_false P x Hx) in Hm.
  unfold JS.startsWith in Hs. rewrite Hs in Hm. discriminate.
Qed.

Lemma unextended_check (prefixes : list string) (P : string) :
  forallb (fun q => negb (JS.startsWith q (P +:+ "/"))) prefixes = true ->
  unextended prefixes P.
Proof.
  intros H q Hin. rewrite forallb_forall in H.
  apply negb_true_iff. now apply H.
Qed.

Lemma flatTable_spec (prefixes : list string) (P : string) :
  flatTable prefixes = true -> In P prefixes ->
  P <> EmptyString /\ unextended prefixes P.
Proof.
  unfold flatTable. rewrite forallb_forall. intros H Hin.
  apply H in Hin. apply andb_true_iff in Hin as [Ht Hu]. split.
  - now apply truthy_nonempty.
  - now apply unextended_check.
Qed.

(** X3: on the two tables of the gateway script the router matches on
    segment boundaries: [P/x] gives [P] and [/x], and a path that goes on
    after [P] without a slash never gives [P]. *)
Lemma gateway_router_configured (table : list (string * ApiConfig)) (P x : string) :
  In table [Gateway.registryConfigs; Gateway.aiConfigs] ->
  In P (keys table) ->
  Gateway.extractPrefixAndRest (P +:+ "/" +:+ x) (keys table) = (Some P, "/" +:+ x)
  /\ (x <> EmptyString -> JS.startsWith x "/" = false ->
      fst (Gateway.extractPrefixAndRest (P +:+ x) (keys table)) <> Some P).
Proof.
  intros Ht Hin.
  assert (Hflat : flatTable (keys table) = true).
  { destruct Ht as [<- | [<- | []]]; vm_compute; reflexivity. }
  destruct (flatTable_spec _ _ Hflat Hin) as [HP Hun]. split.
  - now apply gateway_router_slash.
  - intros Hx Hs. now apply gateway_router_boundary.
Qed.

Lemma gateway_router_configured_witness :
  Gateway.extractPrefixAndRest "register/docker/hub/library/busybox"
    (keys Gateway.registryConfigs) = (Some "register/docker/hub", "/library/busybox")
  /\ fst (Gateway.extractPrefixAndRest "/ai/openai-x" (keys Gateway.aiConfigs))
     <> Some "/ai/openai".
Proof.
  split.
  - apply (gateway_router_configured Gateway.registryConfigs "register/docker/hub"
             "library/busybox"); vm_compute; tauto.
  - apply (gateway_router_configured Gateway.aiConfigs "/ai/openai" "-x");
      [vm_compute; tauto | vm_compute; tauto | discriminate | reflexivity].
Defined.

(** The router of the script with one table: the same loop, its test
    asks for a slash after the prefix. *)
Lemma table_router_slash (prefixes : list string) (P x : string) :
  In P prefixes -> JS.startsWith P "/" = true -> unextended prefixes P ->
  TableVariant.extractPrefixAndRest (P +:+ "/" +:+ x) prefixes = (Some P, "/" +:+ x).
Proof.
  intros Hin Hs Hun. unfold TableVariant.extractPrefixAndRest.
  assert (Hn : JS.startsWith (P +:+ "/" +:+ x) "/" = true)
    by (apply prefix_app_r, Hs).
  rewrite Hn.
  assert (HP : P <> EmptyString) by (destruct P; [discriminate | congruence]).
  change (fold_left _ prefixes None)
    with (fold_left (better (fun prefix =>
            JS.startsWith (P +:+ "/" +:+ x) (prefix +:+ "/"))) prefixes None).
  rewrite (better_fold_owner _ P prefixes HP).
  - destruct P as [|c P]; [congruence|]. simpl JS.truthy. cbv iota.
    now rewrite slice_app.
  - unfold JS.startsWith. rewrite <- app_assoc_s. apply prefix_app.
  - auto.
  - intros q Hq Hm. now apply (slash_prefix_bound prefixes P x q).
  - now left.
  - now right.
Qed.

Lemma table_router_boundary (prefixes : list string) (P x : string) :
  JS.startsWith P "/" = true -> JS.startsWith x "/" = false ->
  fst (TableVariant.extractPrefixAndRest (P +:+ x) prefixes) <> Some P.
Proof.
  intros HP Hs. unfold TableVariant.extractPrefixAndRest.
  assert (Hn : JS.startsWith (P +:+ x) "/" = true) by (apply prefix_app_r, HP).
  rewrite Hn.
  change (fold_left _ prefixes None)
    with (fold_left (better (fun prefix =>
            JS.startsWith (P +:+ x) (prefix +:+ "/"))) prefixes None).
  destruct (fold_left _ prefixes None) as [b|] eqn:Hf; [| simpl; discriminate].
  destruct (JS.truthy b); [| simpl; discriminate].
  simpl. intros Hb. injection Hb as ->.
  apply better_fold_origin in Hf as [Hf | [_ Hm]]; [discriminate|].
  unfold JS.startsWith in Hm, Hs. rewrite prefix_app_cancel in Hm. congruence.
Qed.

(** The router of [src/index.js] on a path [P/x] of a configured prefix:
    the prefix [P] and the rest [/x]. *)
Lemma index_router_slash (P x : string) :
  In P (keys IndexJs.apiMapping) ->
  IndexJs.extractPrefixAndRest (P +:+ "/" +:+ x) (keys IndexJs.apiMapping)
  = (Some P, Some ("/" +:+ x)).
Proof.
  intros Hin. vm_compute in Hin.
  repeat (destruct Hin as [<- | Hin]; [reflexivity|]). destruct Hin.
Qed.

(** C1, at the input on which [src/index.js] leaves the claim: its
    router tests [startsWith(prefix)] alone, so [/ai/openai-x] is routed
    to the prefix [/ai/openai] with the rest [-x], and the request goes to
    [https://api.openai.com/-x]. The routers of the other three scripts
    test the segment boundary ([gateway_router_configured],
    [table_router_boundary]). *)
Theorem index_router_crosses_boundary :
  IndexJs.extractPrefixAndRest "/ai/openai-x" (keys IndexJs.apiMapping)
  = (Some "/ai/openai", Some "-x")
  /\ forall (host search : string) (params : list (string * string))
       (method : string) (headers : gmap string string) (body : option string)
       (net : Async.network),
      map Fetch.url
        (Async.trace
           (IndexJs.handleRequest
              (Request.mk (URL.mk host "/ai/openai-x" search params) method headers body)
              net))
      = ["https://api.openai.com/-x" +:+ search].
Proof.
  split; [reflexivity|]. intros.
  unfold IndexJs.handleRequest. cbn -[IndexJs.forwardedHeaders Async.attempt].
  rewrite run_fetch_bind. destruct (net _) as [up|]; [|reflexivity].
  now rewrite run_attempt.
Qed.

End PrefixRouter.

(** ** The header filter *)
Section HeaderFilter.

Lemma arrayIncludes_In (l : list string) (x : string) :
  JS.arrayIncludes l x = true -> In x l.
Proof.
  unfold JS.arrayIncludes. rewrite existsb_exists.
  intros [y [Hin Heq]]. apply String.eqb_eq in Heq. now subst.
Qed.

(** The loop that copies the allowed headers adds no other name to the
    headers it started from. *)
Lemma copy_allowed_keys (allowed : list string) (l : list (string * string)) :
  forall (acc : gmap string string) (key : string),
    is_Some (fold_left
               (fun headers kv =>
                  if JS.arrayIncludes allowed (JS.toLowerCase (fst kv))
                  then Headers.set (fst kv) (snd kv) headers else headers)
               l acc !! key) ->
    is_Some (acc !! key) \/ In key allowed.
Proof.
  induction l as [|[k v] l IH]; intros acc key H; simpl in H.
  - now left.
  - apply IH in H as [H | H]; [| now right].
    destruct (JS.arrayIncludes allowed (JS.toLowerCase k)) eqn:Hk; [| now left].
    unfold Headers.set in H. apply lookup_insert_is_Some in H as [<- | [_ H]].
    + right. now apply arrayIncludes_In.
    + now left.
Qed.

Lemma filterHeaders_keys (requestHeaders : gmap string string)
  (allowed : list string) (key : string) :
  is_Some (Gateway.filterHeaders requestHeaders allowed !! key) -> In key allowed.
Proof.
  intros H. apply copy_allowed_keys in H as [H | H]; [| exact H].
  rewrite lookup_empty in H. now destruct H.
Qed.

Lemma necessaryHeaders_keys (requestHeaders : gmap string string) (key : string) :
  is_Some (IndexJs.necessaryHeaders requestHeaders !! key) ->
  In key ["accept"; "content-type"; "authorization"; "user-agent"].
Proof.
  unfold IndexJs.necessaryHeaders. simpl fold_left.
  repeat match goal with
         | |- context [if ?b then _ else _] => destruct b
         | |- context [match ?o with Some _ => _ | None => _ end] => destruct o
         end;
    unfold Headers.set; simpl JS.toLowerCase; intros H;
    repeat (apply lookup_insert_is_Some in H as [<- | [_ H]]; [simpl; tauto|]);
    rewrite lookup_empty in H; now destruct H.
Qed.

Lemma forwardedHeaders_keys (requestHeaders : gmap string string)
  (allowed : list string) (key : string) :
  is_Some (IndexJs.forwardedHeaders requestHeaders allowed !! key) ->
  In key (["accept"; "content-type"; "authorization"; "user-agent"] ++ allowed).
Proof.
  intros H. apply in_or_app.
  apply copy_allowed_keys in H as [H | H]; [left | now right].
  now apply necessaryHeaders_keys in H.
Qed.

(** C8: the generic forwarder issues one request, and every header of
    that request, looked up without regard to case, has its lower-cased
    name in the default set or in the allow-list of the target: a header
    outside the two is not forwarded. The same holds for the headers
    [src/index.js] forwards to a generic API. *)
Theorem generic_forward_header_filter (request : Request.t)
  (baseUrl restPath search : string) (allowedHeaders : option (list string))
  (net : Async.network) (name : string) :
  let sent := Gateway.genericRequest request baseUrl restPath search allowedHeaders in
  Async.trace
    (Gateway.handleGenericApiRequest request baseUrl restPath search allowedHeaders net)
  = [sent]
  /\ (Headers.get (Fetch.headers sent) name = None
      \/ In (JS.toLowerCase name) (Gateway.DEFAULT_HEADERS ++ default [] allowedHeaders))
  /\ (Headers.get
        (IndexJs.forwardedHeaders (Request.headers request) (default [] allowedHeaders))
        name = None
      \/ In (JS.toLowerCase name)
           (["accept"; "content-type"; "authorization"; "user-agent"]
            ++ default [] allowedHeaders)).
Proof.
  intros sent. unfold Headers.get. split; [| split].
  - unfold Gateway.handleGenericApiRequest. now rewrite run_relay.
  - destruct (Fetch.headers sent !! JS.toLowerCase name) as [v|] eqn:Hk;
      [right | now left].
    apply (filterHeaders_keys (Request.headers request)). exists v. exact Hk.
  - destruct (IndexJs.forwardedHeaders _ _ !! JS.toLowerCase name) as [v|] eqn:Hk;
      [right | now left].
    apply (forwardedHeaders_keys (Request.headers request)). exists v. exact Hk.
Qed.

(** The request of the specification: of the four headers of the client
    the three that are allowed reach the Claude API. *)
Example claude_headers_forwarded (net : Async.network) :
  Async.trace (Gateway.handleRequest claudeClient net)
  = [Fetch.mk "https://api.anthropic.com/v1/messages" "POST"
       (Headers.of_list [("content-type", "application/json");
                         ("authorization", "Bearer k0");
                         ("anthropic-version", "2023-06-01")])
       (Some "{}") Fetch.follow].
Proof.
  change (Gateway.handleRequest claudeClient net)
    with (Gateway.handleGenericApiRequest claudeClient "https://api.anthropic.com"
            "/v1/messages" EmptyString (Some ["anthropic-version"]) net).
  unfold Gateway.handleGenericApiRequest. rewrite run_relay.
  vm_compute. reflexivity.
Qed.

End HeaderFilter.

(** ** The security headers *)
Section SecurityHeaders.

(** Header names given as literals are lower-cased by computation. *)
Ltac lower_names :=
  repeat match goal with
         | |- context [JS.toLowerCase ?s] =>
             let v := eval vm_compute in (JS.toLowerCase s) in
             change (JS.toLowerCase s) with v
         end.

Lemma addSecurityHeaders_hardened (headers : gmap string string) :
  hardened (addSecurityHeaders headers).
Proof.
  unfold hardened, addSecurityHeaders, Headers.get, Headers.set. lower_names.
  repeat split.
  - rewrite !lookup_insert_ne by discriminate. apply lookup_insert_eq.
  - rewrite lookup_insert_ne by discriminate. apply lookup_insert_eq.
  - apply lookup_insert_eq.
Qed.

(** Every other header is the one of the upstream. *)
Lemma addSecurityHeaders_other (headers : gmap string string) (name : string) :
  ~ In (JS.toLowerCase name)
      ["x-content-type-options"; "x-frame-options"; "referrer-policy"] ->
  Headers.get (addSecurityHeaders headers) name = Headers.get headers name.
Proof.
  unfold Headers.get. generalize (JS.toLowerCase name) as key. intros key Hn.
  unfold addSecurityHeaders, Headers.set. lower_names.
  rewrite !lookup_insert_ne; [reflexivity | | |];
    intros Heq; apply Hn; rewrite <- Heq; simpl; tauto.
Qed.

Lemma addSecurityHeaders_idempotent (headers : gmap string string) :
  addSecurityHeaders (addSecurityHeaders headers) = addSecurityHeaders headers.
Proof.
  apply map_eq. intros k.
  unfold addSecurityHeaders, Headers.set. lower_names.
  destruct (decide (k = "referrer-policy")) as [->|H1].
  { now rewrite !lookup_insert_eq. }
  rewrite (lookup_insert_ne _ "referrer-policy" k) by congruence.
  rewrite (lookup_insert_ne _ "referrer-policy" k) by congruence.
  destruct (decide (k = "x-frame-options")) as [->|H2].
  { now rewrite !lookup_insert_eq. }
  rewrite (lookup_insert_ne _ "x-frame-options" k) by congruence.
  rewrite (lookup_insert_ne _ "x-frame-options" k) by congruence.
  destruct (decide (k = "x-content-type-options")) as [->|H3].
  { now rewrite !lookup_insert_eq. }
  rewrite !lookup_insert_ne by congruence. reflexivity.
Qed.

(** C2 as it is stated fails: the landing page is returned without the
    security headers. *)
Lemma landing_page_not_hardened :
  ~ (forall (net : Async.network) (request : Request.t) (r : Response.t),
       Async.result (Gateway.handleRequest request net) = Async.Resolved r ->
       hardened (Response.headers r)).
Proof.
  intros H.
  destruct (H (upstream 200 []) (client "/") Gateway.landingPage eq_refl) as [H1 _].
  vm_compute in H1. discriminate.
Qed.

(** The responses that come back without [X-Frame-Options]: the 404,
    the relayed ping, the rewritten 401, the chased blob and the relayed
    token. *)
Lemma unhardened_responses :
  Forall
    (fun run : Async.network * Request.t =>
       exists r, Async.result (Gateway.handleRequest (snd run) (fst run))
                 = Async.Resolved r
                 /\ Headers.get (Response.headers r) "X-Frame-Options" = None)
    [ (upstream 200 [], client "/foo/bar");
      (upstream 200 [], client "/v2/");
      (upstream 401 [], client "/v2/");
      (upstream 401 [], client "/v2/library/busybox/manifests/latest");
      (upstream 307 [("Location", "https://blobs.example/sha256")],
       client "/v2/library/busybox/blobs/sha256:0");
      (upstream 200 [], client "/v2/token") ].
Proof.
  repeat constructor; eexists; (split; [vm_compute; reflexivity | reflexivity]).
Qed.

Lemma relayed_hardened (up : Response.t) :
  if Build.validStatus (Response.status up)
  then exists r,
         relayed up = Async.Resolved r
         /\ hardened (Response.headers r)
         /\ Response.status r = Response.status up
         /\ Response.body r = Response.body up
  else relayed up = Async.Rejected.
Proof.
  unfold relayed. destruct (Build.validStatus (Response.status up)); [|reflexivity].
  eexists. split; [reflexivity|].
  split; [apply addSecurityHeaders_hardened | now split].
Qed.

(** C2, amended: the responses the gateway script builds from the
    response of an upstream carry the three security headers with the
    values of the gateway, whatever the upstream sent for them, and keep
    its status and body: the responses of the generic forwarder, and those
    of the registry forwarder when the upstream status is not 401 and no
    blob redirect is chased. Such a response is built when the status of
    the upstream lies in 200..599; for any other status the constructor
    of [Response] throws, the promise of the forwarder is rejected and
    the client gets no response from it. *)
Theorem forwarded_responses_hardened (request : Request.t)
  (baseUrl path search : string) (allowedHeaders : option (list string))
  (net : Async.network) (up : Response.t) :
  (net (Gateway.genericRequest request baseUrl path search allowedHeaders) = Some up ->
   if Build.validStatus (Response.status up)
   then exists r,
          Async.result
            (Gateway.handleGenericApiRequest request baseUrl path search
               allowedHeaders net)
          = Async.Resolved r
          /\ hardened (Response.headers r)
          /\ Response.status r = Response.status up
          /\ Response.body r = Response.body up
   else Async.result
          (Gateway.handleGenericApiRequest request baseUrl path search
             allowedHeaders net)
        = Async.Rejected)
  /\ (net (Gateway.registryRequest request baseUrl path search) = Some up ->
      Response.status up <> 401 ->
      blobRedirect (String.eqb baseUrl Gateway.DOCKER_HUB_URL) up = None ->
      if Build.validStatus (Response.status up)
      then exists r,
             Async.result (Gateway.handleRegistryRequest request baseUrl path search net)
             = Async.Resolved r
             /\ hardened (Response.headers r)
             /\ Response.status r = Response.status up
             /\ Response.body r = Response.body up
      else Async.result (Gateway.handleRegistryRequest request baseUrl path search net)
           = Async.Rejected).
Proof.
  split.
  - intros Hup. unfold Gateway.handleGenericApiRequest.
    rewrite run_relay, Hup. apply relayed_hardened.
  - intros Hup Hst Hno. unfold Gateway.handleRegistryRequest. cbv zeta.
    rewrite run_fetch_bind, Hup.
    apply Nat.eqb_neq in Hst. rewrite Hst, Hno, run_attempt.
    pose proof (relayed_hardened up) as H. unfold relayed in H.
    unfold Build.stream.
    destruct (Build.validStatus (Response.status up)); exact H.
Qed.

Lemma forwarded_responses_hardened_witness :
  (exists r,
     Async.result
       (Gateway.handleGenericApiRequest (client "/ai/openai/v1/models")
          "https://api.openai.com" "/v1/models" EmptyString None
          (upstream 200 [("X-Frame-Options", "SAMEORIGIN")]))
     = Async.Resolved r
     /\ hardened (Response.headers r)
     /\ Response.status r = 200
     /\ Response.body r = "blob")
  /\ (exists r,
        Async.result
          (Gateway.handleRegistryRequest (client "/v2/library/busybox/manifests/latest")
             Gateway.DOCKER_HUB_URL "library/busybox/manifests/latest" EmptyString
             (upstream 200 [("X-Frame-Options", "SAMEORIGIN")]))
        = Async.Resolved r
        /\ hardened (Response.headers r)
        /\ Response.status r = 200
        /\ Response.body r = "blob")
  /\ Async.result
       (Gateway.handleGenericApiRequest (client "/ai/openai/v1/models")
          "https://api.openai.com" "/v1/models" EmptyString None (upstream 999 []))
     = Async.Rejected.
Proof.
  split; [| split].
  - apply (proj1 (forwarded_responses_hardened (client "/ai/openai/v1/models")
                    "https://api.openai.com" "/v1/models" EmptyString None
                    (upstream 200 [("X-Frame-Options", "SAMEORIGIN")])
                    (Response.mk 200 EmptyString
                       (Headers.of_list [("X-Frame-Options", "SAMEORIGIN")]) "blob"))).
    reflexivity.
  - apply (proj2 (forwarded_responses_hardened
                    (client "/v2/library/busybox/manifests/latest")
                    Gateway.DOCKER_HUB_URL "library/busybox/manifests/latest"
                    EmptyString None
                    (upstream 200 [("X-Frame-Options", "SAMEORIGIN")])
                    (Response.mk 200 EmptyString
                       (Headers.of_list [("X-Frame-Options", "SAMEORIGIN")]) "blob"))).
    + reflexivity.
    + simpl. lia.
    + reflexivity.
  - apply (proj1 (forwarded_responses_hardened (client "/ai/openai/v1/models")
                    "https://api.openai.com" "/v1/models" EmptyString None
                    (upstream 999 [])
                    (Response.mk 999 EmptyString (Headers.of_list []) "blob"))).
    reflexivity.
Defined.

End SecurityHeaders.

(** ** Blob redirects *)
Section BlobRedirect.

Lemma isRedirect_not_401 (status : nat) :
  isRedirect status = true -> (status =? 401) = false.
Proof.
  unfold isRedirect. intros H. apply orb_true_iff in H as [H | H];
    apply Nat.eqb_eq in H; subst; reflexivity.
Qed.

Lemma blobRedirect_location (up : Response.t) (location : string) :
  isRedirect (Response.status up) = true ->
  Headers.get (Response.headers up) "Location" = Some location ->
  location <> EmptyString ->
  blobRedirect true up = Some location.
Proof.
  intros Hr Hl Hne. unfold blobRedirect. unfold isRedirect in Hr.
  rewrite Hr, Hl. simpl. apply truthy_nonempty in Hne. now rewrite Hne.
Qed.

(** What the gateway script does with a redirect of Docker Hub: the
    forwarded request, then the request to the location, whose outcome is
    the outcome of the handler. *)
Lemma gateway_chase_run (request : Request.t) (imagePath search : string)
  (net : Async.network) (up : Response.t) (location : string) :
  net (Gateway.registryRequest request Gateway.DOCKER_HUB_URL imagePath search)
  = Some up ->
  isRedirect (Response.status up) = true ->
  Headers.get (Response.headers up) "Location" = Some location ->
  location <> EmptyString ->
  Gateway.handleRegistryRequest request Gateway.DOCKER_HUB_URL imagePath search net
  = ([Gateway.registryRequest request Gateway.DOCKER_HUB_URL imagePath search;
      Gateway.redirectRequest location],
     match net (Gateway.redirectRequest location) with
     | Some blob => Async.Resolved blob
     | None => Async.Rejected
     end).
Proof.
  intros Hup Hr Hl Hne. unfold Gateway.handleRegistryRequest. cbv zeta.
  rewrite run_fetch_bind, Hup, (isRedirect_not_401 _ Hr).
  change (String.eqb Gateway.DOCKER_HUB_URL Gateway.DOCKER_HUB_URL) with true.
  rewrite (blobRedirect_location up location Hr Hl Hne). reflexivity.
Qed.

(** The same for the script with one table, on a path that resolves to
    Docker Hub. *)
Lemma table_chase_run (request : Request.t) (pathname search targetUrl : string)
  (net : Async.network) (up : Response.t) (location : string) :
  JS.slice pathname 4 <> EmptyString -> JS.slice pathname 4 <> "/" ->
  TableVariant.registryTarget pathname search = Some (targetUrl, true) ->
  net (TableVariant.registryRequest request targetUrl) = Some up ->
  isRedirect (Response.status up) = true ->
  Headers.get (Response.headers up) "Location" = Some location ->
  location <> EmptyString ->
  TableVariant.handleRegistryRequest request pathname search net
  = ([TableVariant.registryRequest request targetUrl;
      TableVariant.redirectRequest location],
     match net (TableVariant.redirectRequest location) with
     | Some blob => Async.Resolved blob
     | None => Async.Rejected
     end).
Proof.
  intros Hp1 Hp2 Ht Hup Hr Hl Hne. unfold TableVariant.handleRegistryRequest.
  cbv zeta.
  apply String.eqb_neq in Hp1, Hp2. rewrite Hp1, Hp2.
  change (false || false) with false. rewrite Ht. cbv beta iota.
  rewrite run_fetch_bind, Hup, (isRedirect_not_401 _ Hr).
  rewrite (blobRedirect_location up location Hr Hl Hne). reflexivity.
Qed.

(** C6: when Docker Hub answers the forwarded request with a 307 or a 302
    that carries a location (a [Location] header that is present and not
    empty, the test [if (location)] of the script), the gateway issues
    one more request, a GET to the location with redirects followed, and
    the response to that request is what the client receives, not the
    redirect. *)
Theorem blob_redirect_chased (request : Request.t) (imagePath search : string)
  (net : Async.network) (up : Response.t) (location : string) :
  net (Gateway.registryRequest request Gateway.DOCKER_HUB_URL imagePath search)
  = Some up ->
  isRedirect (Response.status up) = true ->
  Headers.get (Response.headers up) "Location" = Some location ->
  location <> EmptyString ->
  let run :=
    Gateway.handleRegistryRequest request Gateway.DOCKER_HUB_URL imagePath search net in
  let chase := Gateway.redirectRequest location in
  Async.trace run
  = [Gateway.registryRequest request Gateway.DOCKER_HUB_URL imagePath search; chase]
  /\ Fetch.url chase = location
  /\ Fetch.method chase = "GET"
  /\ Fetch.redirect chase = Fetch.follow
  /\ Async.result run = match net chase with
                        | Some blob => Async.Resolved blob
                        | None => Async.Rejected
                        end.
Proof.
  intros Hup Hr Hl Hne run chase. unfold run.
  rewrite (gateway_chase_run request imagePath search net up location Hup Hr Hl Hne).
  repeat split.
Qed.

Lemma blob_redirect_chased_witness :
  Async.trace
    (Gateway.handleRegistryRequest blobClient Gateway.DOCKER_HUB_URL
       "library/busybox/blobs/sha256:0" EmptyString hubWithBlob)
  = [Gateway.registryRequest blobClient Gateway.DOCKER_HUB_URL
       "library/busybox/blobs/sha256:0" EmptyString;
     Gateway.redirectRequest blobUrl]
  /\ Fetch.url (Gateway.redirectRequest blobUrl) = blobUrl
  /\ Fetch.method (Gateway.redirectRequest blobUrl) = "GET"
  /\ Fetch.redirect (Gateway.redirectRequest blobUrl) = Fetch.follow
  /\ Async.result
       (Gateway.handleRegistryRequest blobClient Gateway.DOCKER_HUB_URL
          "library/busybox/blobs/sha256:0" EmptyString hubWithBlob)
     = Async.Resolved (Response.mk 200 "OK" ∅ "layer").
Proof.
  apply (blob_redirect_chased blobClient "library/busybox/blobs/sha256:0" EmptyString
           hubWithBlob
           (Response.mk 307 EmptyString (Headers.of_list [("Location", blobUrl)])
              EmptyString) blobUrl).
  - reflexivity.
  - reflexivity.
  - reflexivity.
  - discriminate.
Defined.

(** C9: the request that chases the redirect is a GET without headers
    and without body, whatever the method and the headers of the client:
    no header of the client, its [Authorization] among them, goes to the
    location. *)
Theorem blob_redirect_request_bare (request : Request.t) (imagePath search : string)
  (net : Async.network) (up : Response.t) (location : string) :
  net (Gateway.registryRequest request Gateway.DOCKER_HUB_URL imagePath search)
  = Some up ->
  isRedirect (Response.status up) = true ->
  Headers.get (Response.headers up) "Location" = Some location ->
  location <> EmptyString ->
  exists chase,
    Async.trace
      (Gateway.handleRegistryRequest request Gateway.DOCKER_HUB_URL imagePath search net)
    = [Gateway.registryRequest request Gateway.DOCKER_HUB_URL imagePath search; chase]
    /\ Fetch.url chase = location
    /\ Fetch.method chase = "GET"
    /\ Fetch.headers chase = ∅
    /\ Fetch.body chase = None
    /\ forall name, Headers.get (Fetch.headers chase) name = None.
Proof.
  intros Hup Hr Hl Hne. exists (Gateway.redirectRequest location).
  rewrite (gateway_chase_run request imagePath search net up location Hup Hr Hl Hne).
  repeat split.
Qed.

Lemma blob_redirect_request_bare_witness :
  exists chase,
    Async.trace
      (Gateway.handleRegistryRequest blobClient Gateway.DOCKER_HUB_URL
         "library/busybox/blobs/sha256:0" EmptyString hubWithBlob)
    = [Gateway.registryRequest blobClient Gateway.DOCKER_HUB_URL
         "library/busybox/blobs/sha256:0" EmptyString; chase]
    /\ Fetch.url chase = blobUrl
    /\ Fetch.method chase = "GET"
    /\ Fetch.headers chase = ∅
    /\ Fetch.body chase = None
    /\ forall name, Headers.get (Fetch.headers chase) name = None.
Proof.
  apply (blob_redirect_request_bare blobClient "library/busybox/blobs/sha256:0"
           EmptyString hubWithBlob
           (Response.mk 307 EmptyString (Headers.of_list [("Location", blobUrl)])
              EmptyString) blobUrl).
  - reflexivity.
  - reflexivity.
  - reflexivity.
  - discriminate.
Defined.

(** The client of the witnesses does send an [Authorization] header, and
    the forwarded request carries it. *)
Example blob_client_authorization :
  Headers.get
    (Fetch.headers
       (Gateway.registryRequest blobClient Gateway.DOCKER_HUB_URL
          "library/busybox/blobs/sha256:0" EmptyString)) "Authorization"
  = Some "Bearer t0".
Proof. reflexivity. Qed.

End BlobRedirect.

(** ** The token endpoint *)
Section TokenRelay.

Lemma gateway_token_route (request : Request.t) :
  URL.pathname (Request.url request) = "/v2/token" ->
  Gateway.handleRequest request = Gateway.handleTokenRequest request.
Proof. intros H. unfold Gateway.handleRequest. now rewrite H. Qed.

Lemma gateway_token_run (request : Request.t) (net : Async.network) :
  Gateway.handleTokenRequest request net
  = ([Gateway.tokenRequest request],
     match net (Gateway.tokenRequest request) with
     | Some r => Async.Resolved r
     | None => Async.Rejected
     end).
Proof.
  unfold Gateway.handleTokenRequest. rewrite run_fetch_bind.
  now destruct (net _).
Qed.

Lemma table_token_run (request : Request.t) (net : Async.network) :
  TableVariant.handleTokenRequest request net
  = ([TableVariant.tokenRequest request],
     match net (TableVariant.tokenRequest request) with
     | Some r => Async.Resolved r
     | None => Async.Rejected
     end).
Proof.
  unfold TableVariant.handleTokenRequest. rewrite run_fetch_bind.
  now destruct (net _).
Qed.

(** C10: a request to the token endpoint that gives no [service] or no
    [scope] is relayed all the same, by one request to the token server
    whose query string holds [null] for the parameter that is absent. *)
Theorem token_request_null_parameter (request : Request.t) (net : Async.network) :
  URL.pathname (Request.url request) = "/v2/token" ->
  let params := URL.searchParams (Request.url request) in
  Async.trace (Gateway.handleRequest request net) = [Gateway.tokenRequest request]
  /\ (URL.get params "service" = None ->
      Fetch.url (Gateway.tokenRequest request)
      = "https://auth.docker.io/token?service=null&scope="
        +:+ JS.encodeURIComponent (JS.toString (URL.get params "scope")))
  /\ (URL.get params "scope" = None ->
      Fetch.url (Gateway.tokenRequest request)
      = "https://auth.docker.io/token?service="
        +:+ JS.encodeURIComponent (JS.toString (URL.get params "service"))
        +:+ "&scope=null")
  /\ Async.trace (TableVariant.handleTokenRequest request net)
     = [TableVariant.tokenRequest request]
  /\ (URL.get params "service" = None ->
      Fetch.url (TableVariant.tokenRequest request)
      = "https://auth.docker.io/token?service=null&scope="
        +:+ JS.toString (URL.get params "scope"))
  /\ (URL.get params "scope" = None ->
      Fetch.url (TableVariant.tokenRequest request)
      = "https://auth.docker.io/token?service="
        +:+ JS.toString (URL.get params "service") +:+ "&scope=null").
Proof.
  intros Hp params. rewrite (gateway_token_route request Hp), gateway_token_run.
  rewrite table_token_run.
  unfold Gateway.tokenRequest, TableVariant.tokenRequest. fold params.
  repeat split; intros H; simpl Fetch.url; rewrite H; reflexivity.
Qed.

Lemma token_request_null_parameter_witness :
  Async.trace (Gateway.handleRequest (tokenClient "/v2/token" []) (upstream 200 []))
  = [Gateway.tokenRequest (tokenClient "/v2/token" [])]
  /\ Fetch.url (Gateway.tokenRequest (tokenClient "/v2/token" []))
     = "https://auth.docker.io/token?service=null&scope=null"
  /\ Fetch.url (TableVariant.tokenRequest (tokenClient "/v2/token" []))
     = "https://auth.docker.io/token?service=null&scope=null".
Proof.
  destruct (token_request_null_parameter (tokenClient "/v2/token" [])
              (upstream 200 []) eq_refl) as (Ht & Hs & _ & _ & Hs' & _).
  split; [exact Ht|]. split; [exact (Hs eq_refl) | exact (Hs' eq_refl)].
Defined.

(** The handler of [/v2/auth] of the sibling script does what C3 says:
    for the service name the gateway advertises it completes the scope
    of an official image, relays the request to the realm and with the
    service of the challenge of Docker Hub, and returns the response of
    the token server. *)
Lemma auth_relay_completes_scope
  (urlWithParams : string -> list (string * string) -> option string)
  (net : Async.network) (probe : Response.t)
  (challenge realm service tokenUrl : string) :
  net AuthVariant.probeRequest = Some probe ->
  Headers.get (Response.headers probe) "WWW-Authenticate" = Some challenge ->
  challenge <> EmptyString ->
  AuthVariant.parseAuthenticate challenge = Some (realm, service) ->
  service <> EmptyString ->
  urlWithParams realm
    [("service", service); ("scope", "repository:library/busybox:pull")]
  = Some tokenUrl ->
  AuthVariant.handleAuthRequest urlWithParams
    (tokenClient "/v2/auth"
       [("service", "cloudflare-docker-proxy"); ("scope", "repository:busybox:pull")])
    net
  = ([AuthVariant.probeRequest; Fetch.mk tokenUrl "GET" ∅ None Fetch.follow],
     match net (Fetch.mk tokenUrl "GET" ∅ None Fetch.follow) with
     | Some r => Async.Resolved r
     | None => Async.Rejected
     end).
Proof.
  intros Hprobe Hch Hne Hparse Hsv Hurl. unfold AuthVariant.handleAuthRequest.
  cbv zeta. rewrite run_fetch_bind, Hprobe, Hch.
  apply truthy_nonempty in Hne. rewrite Hne, Hparse.
  unfold AuthVariant.fetchToken.
  assert (Hlen : (0 <? String.length service) = true)
    by (destruct service; [congruence | reflexivity]).
  rewrite Hlen.
  change (AuthVariant.completeScope _ _)
    with (Some "repository:library/busybox:pull").
  change ([("service", service)]
          ++ (if JS.truthy_opt (Some "repository:library/busybox:pull")
              then [("scope", JS.toString (Some "repository:library/busybox:pull"))]
              else []))
    with [("service", service); ("scope", "repository:library/busybox:pull")].
  rewrite Hurl. reflexivity.
Qed.

Example auth_relay_docker_hub :
  map Fetch.url
    (Async.trace
       (AuthVariant.handleAuthRequest plainUrlWithParams
          (tokenClient "/v2/auth"
             [("service", "cloudflare-docker-proxy");
              ("scope", "repository:busybox:pull")])
          (upstream 401 [("WWW-Authenticate", hubChallenge)])))
  = ["https://registry-1.docker.io/v2/";
     "https://auth.docker.io/token?service=registry.docker.io&scope=repository:library/busybox:pull"].
Proof.
  rewrite (auth_relay_completes_scope plainUrlWithParams
             (upstream 401 [("WWW-Authenticate", hubChallenge)])
             (Response.mk 401 EmptyString
                (Headers.of_list [("WWW-Authenticate", hubChallenge)]) "blob")
             hubChallenge "https://auth.docker.io/token" "registry.docker.io"
             "https://auth.docker.io/token?service=registry.docker.io&scope=repository:library/busybox:pull");
    try reflexivity; discriminate.
Qed.

(** C3, at the input on which the gateway script leaves the claim: its
    handler of [/v2/token] relays the service and the scope as the client
    sent them, so the scope that reaches the token server is
    [repository:busybox:pull]; the response of the token server is
    returned as it is. The sibling handler completes the scope
    ([auth_relay_completes_scope]). *)
Theorem token_relay_keeps_scope (service : string) (net : Async.network) :
  let request :=
    tokenClient "/v2/token"
      [("service", service); ("scope", "repository:busybox:pull")] in
  map Fetch.url (Async.trace (Gateway.handleRequest request net))
  = ["https://auth.docker.io/token?service=" +:+ JS.encodeURIComponent service
     +:+ "&scope=repository%3Abusybox%3Apull"]
  /\ Async.result (Gateway.handleRequest request net)
     = match net (Gateway.tokenRequest request) with
       | Some r => Async.Resolved r
       | None => Async.Rejected
       end
  /\ AuthVariant.completeScope
       (AuthVariant.mapService (Some "cloudflare-docker-proxy"))
       (Some "repository:busybox:pull")
     = Some "repository:library/busybox:pull".
Proof.
  intros request.
  rewrite (gateway_token_route request eq_refl), gateway_token_run.
  repeat split.
Qed.

End TokenRelay.

(** ** The rewritten challenge *)
Section Challenge.

Lemma prefix_empty (s : string) : String.prefix EmptyString s = true.
Proof. now destruct s. Qed.

Lemma quotedRun_quoted (v rest : string) :
  quoteFree v = true ->
  TableVariant.quotedRun ((v +:+ JS.dquote) +:+ rest) = Some v.
Proof.
  intros Hv. induction v as [|c v IH]; simpl; [reflexivity|].
  simpl in Hv. apply andb_true_iff in Hv as [Hc Hv].
  apply negb_true_iff in Hc. rewrite Hc, (IH Hv). reflexivity.
Qed.

Lemma quoteFree_app (a b : string) :
  quoteFree a = true -> quoteFree b = true -> quoteFree (a +:+ b) = true.
Proof.
  intros Ha Hb. induction a as [|c a IH]; simpl; [exact Hb|].
  simpl in Ha. apply andb_true_iff in Ha as [Hc Ha]. now rewrite Hc, IH.
Qed.

Lemma hostName_quoteFree (h : string) : hostName h = true -> quoteFree h = true.
Proof.
  induction h as [|c h IH]; simpl; [reflexivity|]. intros H.
  apply andb_true_iff in H as [Hc Hh]. unfold hostChar in Hc.
  apply andb_true_iff in Hc as [_ Hq]. now rewrite Hq, IH.
Qed.

Lemma authority_host (h path : string) :
  hostName h = true -> authority (h +:+ String "/" path) = h.
Proof.
  intros Hh. induction h as [|c h IH]; simpl; [reflexivity|].
  simpl in Hh. apply andb_true_iff in Hh as [Hc Hh].
  unfold hostChar in Hc. apply andb_true_iff in Hc as [Hd _].
  apply negb_true_iff in Hd. rewrite Hd, (IH Hh). reflexivity.
Qed.

(** The realm of a challenge that starts with the realm of the gateway,
    and the host name of that realm. *)
Lemma challengeRealm_gateway (h endpoint rest : string) :
  hostName h = true -> hostName endpoint = true ->
  challengeRealm
    ("Bearer realm=" +:+ Build.quoted ("https://" +:+ h +:+ "/v2/" +:+ endpoint)
     +:+ rest)
  = Some ("https://" +:+ h +:+ "/v2/" +:+ endpoint)
  /\ urlHostname ("https://" +:+ h +:+ "/v2/" +:+ endpoint) = Some h.
Proof.
  intros Hh He. split.
  - unfold challengeRealm, Build.quoted. simpl.
    rewrite quotedRun_quoted; [reflexivity|].
    apply quoteFree_app; [now apply hostName_quoteFree|].
    simpl. now apply hostName_quoteFree.
  - unfold urlHostname. simpl. unfold JS.startsWith.
    now rewrite prefix_empty, authority_host.
Qed.

(** The challenge of the 401 of each script. *)
Lemma gateway_unauthorized (url : URL.t) (authHeader requestedImagePath : option string) :
  Response.status (Gateway.responseUnauthorized url authHeader requestedImagePath) = 401
  /\ Headers.get
       (Response.headers (Gateway.responseUnauthorized url authHeader requestedImagePath))
       "WWW-Authenticate"
     = Some (Gateway.newAuthHeader (URL.hostname url) authHeader requestedImagePath).
Proof. split; reflexivity. Qed.

Lemma table_unauthorized (url : URL.t) (authHeader : option string) :
  exists service,
    Response.status (TableVariant.responseUnauthorized url authHeader) = 401
    /\ Headers.get (Response.headers (TableVariant.responseUnauthorized url authHeader))
         "WWW-Authenticate"
       = Some ("Bearer realm=" +:+ Build.quoted ("https://" +:+ URL.hostname url
                                                 +:+ "/v2/" +:+ "token")
               +:+ ",service=" +:+ Build.quoted service).
Proof.
  unfold TableVariant.responseUnauthorized.
  destruct authHeader as [h|]; [destruct (JS.truthy h)|];
    try (exists "registry.docker.io"; split; reflexivity).
  destruct (TableVariant.regexParam "realm" h);
    [destruct (TableVariant.regexParam "service" h) as [sv|]|];
    try (exists "registry.docker.io"; split; reflexivity).
  exists sv. split; reflexivity.
Qed.

(** The realm of the challenge of the two sibling scripts is on the host
    of the request as well. *)
Lemma sibling_challenge_realm (url : URL.t) (authHeader : option string) :
  hostName (URL.hostname url) = true ->
  (exists challenge,
     Headers.get (Response.headers (TableVariant.responseUnauthorized url authHeader))
       "WWW-Authenticate" = Some challenge
     /\ challengeRealm challenge = Some ("https://" +:+ URL.hostname url +:+ "/v2/token"))
  /\ (exists challenge,
        Headers.get (Response.headers (AuthVariant.responseUnauthorized url))
          "WWW-Authenticate" = Some challenge
        /\ challengeRealm challenge
           = Some ("https://" +:+ URL.hostname url +:+ "/v2/auth")).
Proof.
  intros Hh. split.
  - destruct (table_unauthorized url authHeader) as [service [_ Hget]].
    eexists. split; [exact Hget|].
    now apply (challengeRealm_gateway (URL.hostname url) "token").
  - eexists. split; [reflexivity|].
    now apply (challengeRealm_gateway (URL.hostname url) "auth").
Qed.

Lemma newAuthHeader_realm (hostname : string) (authHeader requestedImagePath : option string) :
  exists rest,
    Gateway.newAuthHeader hostname authHeader requestedImagePath
    = "Bearer realm=" +:+ Build.quoted ("https://" +:+ hostname +:+ "/v2/" +:+ "token")
      +:+ rest.
Proof.
  unfold Gateway.newAuthHeader.
  destruct (Gateway.parseChallenge authHeader) as [[service scope] otherParams].
  cbv zeta. destruct (0 <? length otherParams).
  - eexists. rewrite !app_assoc_s. reflexivity.
  - eexists. reflexivity.
Qed.

Lemma gateway_ping_run (request : Request.t) (net : Async.network) (up : Response.t) :
  URL.pathname (Request.url request) = "/v2/" ->
  net (Gateway.pingRequest request) = Some up ->
  Response.status up = 401 ->
  Gateway.handleRequest request net
  = ([Gateway.pingRequest request],
     Async.Resolved
       (Gateway.responseUnauthorized (Request.url request)
          (Headers.get (Response.headers up) "Www-Authenticate") None)).
Proof.
  intros Hp Hup Hst. unfold Gateway.handleRequest, Gateway.handleApiRequest.
  rewrite Hp. simpl. unfold Async.tryCatch.
  rewrite run_fetch_bind, Hup, Hst. reflexivity.
Qed.

(** What holds of the 401 that answers a ping in the gateway script: the
    first realm parameter of its challenge is the token endpoint of the
    gateway on the host name of the request of the client, whatever
    challenge the upstream sent. *)
Lemma ping_challenge_realm (request : Request.t) (net : Async.network)
  (up : Response.t) :
  URL.pathname (Request.url request) = "/v2/" ->
  net (Gateway.pingRequest request) = Some up ->
  Response.status up = 401 ->
  hostName (URL.hostname (Request.url request)) = true ->
  exists r challenge realm,
    Async.result (Gateway.handleRequest request net) = Async.Resolved r
    /\ Response.status r = 401
    /\ Headers.get (Response.headers r) "WWW-Authenticate" = Some challenge
    /\ challengeRealm challenge = Some realm
    /\ realm = "https://" +:+ URL.hostname (Request.url request) +:+ "/v2/token"
    /\ urlHostname realm = Some (URL.hostname (Request.url request)).
Proof.
  intros Hp Hup Hst Hh. rewrite (gateway_ping_run request net up Hp Hup Hst).
  destruct (gateway_unauthorized (Request.url request)
              (Headers.get (Response.headers up) "Www-Authenticate") None)
    as [H401 Hget].
  destruct (newAuthHeader_realm (URL.hostname (Request.url request))
              (Headers.get (Response.headers up) "Www-Authenticate") None)
    as [rest Hrest].
  destruct (challengeRealm_gateway (URL.hostname (Request.url request)) "token" rest
              Hh eq_refl) as [Hrealm Hhost].
  eexists. eexists. eexists. split; [reflexivity|].
  split; [exact H401|]. split; [exact Hget|].
  rewrite Hrest. split; [exact Hrealm|]. split; [reflexivity | exact Hhost].
Qed.

Lemma ping_challenge_realm_witness :
  exists r challenge realm,
    Async.result
      (Gateway.handleRequest (client "/v2/")
         (upstream 401 [("WWW-Authenticate", hubChallenge)]))
    = Async.Resolved r
    /\ Response.status r = 401
    /\ Headers.get (Response.headers r) "WWW-Authenticate" = Some challenge
    /\ challengeRealm challenge = Some realm
    /\ realm = "https://gw.example/v2/token"
    /\ urlHostname realm = Some "gw.example".
Proof.
  apply (ping_challenge_realm (client "/v2/")
           (upstream 401 [("WWW-Authenticate", hubChallenge)])
           (Response.mk 401 EmptyString
              (Headers.of_list [("WWW-Authenticate", hubChallenge)]) "blob")).
  - reflexivity.
  - reflexivity.
  - reflexivity.
  - reflexivity.
Defined.

(** The realm of Docker Hub is not the realm the client is given. *)
Example hub_realm : challengeRealm hubChallenge = Some "https://auth.docker.io/token".
Proof. reflexivity. Qed.

(** C7 as it is stated fails: an upstream 401 without any challenge is
    answered with a 401, not a 500, whose challenge holds the default
    service and the default scope. *)
Lemma missing_challenge_defaulted :
  exists r,
    Async.result (Gateway.handleRequest (client "/v2/") (upstream 401 []))
    = Async.Resolved r
    /\ Response.status r = 401
    /\ Response.status r <> 500
    /\ Headers.get (Response.headers r) "WWW-Authenticate"
       = Some ("Bearer realm=" +:+ Build.quoted "https://gw.example/v2/token"
               +:+ ",service=" +:+ Build.quoted "registry.docker.io"
               +:+ ",scope=" +:+ Build.quoted "repository:*:pull").
Proof.
  eexists. split; [vm_compute; reflexivity|].
  split; [reflexivity|]. split; [discriminate | reflexivity].
Qed.

(** The loop over the parts keeps the default service when no part
    names the service. *)
Lemma challengePart_keeps_service (part scope : string) (otherParams : list string) :
  JS.startsWith (JS.trim part) ("service=" +:+ JS.dquote) = false ->
  fst (fst (Gateway.challengePart ("registry.docker.io", scope, otherParams) part))
  = "registry.docker.io".
Proof.
  intros Hp. unfold Gateway.challengePart. cbv beta iota zeta. rewrite Hp.
  destruct (JS.startsWith (JS.trim part) ("realm=" +:+ JS.dquote)); [reflexivity|].
  destruct (JS.startsWith (JS.trim part) ("scope=" +:+ JS.dquote)); reflexivity.
Qed.

Lemma challengePart_service (parts : list string) :
  Forall (fun part =>
            JS.startsWith (JS.trim part) ("service=" +:+ JS.dquote) = false) parts ->
  forall st,
    fst (fst st) = "registry.docker.io" ->
    fst (fst (fold_left Gateway.challengePart parts st)) = "registry.docker.io".
Proof.
  induction 1 as [|part parts Hp _ IH]; intros st Hst; [exact Hst|].
  simpl fold_left. apply IH.
  destruct st as [[service scope] otherParams]. simpl in Hst. subst service.
  now apply challengePart_keeps_service.
Qed.

Lemma parseChallenge_service (authHeader : option string) :
  noServicePart authHeader ->
  fst (fst (Gateway.parseChallenge authHeader)) = "registry.docker.io".
Proof.
  intros H. unfold Gateway.parseChallenge.
  destruct authHeader as [h|]; [|reflexivity].
  destruct (JS.truthy h); [|reflexivity].
  now apply challengePart_service.
Qed.

(** The script with one table falls back to the default service when
    the challenge is absent or has no realm or no service. *)
Lemma table_fallback (url : URL.t) (authHeader : option string) :
  match authHeader with
  | Some h => TableVariant.regexParam "realm" h = None
              \/ TableVariant.regexParam "service" h = None
  | None => True
  end ->
  TableVariant.responseUnauthorized url authHeader
  = TableVariant.unauthorized
      ("Bearer realm=" +:+ Build.quoted ("https://" +:+ URL.hostname url +:+ "/v2/token")
       +:+ ",service=" +:+ Build.quoted "registry.docker.io").
Proof.
  unfold TableVariant.responseUnauthorized. destruct authHeader as [h|]; [|reflexivity].
  intros [H | H]; rewrite H; destruct (JS.truthy h); try reflexivity.
  now destruct (TableVariant.regexParam "realm" h).
Qed.

(** A challenge that gives a realm and nothing else: the service and
    the scope are the defaults, and the part of the upstream follows. *)
Example realm_only_challenge :
  Gateway.newAuthHeader "gw.example"
    (Some ("Bearer realm=" +:+ Build.quoted "https://auth.docker.io/token")) None
  = "Bearer realm=" +:+ Build.quoted "https://gw.example/v2/token"
    +:+ ",service=" +:+ Build.quoted "registry.docker.io"
    +:+ ",scope=" +:+ Build.quoted "repository:*:pull"
    +:+ ",Bearer realm=" +:+ Build.quoted "https://auth.docker.io/token".
Proof. reflexivity. Qed.

(** The 401 the gateway script builds when no part of the challenge
    names the service. *)
Lemma responseUnauthorized_defaults (url : URL.t)
  (authHeader requestedImagePath : option string) :
  noServicePart authHeader ->
  defaultedChallenge (URL.hostname url)
    (Gateway.responseUnauthorized url authHeader requestedImagePath).
Proof.
  intros Hno. split; [reflexivity|].
  pose proof (parseChallenge_service authHeader Hno) as Hsv.
  rewrite (proj2 (gateway_unauthorized url authHeader requestedImagePath)).
  unfold Gateway.newAuthHeader.
  destruct (Gateway.parseChallenge authHeader) as [[service scope] otherParams] eqn:Hp.
  simpl in Hsv. subst service. cbv zeta.
  exists (Gateway.inferScope authHeader "registry.docker.io" scope requestedImagePath).
  exists (if 0 <? length otherParams then "," +:+ JS.join "," otherParams
          else EmptyString).
  f_equal. destruct (0 <? length otherParams).
  - unfold Build.quoted. rewrite !app_assoc_s. reflexivity.
  - unfold Build.quoted. rewrite !app_assoc_s. reflexivity.
Qed.

(** C7, amended: an upstream 401 whose challenge is absent, or has no
    part that begins with the service parameter once it is trimmed, is
    answered with a 401, not a 500, on the ping and on every forwarded
    registry request: its challenge begins with the token endpoint of
    the gateway as the realm and with the default service
    [registry.docker.io]. On the ping without a challenge the scope is
    the default one and nothing else follows. *)
Theorem unparseable_challenge_defaults (request : Request.t)
  (baseUrl imagePath search : string) (net : Async.network) (up : Response.t) :
  Response.status up = 401 ->
  noServicePart (Headers.get (Response.headers up) "Www-Authenticate") ->
  (URL.pathname (Request.url request) = "/v2/" ->
   net (Gateway.pingRequest request) = Some up ->
   exists r,
     Gateway.handleRequest request net
     = ([Gateway.pingRequest request], Async.Resolved r)
     /\ defaultedChallenge (URL.hostname (Request.url request)) r
     /\ (Headers.get (Response.headers up) "Www-Authenticate" = None ->
         Headers.get (Response.headers r) "WWW-Authenticate"
         = Some ("Bearer realm="
                 +:+ Build.quoted ("https://" +:+ URL.hostname (Request.url request)
                                   +:+ "/v2/token")
                 +:+ ",service=" +:+ Build.quoted "registry.docker.io"
                 +:+ ",scope=" +:+ Build.quoted "repository:*:pull")))
  /\ (net (Gateway.registryRequest request baseUrl imagePath search) = Some up ->
      exists r,
        Gateway.handleRegistryRequest request baseUrl imagePath search net
        = ([Gateway.registryRequest request baseUrl imagePath search],
           Async.Resolved r)
        /\ defaultedChallenge (URL.hostname (Request.url request)) r).
Proof.
  intros Hst Hno. split.
  - intros Hp Hup. rewrite (gateway_ping_run request net up Hp Hup Hst).
    eexists. split; [reflexivity|].
    split; [now apply responseUnauthorized_defaults|].
    intros Hnone. rewrite Hnone. reflexivity.
  - intros Hup. unfold Gateway.handleRegistryRequest. cbv zeta.
    rewrite run_fetch_bind, Hup, Hst. simpl Nat.eqb. cbv iota.
    eexists. split; [reflexivity|].
    now apply responseUnauthorized_defaults.
Qed.

Lemma unparseable_challenge_defaults_witness :
  (exists r,
     Gateway.handleRequest (client "/v2/")
       (upstream 401
          [("Www-Authenticate",
            "Bearer realm=" +:+ Build.quoted "https://auth.docker.io/token")])
     = ([Gateway.pingRequest (client "/v2/")], Async.Resolved r)
     /\ defaultedChallenge "gw.example" r)
  /\ (exists r,
        Gateway.handleRegistryRequest (client "/v2/library/busybox/manifests/latest")
          Gateway.DOCKER_HUB_URL "library/busybox/manifests/latest" EmptyString
          (upstream 401
             [("Www-Authenticate",
               "Bearer realm=" +:+ Build.quoted "https://auth.docker.io/token")])
        = ([Gateway.registryRequest (client "/v2/library/busybox/manifests/latest")
              Gateway.DOCKER_HUB_URL "library/busybox/manifests/latest" EmptyString],
           Async.Resolved r)
        /\ defaultedChallenge "gw.example" r).
Proof.
  assert (Hno : noServicePart
                  (Headers.get
                     (Response.headers
                        (Response.mk 401 EmptyString
                           (Headers.of_list
                              [("Www-Authenticate",
                                "Bearer realm="
                                +:+ Build.quoted "https://auth.docker.io/token")])
                           "blob")) "Www-Authenticate")).
  { repeat constructor. }
  split.
  - destruct (proj1 (unparseable_challenge_defaults (client "/v2/")
                       Gateway.DOCKER_HUB_URL "library/busybox/manifests/latest"
                       EmptyString
                       (upstream 401
                          [("Www-Authenticate",
                            "Bearer realm="
                            +:+ Build.quoted "https://auth.docker.io/token")])
                       (Response.mk 401 EmptyString
                          (Headers.of_list
                             [("Www-Authenticate",
                               "Bearer realm="
                               +:+ Build.quoted "https://auth.docker.io/token")])
                          "blob") eq_refl Hno) eq_refl eq_refl)
      as [r [Hrun [Hd _]]].
    exists r. split; [exact Hrun | exact Hd].
  - apply (proj2 (unparseable_challenge_defaults
                    (client "/v2/library/busybox/manifests/latest")
                    Gateway.DOCKER_HUB_URL "library/busybox/manifests/latest"
                    EmptyString
                    (upstream 401
                       [("Www-Authenticate",
                         "Bearer realm="
                         +:+ Build.quoted "https://auth.docker.io/token")])
                    (Response.mk 401 EmptyString
                       (Headers.of_list
                          [("Www-Authenticate",
                            "Bearer realm="
                            +:+ Build.quoted "https://auth.docker.io/token")])
                       "blob") eq_refl Hno)).
    reflexivity.
Defined.

End Challenge.

(** ** Official images of Docker Hub *)
Section OfficialImages.

Lemma officialImagePath_single (imagePath : string) :
  Gateway.singleSegment (Gateway.repoNameOf imagePath) = true ->
  Gateway.officialImagePath imagePath = "library/" +:+ imagePath.
Proof. intros H. unfold Gateway.officialImagePath. now rewrite H. Qed.

Lemma officialImagePath_qualified (imagePath : string) :
  Gateway.singleSegment (Gateway.repoNameOf imagePath) = false ->
  Gateway.officialImagePath imagePath = imagePath.
Proof. intros H. unfold Gateway.officialImagePath. now rewrite H. Qed.

(** [busybox] and [library/busybox] reach Docker Hub on the same path. *)
Example busybox_same_path :
  Gateway.resolveRegistry "busybox/manifests/latest"
  = Some (Gateway.DOCKER_HUB_URL, "library/busybox/manifests/latest")
  /\ Gateway.resolveRegistry "library/busybox/manifests/latest"
     = Some (Gateway.DOCKER_HUB_URL, "library/busybox/manifests/latest")
  /\ Gateway.officialImagePath "busybox" = "library/busybox"
  /\ Gateway.officialImagePath "library/busybox" = "library/busybox".
Proof. repeat split. Qed.

Lemma splitHead_cons (sep : string) (c : ascii) (s : string) :
  JS.splitHead sep (String c s)
  = if String.prefix sep (String c s) then EmptyString
    else String c (JS.splitHead sep s).
Proof. reflexivity. Qed.

(** What [split(sep)[0]] returns is a prefix of the string. *)
Lemma splitHead_prefix (sep a s : string) :
  String.prefix a (JS.splitHead sep s) = true -> String.prefix a s = true.
Proof.
  revert a; induction s as [|c s IH]; intros a H.
  - simpl in H. destruct sep; exact H.
  - rewrite splitHead_cons in H. destruct (String.prefix sep (String c s)).
    + apply prefix_nil_r in H. subst a. reflexivity.
    + destruct a as [|d a]; [reflexivity|].
      rewrite prefix_cons in H |- *. apply andb_true_iff in H as [Hc Ha].
      rewrite Hc. simpl. now apply IH.
Qed.

Lemma repoNameOf_library (imagePath : string) :
  JS.startsWith imagePath "manifests/" = false ->
  JS.startsWith imagePath "blobs/" = false ->
  exists name, Gateway.repoNameOf ("library/" +:+ imagePath) = "library/" +:+ name.
Proof.
  unfold JS.startsWith. intros Hm Hb.
  exists (JS.splitHead "/blobs/" (JS.splitHead "/manifests/" imagePath)).
  unfold Gateway.repoNameOf.
  assert (H1 : JS.splitHead "/manifests/" ("library/" +:+ imagePath)
               = "library/" +:+ JS.splitHead "/manifests/" imagePath).
  { simpl. rewrite Hm. reflexivity. }
  rewrite H1.
  assert (Hq : String.prefix "blobs/" (JS.splitHead "/manifests/" imagePath) = false).
  { destruct (String.prefix "blobs/" (JS.splitHead "/manifests/" imagePath)) eqn:E;
      [|reflexivity].
    apply splitHead_prefix in E. congruence. }
  simpl. rewrite Hq. reflexivity.
Qed.

(** The rewriting is idempotent on the image paths that do not begin
    with [manifests/] or [blobs/]. *)
Lemma officialImagePath_idempotent (imagePath : string) :
  JS.startsWith imagePath "manifests/" = false ->
  JS.startsWith imagePath "blobs/" = false ->
  Gateway.officialImagePath (Gateway.officialImagePath imagePath)
  = Gateway.officialImagePath imagePath.
Proof.
  intros Hm Hb.
  destruct (Gateway.singleSegment (Gateway.repoNameOf imagePath)) eqn:Hs.
  - rewrite (officialImagePath_single _ Hs).
    apply officialImagePath_qualified.
    destruct (repoNameOf_library imagePath Hm Hb) as [name ->].
    unfold Gateway.singleSegment. simpl. rewrite prefix_empty. reflexivity.
  - now rewrite !(officialImagePath_qualified _ Hs).
Qed.

Lemma officialImagePath_idempotent_example :
  Gateway.officialImagePath (Gateway.officialImagePath "busybox/manifests/latest")
  = Gateway.officialImagePath "busybox/manifests/latest".
Proof. apply officialImagePath_idempotent; reflexivity. Defined.

(** The script with the redirect on the route of the Docker Hub prefix:
    the first part of the image path is empty, and the redirect puts
    [library] before the prefix. *)
Example redirect_on_prefix_route :
  AuthVariant.officialImageRedirect "/v2/register/docker/hub/busybox/manifests/latest"
    "/busybox/manifests/latest"
  = Some "/v2/library/register/docker/hub/busybox/manifests/latest"
  /\ AuthVariant.officialImageRedirect "/v2/busybox/manifests/latest"
       "busybox/manifests/latest"
     = Some "/v2/library/busybox/manifests/latest"
  /\ AuthVariant.officialImageRedirect "/v2/library/busybox/manifests/latest"
       "library/busybox/manifests/latest"
     = None.
Proof. repeat split. Qed.

(** The first request of the registry handler is the forwarded one. *)
Lemma gateway_registry_first (request : Request.t) (baseUrl imagePath search : string)
  (net : Async.network) :
  head (Async.trace (Gateway.handleRegistryRequest request baseUrl imagePath search net))
  = Some (Gateway.registryRequest request baseUrl imagePath search).
Proof.
  unfold Gateway.handleRegistryRequest. cbv zeta. rewrite run_fetch_bind.
  now destruct (net _).
Qed.

(** C5, at the inputs on which the scripts leave the claim. In the
    gateway script the name [busybox] is not rewritten on the route of
    the Docker Hub prefix, whose image path begins with a slash; the
    namespaced name [library/manifests] is rewritten to
    [library/library/manifests], and rewriting [manifests/manifests/latest]
    twice differs from rewriting it once. In the script with the redirect
    the namespaced name [myuser/myimage] is redirected to
    [library/myuser/myimage]. *)
Theorem official_image_rewriting_slips :
  Gateway.resolveRegistry "register/docker/hub/busybox/manifests/latest"
  = Some (Gateway.DOCKER_HUB_URL, "busybox/manifests/latest")
  /\ Gateway.officialImagePath "library/manifests/manifests/latest"
     = "library/library/manifests/manifests/latest"
  /\ Gateway.officialImagePath (Gateway.officialImagePath "manifests/manifests/latest")
     <> Gateway.officialImagePath "manifests/manifests/latest"
  /\ (forall net : Async.network,
        option_map Fetch.url
          (head (Async.trace
                   (Gateway.handleRequest
                      (client "/v2/register/docker/hub/busybox/manifests/latest") net)))
        = Some "https://registry-1.docker.io/v2/busybox/manifests/latest"
        /\ option_map Fetch.url
             (head (Async.trace
                      (Gateway.handleRequest
                         (client "/v2/library/manifests/manifests/latest") net)))
           = Some "https://registry-1.docker.io/v2/library/library/manifests/manifests/latest")
  /\ AuthVariant.officialImageRedirect "/v2/myuser/myimage/manifests/latest"
       "myuser/myimage/manifests/latest"
     = Some "/v2/library/myuser/myimage/manifests/latest".
Proof.
  split; [reflexivity|]. split; [reflexivity|]. split; [discriminate|].
  split; [|reflexivity]. intros net. split.
  - change (Gateway.handleRequest
              (client "/v2/register/docker/hub/busybox/manifests/latest") net)
      with (Gateway.handleRegistryRequest
              (client "/v2/register/docker/hub/busybox/manifests/latest")
              Gateway.DOCKER_HUB_URL "busybox/manifests/latest" EmptyString net).
    now rewrite gateway_registry_first.
  - change (Gateway.handleRequest (client "/v2/library/manifests/manifests/latest") net)
      with (Gateway.handleRegistryRequest
              (client "/v2/library/manifests/manifests/latest")
              Gateway.DOCKER_HUB_URL "library/library/manifests/manifests/latest"
              EmptyString net).
    now rewrite gateway_registry_first.
Qed.

End OfficialImages.

(** ** More facts about the string primitives *)
Section SplitFacts.

Lemma app_nil_r_s (s : string) : s +:+ EmptyString = s.
Proof. induction s as [|c s IH]; simpl; [reflexivity | now rewrite IH]. Qed.

Lemma split_nonempty (c : ascii) (s : string) : JS.split c s <> [].
Proof.
  destruct s as [|a s]; simpl; [discriminate|].
  destruct (Ascii.eqb a c); [discriminate|].
  destruct (JS.split c s); discriminate.
Qed.

Lemma split_cons (c a : ascii) (s : string) :
  JS.split c (String a s)
  = if Ascii.eqb a c then EmptyString :: JS.split c s
    else String a (hd EmptyString (JS.split c s)) :: tl (JS.split c s).
Proof.
  simpl. destruct (Ascii.eqb a c); [reflexivity|].
  pose proof (split_nonempty c s). now destruct (JS.split c s).
Qed.

(** A string without the separator is its own only part. *)
Lemma split_free (c : ascii) (s : string) :
  charFree c s = true -> JS.split c s = [s].
Proof.
  induction s as [|a s IH]; [reflexivity|]. simpl charFree. intros H.
  apply andb_true_iff in H as [Ha Hs]. apply negb_true_iff in Ha.
  rewrite split_cons, Ha, (IH Hs). reflexivity.
Qed.

Lemma split_app_sep (c : ascii) (a t : string) :
  charFree c a = true ->
  JS.split c (a +:+ String c t) = a :: JS.split c t.
Proof.
  induction a as [|x a IH]; simpl charFree; intros H.
  - simpl. now rewrite Ascii.eqb_refl.
  - apply andb_true_iff in H as [Hx Ha]. apply negb_true_iff in Hx.
    change (String x a +:+ String c t) with (String x (a +:+ String c t)).
    rewrite split_cons, Hx, (IH Ha). reflexivity.
Qed.

(** The parts of a split hold no separator. *)
Lemma split_parts_free (c : ascii) (s : string) :
  Forall (fun part => charFree c part = true) (JS.split c s).
Proof.
  induction s as [|a s IH]; [repeat constructor|].
  rewrite split_cons. destruct (Ascii.eqb a c) eqn:Ha.
  - constructor; [reflexivity | exact IH].
  - pose proof (split_nonempty c s) as Hne.
    destruct (JS.split c s) as [|h t]; [congruence|].
    inversion IH as [|? ? Hh Ht]; subst. constructor; [|exact Ht].
    simpl. now rewrite Ha, Hh.
Qed.

(** Joining the parts of a split with the separator gives the string
    back. *)
Lemma join_split (c : ascii) (s : string) :
  JS.join (String c EmptyString) (JS.split c s) = s.
Proof.
  induction s as [|a s IH]; [reflexivity|].
  rewrite split_cons. pose proof (split_nonempty c s) as Hne.
  destruct (Ascii.eqb a c) eqn:Ha.
  - apply Ascii.eqb_eq in Ha. subst a.
    destruct (JS.split c s) as [|h t] eqn:E; [congruence|].
    change (JS.join (String c EmptyString) (EmptyString :: h :: t))
      with (String c (JS.join (String c EmptyString) (h :: t))).
    now rewrite IH.
  - destruct (JS.split c s) as [|h t] eqn:E; [congruence|]. simpl hd. simpl tl.
    destruct t as [|h' t].
    + simpl in IH |- *. now rewrite IH.
    + change (JS.join (String c EmptyString) (String a h :: h' :: t))
        with (String a (JS.join (String c EmptyString) (h :: h' :: t))).
      now rewrite IH.
Qed.

Lemma charFree_app (c : ascii) (a b : string) :
  charFree c (a +:+ b) = charFree c a && charFree c b.
Proof.
  induction a as [|x a IH]; simpl; [reflexivity|].
  now rewrite IH, andb_assoc.
Qed.

Lemma includes_cons (a : ascii) (s sub : string) :
  JS.includes (String a s) sub = String.prefix sub (String a s) || JS.includes s sub.
Proof. reflexivity. Qed.

Lemma charFree_includes (c : ascii) (s : string) :
  charFree c s = negb (JS.includes s (String c EmptyString)).
Proof.
  induction s as [|a s IH]; [reflexivity|].
  rewrite includes_cons, prefix_cons, prefix_empty_l, andb_true_r.
  simpl charFree. rewrite IH, negb_orb, (Ascii.eqb_sym c a). reflexivity.
Qed.

Lemma prefix_slice (b s : string) :
  String.prefix b s = true -> s = b +:+ JS.slice s (String.length b).
Proof.
  revert s; induction b as [|c b IH]; intros s H; [reflexivity|].
  destruct s as [|d s]; [discriminate|].
  rewrite prefix_cons in H. apply andb_true_iff in H as [Hc Hb].
  apply Ascii.eqb_eq in Hc. subst d. simpl. f_equal. now apply IH.
Qed.

Lemma prefix_app_l (a b s : string) :
  String.prefix (a +:+ b) s = true -> String.prefix a s = true.
Proof.
  revert s; induction a as [|c a IH]; intros s H; [apply prefix_empty_l|].
  destruct s as [|d s]; [discriminate|].
  change (String c a +:+ b) with (String c (a +:+ b)) in H.
  rewrite prefix_cons in H |- *. apply andb_true_iff in H as [Hc Hb].
  rewrite Hc. simpl. now apply IH.
Qed.

End SplitFacts.

(** ** The routers, in general *)
Section Routers.

Lemma falsy_empty (b : string) : JS.truthy b = false -> b = EmptyString.
Proof. destruct b; [reflexivity | discriminate]. Qed.

(** What the loop holds at its end is at least as long as every prefix
    that passed the test and as what it held at the start. *)
Lemma better_fold_max (test : string -> bool) (l : list string) :
  forall best b,
    fold_left (better test) l best = Some b ->
    (forall q, In q l -> test q = true -> String.length q <= String.length b)
    /\ (forall b0, best = Some b0 -> String.length b0 <= String.length b).
Proof.
  induction l as [|q l IH]; intros best b H; simpl in H.
  - split; [intros q [] |].
    intros b0 Hb0. rewrite Hb0 in H. injection H as ->. lia.
  - destruct (IH _ _ H) as [Hl Hbest]. unfold better in Hbest.
    destruct (test q) eqn:Hq.
    + destruct best as [b0|].
      * destruct (negb (JS.truthy b0) || (String.length b0 <? String.length q)) eqn:Hc.
        -- pose proof (Hbest q eq_refl) as Hqb. split.
           ++ intros q' [<- | Hin] Ht; [exact Hqb | now apply Hl].
           ++ intros b1 Hb1. injection Hb1 as <-.
              apply orb_true_iff in Hc as [Hc | Hc].
              ** apply negb_true_iff, falsy_empty in Hc. subst b0. simpl. lia.
              ** apply Nat.ltb_lt in Hc. lia.
        -- pose proof (Hbest b0 eq_refl) as Hb0. split.
           ++ intros q' [<- | Hin] Ht; [| now apply Hl].
              apply orb_false_iff in Hc as [_ Hc]. apply Nat.ltb_ge in Hc. lia.
           ++ intros b1 Hb1. injection Hb1 as <-. exact Hb0.
      * pose proof (Hbest q eq_refl) as Hqb. split.
        -- intros q' [<- | Hin] Ht; [exact Hqb | now apply Hl].
        -- intros b1 Hb1. discriminate.
    + split.
      * intros q' [<- | Hin] Ht; [congruence | now apply Hl].
      * exact Hbest.
Qed.

Lemma better_fold_some (test : string -> bool) (l : list string) :
  forall b0, exists b, fold_left (better test) l (Some b0) = Some b.
Proof.
  induction l as [|q l IH]; intros b0; simpl; [now exists b0|].
  unfold better. destruct (test q); [|apply IH].
  destruct (negb (JS.truthy b0) || (String.length b0 <? String.length q)); apply IH.
Qed.

Lemma better_fold_none (test : string -> bool) (l : list string) :
  fold_left (better test) l None = None ->
  forall q, In q l -> test q = false.
Proof.
  induction l as [|q l IH]; intros H q' Hin; [destruct Hin|].
  simpl in H.
  change (better test None q) with (if test q then Some q else None) in H.
  destruct (test q) eqn:Hq.
  - destruct (better_fold_some test l q) as [b Hb]. congruence.
  - destruct Hin as [<- | Hin]; [exact Hq | now apply IH].
Qed.

Lemma segmentMatch_prefix (path b : string) :
  segmentMatch path b = true -> String.prefix b path = true.
Proof.
  unfold segmentMatch, JS.startsWith. intros H.
  apply orb_true_iff in H as [H | H].
  - now apply prefix_app_l in H.
  - apply String.eqb_eq in H. subst. rewrite <- (app_nil_r_s b) at 2.
    apply prefix_app.
Qed.

(** X1: a prefix the router of the gateway script answers is a non-empty
    prefix of the table that ends on a segment boundary of the path;
    with the rest it makes up the path; and no prefix of the table that
    ends on a segment boundary of the path is longer. *)
Theorem gateway_router_longest (path : string) (prefixes : list string)
  (b rest : string) :
  Gateway.extractPrefixAndRest path prefixes = (Some b, rest) ->
  In b prefixes /\ b <> EmptyString /\ segmentMatch path b = true
  /\ path = b +:+ rest
  /\ forall q, In q prefixes -> segmentMatch path q = true ->
               String.length q <= String.length b.
Proof.
  rewrite extract_unfold. intros H.
  destruct (fold_left (better (segmentMatch path)) prefixes None) as [b'|] eqn:Hf;
    [| discriminate].
  destruct (JS.truthy b') eqn:Ht; [| discriminate].
  injection H as -> <-.
  destruct (better_fold_origin _ _ _ _ Hf) as [Hn | [Hin Hm]]; [discriminate|].
  split; [exact Hin|]. split; [now apply truthy_nonempty|]. split; [exact Hm|].
  split; [now apply prefix_slice, segmentMatch_prefix|].
  exact (proj1 (better_fold_max _ _ _ _ Hf)).
Qed.

Lemma gateway_router_longest_witness :
  In "a/b" ["a"; "a/b"; "c"] /\ "a/b" <> EmptyString
  /\ segmentMatch "a/b/c" "a/b" = true
  /\ "a/b/c" = "a/b" +:+ "/c"
  /\ forall q, In q ["a"; "a/b"; "c"] -> segmentMatch "a/b/c" q = true ->
               String.length q <= String.length "a/b".
Proof.
  apply (gateway_router_longest "a/b/c" ["a"; "a/b"; "c"] "a/b" "/c").
  reflexivity.
Defined.

(** X2: the router of the gateway script answers [null] with the path
    unchanged exactly when no non-empty prefix of the table ends on a
    segment boundary of the path. *)
Theorem gateway_router_none (path : string) (prefixes : list string) :
  Gateway.extractPrefixAndRest path prefixes = (None, path)
  <-> (forall q, In q prefixes -> segmentMatch path q = true -> q = EmptyString).
Proof.
  rewrite extract_unfold. split.
  - intros H q Hin Hq.
    destruct (fold_left (better (segmentMatch path)) prefixes None) as [b|] eqn:Hf.
    + destruct (JS.truthy b) eqn:Ht; [discriminate|].
      apply falsy_empty in Ht. subst b.
      pose proof (proj1 (better_fold_max _ _ _ _ Hf) q Hin Hq) as Hl.
      destruct q; [reflexivity | simpl in Hl; lia].
    + rewrite (better_fold_none _ _ Hf q Hin) in Hq. discriminate.
  - intros H.
    destruct (fold_left (better (segmentMatch path)) prefixes None) as [b|] eqn:Hf;
      [| reflexivity].
    destruct (better_fold_origin _ _ _ _ Hf) as [Hn | [Hin Hm]]; [discriminate|].
    rewrite (H b Hin Hm). reflexivity.
Qed.

Lemma table_fold_slash (prefixes : list string) (P x : string) :
  In P prefixes -> P <> EmptyString -> unextended prefixes P ->
  fold_left
    (better (fun prefix => JS.startsWith (P +:+ "/" +:+ x) (prefix +:+ "/")))
    prefixes None
  = Some P.
Proof.
  intros Hin HP Hun. apply (better_fold_owner _ P prefixes HP).
  - unfold JS.startsWith. rewrite <- app_assoc_s. apply prefix_app.
  - auto.
  - intros q Hq Hm. now apply (slash_prefix_bound prefixes P x q).
  - now left.
  - now right.
Qed.

Lemma normalizedPath_slash (s : string) :
  normalizedPath (String "/" s) = String "/" s.
Proof.
  unfold normalizedPath, JS.startsWith. now rewrite prefix_cons, prefix_empty_l.
Qed.

Lemma table_router_normalized (path : string) (prefixes : list string) :
  TableVariant.extractPrefixAndRest path prefixes
  = match
      fold_left
        (better (fun prefix => JS.startsWith (normalizedPath path) (prefix +:+ "/")))
        prefixes None
    with
    | Some b =>
        if JS.truthy b
        then (Some b, JS.slice (normalizedPath path) (String.length b))
        else (None, path)
    | None => (None, path)
    end.
Proof. reflexivity. Qed.

(** X4: the router of the script with one table, for a prefix [/P0] of
    the table that no other prefix extends. A path [/P0/x] gives the
    prefix and the rest [/x], and so does the path [P0/x] without its
    leading slash; the prefix alone, without a slash after it, is not
    matched, and neither is a path that goes on after the prefix without
    a slash. *)
Theorem table_router_segments (prefixes : list string) (P0 x : string) :
  In ("/" +:+ P0) prefixes -> unextended prefixes ("/" +:+ P0) ->
  JS.startsWith P0 "/" = false -> P0 <> EmptyString ->
  TableVariant.extractPrefixAndRest ("/" +:+ P0 +:+ "/" +:+ x) prefixes
  = (Some ("/" +:+ P0), "/" +:+ x)
  /\ TableVariant.extractPrefixAndRest (P0 +:+ "/" +:+ x) prefixes
     = (Some ("/" +:+ P0), "/" +:+ x)
  /\ fst (TableVariant.extractPrefixAndRest ("/" +:+ P0) prefixes)
     <> Some ("/" +:+ P0)
  /\ (JS.startsWith x "/" = false ->
      fst (TableVariant.extractPrefixAndRest ("/" +:+ P0 +:+ x) prefixes)
      <> Some ("/" +:+ P0)).
Proof.
  intros Hin Hun Hs HP0.
  assert (Hfold := table_fold_slash prefixes ("/" +:+ P0) x Hin
                     ltac:(discriminate) Hun).
  assert (Hn : normalizedPath (P0 +:+ "/" +:+ x) = "/" +:+ P0 +:+ "/" +:+ x).
  { unfold normalizedPath. destruct P0 as [|c P0]; [congruence|].
    unfold JS.startsWith in *. rewrite prefix_cons in Hs.
    change (String c P0 +:+ "/" +:+ x) with (String c (P0 +:+ "/" +:+ x)).
    rewrite prefix_cons. rewrite prefix_empty_l, andb_true_r in Hs.
    now rewrite Hs. }
  split; [| split; [| split]].
  - rewrite table_router_normalized.
    change ("/" +:+ P0 +:+ "/" +:+ x) with (String "/" (P0 +:+ "/" +:+ x)).
    rewrite normalizedPath_slash.
    change (String "/" (P0 +:+ "/" +:+ x)) with (("/" +:+ P0) +:+ "/" +:+ x).
    rewrite Hfold. simpl JS.truthy. cbv iota.
    now rewrite (slice_app ("/" +:+ P0) ("/" +:+ x)).
  - rewrite table_router_normalized, Hn.
    change ("/" +:+ P0 +:+ "/" +:+ x) with (("/" +:+ P0) +:+ "/" +:+ x).
    rewrite Hfold. simpl JS.truthy. cbv iota.
    now rewrite (slice_app ("/" +:+ P0) ("/" +:+ x)).
  - rewrite <- (app_nil_r_s ("/" +:+ P0)) at 1.
    apply (table_router_boundary prefixes ("/" +:+ P0) EmptyString);
      [| reflexivity].
    unfold JS.startsWith. change ("/" +:+ P0) with (String "/" P0).
    now rewrite prefix_cons, prefix_empty_l.
  - intros Hx. apply (table_router_boundary prefixes ("/" +:+ P0) x); [| exact Hx].
    unfold JS.startsWith. change ("/" +:+ P0) with (String "/" P0).
    now rewrite prefix_cons, prefix_empty_l.
Qed.

Lemma table_router_segments_witness :
  TableVariant.extractPrefixAndRest "/registry/github/org/img/manifests/latest"
    (keys TableVariant.apiConfigs)
  = (Some "/registry/github", "/org/img/manifests/latest")
  /\ TableVariant.extractPrefixAndRest "registry/github/org/img/manifests/latest"
       (keys TableVariant.apiConfigs)
     = (Some "/registry/github", "/org/img/manifests/latest")
  /\ fst (TableVariant.extractPrefixAndRest "/registry/github"
            (keys TableVariant.apiConfigs))
     <> Some "/registry/github"
  /\ (JS.startsWith "org/img/manifests/latest" "/" = false ->
      fst (TableVariant.extractPrefixAndRest "/registry/githuborg/img/manifests/latest"
             (keys TableVariant.apiConfigs))
      <> Some "/registry/github").
Proof.
  apply (table_router_segments (keys TableVariant.apiConfigs) "registry/github"
           "org/img/manifests/latest").
  - vm_compute. tauto.
  - apply unextended_check. vm_compute. reflexivity.
  - reflexivity.
  - discriminate.
Defined.

Lemma find_first {A : Type} (f : A -> bool) (l : list A) :
  match find f l with
  | Some p =>
      exists l1 l2, l = l1 ++ p :: l2 /\ f p = true
                    /\ Forall (fun q => f q = false) l1
  | None => Forall (fun q => f q = false) l
  end.
Proof.
  induction l as [|a l IH]; simpl; [constructor|].
  destruct (f a) eqn:Ha.
  - exists [], l. repeat split; [exact Ha | constructor].
  - destruct (find f l) as [p|].
    + destruct IH as (l1 & l2 & -> & Hp & Hl1).
      exists (a :: l1), l2. repeat split; [exact Hp | now constructor].
    + now constructor.
Qed.

(** X5: the router of [src/index.js] answers the first prefix, in the
    order of the table, that the path with its leading slash starts with,
    and the rest of that path; it answers [null] twice exactly when the
    path starts with no prefix of the table. The boundary of a segment
    and the length of the prefix play no part. *)
Theorem index_router_first_match (path : string) (prefixes : list string) :
  match IndexJs.extractPrefixAndRest path prefixes with
  | (Some p, Some rest) =>
      exists l1 l2,
        prefixes = l1 ++ p :: l2
        /\ Forall (fun q => JS.startsWith (normalizedPath path) q = false) l1
        /\ normalizedPath path = p +:+ rest
  | (None, None) =>
      Forall (fun q => JS.startsWith (normalizedPath path) q = false) prefixes
  | _ => False
  end.
Proof.
  unfold IndexJs.extractPrefixAndRest. fold (normalizedPath path).
  pose proof (find_first (fun prefix => JS.startsWith (normalizedPath path) prefix)
                prefixes) as H.
  destruct (find _ prefixes) as [p|].
  - destruct H as (l1 & l2 & Hl & Hp & Hl1). exists l1, l2.
    split; [exact Hl|]. split; [exact Hl1|]. now apply prefix_slice.
  - exact H.
Qed.

End Routers.

(** ** The registry handler of the gateway script *)
Section RegistryHandler.

(** X6: the injector of the security headers sets its three headers,
    whatever the headers held for them; it leaves every other header as
    it was; and injecting twice is injecting once. *)
Theorem security_headers_injector (headers : gmap string string) (name : string) :
  hardened (addSecurityHeaders headers)
  /\ addSecurityHeaders (addSecurityHeaders headers) = addSecurityHeaders headers
  /\ (In (JS.toLowerCase name)
        ["x-content-type-options"; "x-frame-options"; "referrer-policy"]
      \/ Headers.get (addSecurityHeaders headers) name = Headers.get headers name).
Proof.
  split; [apply addSecurityHeaders_hardened|].
  split; [apply addSecurityHeaders_idempotent|].
  destruct (in_dec string_dec (JS.toLowerCase name)
              ["x-content-type-options"; "x-frame-options"; "referrer-policy"])
    as [Hin | Hout]; [now left | right].
  now apply addSecurityHeaders_other.
Qed.

Lemma blobRedirect_none (isDockerHub : bool) (up : Response.t) :
  isDockerHub = false \/ isRedirect (Response.status up) = false
  \/ JS.truthy_opt (Headers.get (Response.headers up) "Location") = false ->
  blobRedirect isDockerHub up = None.
Proof.
  unfold blobRedirect, isRedirect. intros [-> | [-> | H]].
  - reflexivity.
  - now rewrite andb_false_r.
  - destruct (isDockerHub && _); [|reflexivity].
    destruct (Headers.get (Response.headers up) "Location") as [l|]; [|reflexivity].
    simpl in H. now rewrite H.
Qed.

(** X7: the registry handler chases nothing but a redirect of Docker Hub
    that names a location. For a registry other than Docker Hub, for a
    status other than 401, 307 and 302, and for a redirect without a
    location, the one request is the forwarded one. When the status of
    the upstream lies in 200..599 the client gets the response of the
    upstream, its status, body and [Location] with it, under the
    security headers; for any other status the constructor of [Response]
    throws and the promise of the handler is rejected. *)
Theorem registry_response_relayed (request : Request.t)
  (baseUrl imagePath search : string) (net : Async.network) (up : Response.t) :
  net (Gateway.registryRequest request baseUrl imagePath search) = Some up ->
  Response.status up <> 401 ->
  String.eqb baseUrl Gateway.DOCKER_HUB_URL = false
  \/ isRedirect (Response.status up) = false
  \/ JS.truthy_opt (Headers.get (Response.headers up) "Location") = false ->
  if Build.validStatus (Response.status up)
  then exists r,
         Gateway.handleRegistryRequest request baseUrl imagePath search net
         = ([Gateway.registryRequest request baseUrl imagePath search],
            Async.Resolved r)
         /\ Response.status r = Response.status up
         /\ Response.body r = Response.body up
         /\ Headers.get (Response.headers r) "Location"
            = Headers.get (Response.headers up) "Location"
         /\ hardened (Response.headers r)
  else Gateway.handleRegistryRequest request baseUrl imagePath search net
       = ([Gateway.registryRequest request baseUrl imagePath search], Async.Rejected).
Proof.
  intros Hup Hst Hno. unfold Gateway.handleRegistryRequest. cbv zeta.
  rewrite run_fetch_bind, Hup. apply Nat.eqb_neq in Hst. rewrite Hst.
  rewrite (blobRedirect_none _ up Hno), run_attempt. unfold Build.stream.
  destruct (Build.validStatus (Response.status up)); [|reflexivity].
  eexists. split; [reflexivity|]. split; [reflexivity|]. split; [reflexivity|].
  split; [| apply addSecurityHeaders_hardened].
  apply addSecurityHeaders_other. vm_compute. intuition discriminate.
Qed.

Lemma registry_response_relayed_witness :
  (exists r,
     Gateway.handleRegistryRequest (client "/v2/register/github/org/img/blobs/sha256:0")
       "https://ghcr.io" "org/img/blobs/sha256:0" EmptyString hubWithBlob
     = ([Gateway.registryRequest (client "/v2/register/github/org/img/blobs/sha256:0")
           "https://ghcr.io" "org/img/blobs/sha256:0" EmptyString],
        Async.Resolved r)
     /\ Response.status r = 307
     /\ Response.body r = EmptyString
     /\ Headers.get (Response.headers r) "Location" = Some blobUrl
     /\ hardened (Response.headers r))
  /\ Gateway.handleRegistryRequest (client "/v2/register/github/org/img/manifests/v1")
       "https://ghcr.io" "org/img/manifests/v1" EmptyString (upstream 999 [])
     = ([Gateway.registryRequest (client "/v2/register/github/org/img/manifests/v1")
           "https://ghcr.io" "org/img/manifests/v1" EmptyString],
        Async.Rejected).
Proof.
  split.
  - apply (registry_response_relayed
             (client "/v2/register/github/org/img/blobs/sha256:0")
             "https://ghcr.io" "org/img/blobs/sha256:0" EmptyString hubWithBlob
             (Response.mk 307 EmptyString (Headers.of_list [("Location", blobUrl)])
                EmptyString)).
    + reflexivity.
    + simpl. lia.
    + left. reflexivity.
  - apply (registry_response_relayed
             (client "/v2/register/github/org/img/manifests/v1")
             "https://ghcr.io" "org/img/manifests/v1" EmptyString (upstream 999 [])
             (Response.mk 999 EmptyString (Headers.of_list []) "blob")).
    + reflexivity.
    + simpl. lia.
    + left. reflexivity.
Defined.

(** X8: a 401 of the upstream that brings no challenge is answered with
    the scope of the image the client asked for: [repository:NAME:pull],
    where NAME is what stands before [/manifests/] and [/blobs/] in the
    image path, under [library/] when it is one segment and no digest. *)
Theorem unauthorized_scope_inferred (request : Request.t)
  (baseUrl imagePath search : string) (net : Async.network) (up : Response.t) :
  net (Gateway.registryRequest request baseUrl imagePath search) = Some up ->
  Response.status up = 401 ->
  Headers.get (Response.headers up) "Www-Authenticate" = None ->
  JS.startsWith imagePath "/" = false ->
  Gateway.repoNameOf imagePath <> EmptyString ->
  exists r,
    Async.result (Gateway.handleRegistryRequest request baseUrl imagePath search net)
    = Async.Resolved r
    /\ Response.status r = 401
    /\ Headers.get (Response.headers r) "WWW-Authenticate"
       = Some ("Bearer realm="
               +:+ Build.quoted ("https://" +:+ URL.hostname (Request.url request)
                                 +:+ "/v2/token")
               +:+ ",service=" +:+ Build.quoted "registry.docker.io"
               +:+ ",scope="
               +:+ Build.quoted
                     ("repository:"
                      +:+ (if Gateway.singleSegment (Gateway.repoNameOf imagePath)
                           then "library/" +:+ Gateway.repoNameOf imagePath
                           else Gateway.repoNameOf imagePath)
                      +:+ ":pull")).
Proof.
  intros Hup Hst Hno Hslash Hrepo. unfold Gateway.handleRegistryRequest. cbv zeta.
  rewrite run_fetch_bind, Hup, Hst, Hno, Hslash. simpl Nat.eqb. cbv iota.
  eexists. split; [reflexivity|]. split; [reflexivity|].
  rewrite (proj2 (gateway_unauthorized _ _ _)). f_equal.
  unfold Gateway.newAuthHeader, Gateway.parseChallenge, Gateway.inferScope.
  cbv zeta beta iota.
  assert (Hp : JS.truthy imagePath = true).
  { destruct imagePath; [|reflexivity]. exfalso. now apply Hrepo. }
  simpl JS.truthy_opt. rewrite Hp. simpl negb. simpl orb. simpl andb. cbv iota.
  simpl JS.toString. simpl String.eqb. simpl andb.
  destruct (Gateway.singleSegment (Gateway.repoNameOf imagePath)) eqn:Hs.
  - reflexivity.
  - apply truthy_nonempty in Hrepo. rewrite Hrepo. reflexivity.
Qed.

Lemma unauthorized_scope_inferred_witness :
  exists r,
    Async.result
      (Gateway.handleRegistryRequest (client "/v2/busybox/manifests/latest")
         Gateway.DOCKER_HUB_URL "busybox/manifests/latest" EmptyString (upstream 401 []))
    = Async.Resolved r
    /\ Response.status r = 401
    /\ Headers.get (Response.headers r) "WWW-Authenticate"
       = Some ("Bearer realm=" +:+ Build.quoted "https://gw.example/v2/token"
               +:+ ",service=" +:+ Build.quoted "registry.docker.io"
               +:+ ",scope=" +:+ Build.quoted "repository:library/busybox:pull").
Proof.
  apply (unauthorized_scope_inferred (client "/v2/busybox/manifests/latest")
           Gateway.DOCKER_HUB_URL "busybox/manifests/latest" EmptyString
           (upstream 401 [])
           (Response.mk 401 EmptyString (Headers.of_list []) "blob")).
  - reflexivity.
  - reflexivity.
  - reflexivity.
  - reflexivity.
  - discriminate.
Defined.

End RegistryHandler.

(** ** The parts of the challenge of the upstream *)
Section ChallengeParts.

Lemma trimEnd_end (s : string) (c : ascii) :
  JS.is_space c = false ->
  JS.trimEnd (s +:+ String c EmptyString) = s +:+ String c EmptyString.
Proof.
  intros Hc. induction s as [|a s IH].
  - simpl. now rewrite Hc.
  - change (String a s +:+ String c EmptyString)
      with (String a (s +:+ String c EmptyString)).
    simpl JS.trimEnd. rewrite IH.
    destruct (s +:+ String c EmptyString) eqn:E; [|reflexivity].
    apply (f_equal String.length) in E. rewrite length_app in E. simpl in E. lia.
Qed.

(** A part of a challenge that begins with a letter and ends with the
    closing quote of its value is trimmed to itself. *)
Lemma trim_part (c : ascii) (s : string) :
  JS.is_space c = false ->
  JS.trim (String c s +:+ JS.dquote) = String c s +:+ JS.dquote.
Proof.
  intros Hc. unfold JS.trim.
  change (String c s +:+ JS.dquote) with (String c (s +:+ JS.dquote)) at 1.
  simpl JS.trimStart. rewrite Hc.
  change (String c (s +:+ JS.dquote)) with (String c s +:+ String (ascii_of_nat 34) EmptyString).
  now apply trimEnd_end.
Qed.

Lemma take_app (a b : string) : JS.take (String.length a) (a +:+ b) = a.
Proof. induction a as [|c a IH]; simpl; [now destruct b | now rewrite IH]. Qed.

(** The value between a key and the closing quote. *)
Lemma substring_value (pre v : string) :
  JS.substring (pre +:+ v +:+ JS.dquote) (String.length pre)
    (String.length (pre +:+ v +:+ JS.dquote) - 1) = v.
Proof.
  unfold JS.substring. rewrite !length_app.
  change (String.length JS.dquote) with 1.
  rewrite Nat.min_l, Nat.max_r by lia.
  rewrite slice_app.
  replace (String.length pre + (String.length v + 1) - 1 - String.length pre)
    with (String.length v) by lia.
  apply take_app.
Qed.

Lemma challengePart_bearer (service scope R : string) (others : list string) :
  Gateway.challengePart (service, scope, others) ("Bearer realm=" +:+ Build.quoted R)
  = (service, scope, others ++ ["Bearer realm=" +:+ Build.quoted R]).
Proof.
  unfold Gateway.challengePart, Build.quoted. cbv zeta.
  change ("Bearer realm=" +:+ JS.dquote +:+ R +:+ JS.dquote)
    with (String "B" ("earer realm=" +:+ JS.dquote +:+ R +:+ JS.dquote)).
  replace (String "B" ("earer realm=" +:+ JS.dquote +:+ R +:+ JS.dquote))
    with (String "B" ("earer realm=" +:+ JS.dquote +:+ R) +:+ JS.dquote)
    by (unfold JS.dquote; simpl; rewrite ?app_assoc_s; reflexivity).
  rewrite trim_part by reflexivity.
  reflexivity.
Qed.

Lemma challengePart_service_value (service scope S : string) (others : list string) :
  Gateway.challengePart (service, scope, others) ("service=" +:+ Build.quoted S)
  = (S, scope, others).
Proof.
  unfold Gateway.challengePart, Build.quoted. cbv zeta.
  replace ("service=" +:+ JS.dquote +:+ S +:+ JS.dquote)
    with (String "s" ("ervice=" +:+ JS.dquote +:+ S) +:+ JS.dquote)
    by (unfold JS.dquote; simpl; rewrite ?app_assoc_s; reflexivity).
  rewrite trim_part by reflexivity.
  change (JS.startsWith (String "s" ("ervice=" +:+ JS.dquote +:+ S) +:+ JS.dquote)
            ("realm=" +:+ JS.dquote)) with false.
  cbv iota.
  replace (String "s" ("ervice=" +:+ JS.dquote +:+ S) +:+ JS.dquote)
    with (("service=" +:+ JS.dquote) +:+ S +:+ JS.dquote)
    by (unfold JS.dquote; simpl; rewrite ?app_assoc_s; reflexivity).
  unfold JS.startsWith. rewrite prefix_app. cbv iota.
  now rewrite substring_value.
Qed.

Lemma challengePart_scope_value (service scope C : string) (others : list string) :
  Gateway.challengePart (service, scope, others) ("scope=" +:+ Build.quoted C)
  = (service, C, others).
Proof.
  unfold Gateway.challengePart, Build.quoted. cbv zeta.
  replace ("scope=" +:+ JS.dquote +:+ C +:+ JS.dquote)
    with (String "s" ("cope=" +:+ JS.dquote +:+ C) +:+ JS.dquote)
    by (unfold JS.dquote; simpl; rewrite ?app_assoc_s; reflexivity).
  rewrite trim_part by reflexivity.
  change (JS.startsWith (String "s" ("cope=" +:+ JS.dquote +:+ C) +:+ JS.dquote)
            ("realm=" +:+ JS.dquote)) with false.
  change (JS.startsWith (String "s" ("cope=" +:+ JS.dquote +:+ C) +:+ JS.dquote)
            ("service=" +:+ JS.dquote)) with false.
  cbv iota.
  replace (String "s" ("cope=" +:+ JS.dquote +:+ C) +:+ JS.dquote)
    with (("scope=" +:+ JS.dquote) +:+ C +:+ JS.dquote)
    by (unfold JS.dquote; simpl; rewrite ?app_assoc_s; reflexivity).
  unfold JS.startsWith. rewrite prefix_app. cbv iota.
  now rewrite substring_value.
Qed.

Lemma includes_app (a sub b : string) : JS.includes (a +:+ sub +:+ b) sub = true.
Proof.
  induction a as [|c a IH].
  - change (EmptyString +:+ sub +:+ b) with (sub +:+ b).
    destruct (sub +:+ b) eqn:E.
    + destruct sub; [reflexivity | discriminate].
    + rewrite includes_cons, <- E, prefix_app. reflexivity.
  - change (String c a +:+ sub +:+ b) with (String c (a +:+ sub +:+ b)).
    rewrite includes_cons, IH. apply orb_true_r.
Qed.

Lemma charFree_quoted (c : ascii) (v : string) :
  Ascii.eqb (ascii_of_nat 34) c = false ->
  charFree c (Build.quoted v) = charFree c v.
Proof.
  intros Hc. unfold Build.quoted. rewrite !charFree_app.
  change (charFree c JS.dquote) with (negb (Ascii.eqb (ascii_of_nat 34) c) && true).
  rewrite Hc. simpl. now rewrite andb_true_r.
Qed.

(** X9: a challenge of the upstream with a realm, a service and a scope
    other than the generic one, none of them holding a comma, is
    rewritten with the realm of the gateway, the service and the scope of
    the upstream, whatever image the client asked for; the first part of
    the upstream challenge, which begins with [Bearer] and not with
    [realm], follows as a further parameter. *)
Theorem challenge_parameters_relayed (hostname R S C : string)
  (requestedImagePath : option string) :
  charFree "," R = true -> charFree "," S = true -> charFree "," C = true ->
  C <> "repository:*:pull" ->
  Gateway.newAuthHeader hostname
    (Some ("Bearer realm=" +:+ Build.quoted R +:+ ",service=" +:+ Build.quoted S
           +:+ ",scope=" +:+ Build.quoted C))
    requestedImagePath
  = "Bearer realm=" +:+ Build.quoted ("https://" +:+ hostname +:+ "/v2/token")
    +:+ ",service=" +:+ Build.quoted S +:+ ",scope=" +:+ Build.quoted C
    +:+ ",Bearer realm=" +:+ Build.quoted R.
Proof.
  intros HR HS HC Hgen.
  assert (Hparse : Gateway.parseChallenge
                     (Some ("Bearer realm=" +:+ Build.quoted R +:+ ",service="
                            +:+ Build.quoted S +:+ ",scope=" +:+ Build.quoted C))
                   = (S, C, ["Bearer realm=" +:+ Build.quoted R])).
  { unfold Gateway.parseChallenge.
    change (JS.truthy _) with true. cbv iota.
    replace ("Bearer realm=" +:+ Build.quoted R +:+ ",service=" +:+ Build.quoted S
             +:+ ",scope=" +:+ Build.quoted C)
      with (("Bearer realm=" +:+ Build.quoted R)
            +:+ String "," (("service=" +:+ Build.quoted S)
                            +:+ String "," ("scope=" +:+ Build.quoted C)))
      by (rewrite !app_assoc_s; simpl; now rewrite !app_assoc_s).
    rewrite split_app_sep, split_app_sep, split_free.
    - cbn [fold_left].
      now rewrite challengePart_bearer, challengePart_service_value,
        challengePart_scope_value.
    - rewrite charFree_app, charFree_quoted, HC; reflexivity.
    - rewrite charFree_app, charFree_quoted, HS; reflexivity.
    - rewrite charFree_app, charFree_quoted, HR; reflexivity. }
  assert (Hinc : JS.includes
                   ("Bearer realm=" +:+ Build.quoted R +:+ ",service="
                    +:+ Build.quoted S +:+ ",scope=" +:+ Build.quoted C) "scope="
                 = true).
  { replace ("Bearer realm=" +:+ Build.quoted R +:+ ",service=" +:+ Build.quoted S
             +:+ ",scope=" +:+ Build.quoted C)
      with (("Bearer realm=" +:+ Build.quoted R +:+ ",service=" +:+ Build.quoted S
             +:+ ",") +:+ "scope=" +:+ Build.quoted C)
      by (rewrite !app_assoc_s; simpl; now rewrite !app_assoc_s).
    apply includes_app. }
  unfold Gateway.newAuthHeader. cbv zeta. rewrite Hparse.
  unfold Gateway.inferScope, JS.toString. rewrite Hinc.
  apply String.eqb_neq in Hgen. rewrite Hgen.
  change (JS.truthy_opt (Some _)) with true at 1.
  change (negb true) with false. change (false || false || false) with false.
  change (false && JS.truthy_opt requestedImagePath) with false. cbv iota.
  change (0 <? length ["Bearer realm=" +:+ Build.quoted R]) with true. cbv iota.
  change (JS.join "," ["Bearer realm=" +:+ Build.quoted R])
    with ("Bearer realm=" +:+ Build.quoted R).
  rewrite !app_assoc_s. simpl. now rewrite !app_assoc_s.
Qed.

Lemma challenge_parameters_relayed_witness :
  Gateway.newAuthHeader "gw.example"
    (Some ("Bearer realm=" +:+ Build.quoted "https://auth.docker.io/token"
           +:+ ",service=" +:+ Build.quoted "registry.docker.io"
           +:+ ",scope=" +:+ Build.quoted "repository:library/busybox:pull"))
    (Some "busybox/manifests/latest")
  = "Bearer realm=" +:+ Build.quoted ("https://" +:+ "gw.example" +:+ "/v2/token")
    +:+ ",service=" +:+ Build.quoted "registry.docker.io"
    +:+ ",scope=" +:+ Build.quoted "repository:library/busybox:pull"
    +:+ ",Bearer realm=" +:+ Build.quoted "https://auth.docker.io/token".
Proof.
  apply (challenge_parameters_relayed "gw.example" "https://auth.docker.io/token"
           "registry.docker.io" "repository:library/busybox:pull"
           (Some "busybox/manifests/latest"));
    [reflexivity | reflexivity | reflexivity | discriminate].
Defined.

End ChallengeParts.

(** ** The realm of the upstream in the rewritten challenge *)
Section UpstreamRealm.

Lemma challengePart_realm_value (st : string * string * list string) (R : string) :
  Gateway.challengePart st ("realm=" +:+ Build.quoted R) = st.
Proof.
  destruct st as [[service scope] others].
  unfold Gateway.challengePart, Build.quoted. cbv zeta.
  replace ("realm=" +:+ JS.dquote +:+ R +:+ JS.dquote)
    with (String "r" ("ealm=" +:+ JS.dquote +:+ R) +:+ JS.dquote)
    by (unfold JS.dquote; simpl; rewrite ?app_assoc_s; reflexivity).
  rewrite trim_part by reflexivity.
  replace (String "r" ("ealm=" +:+ JS.dquote +:+ R) +:+ JS.dquote)
    with (("realm=" +:+ JS.dquote) +:+ R +:+ JS.dquote)
    by (unfold JS.dquote; simpl; rewrite ?app_assoc_s; reflexivity).
  unfold JS.startsWith. now rewrite prefix_app.
Qed.

Lemma challengePart_bearer_service (service scope S : string) (others : list string) :
  Gateway.challengePart (service, scope, others) ("Bearer service=" +:+ Build.quoted S)
  = (service, scope, others ++ ["Bearer service=" +:+ Build.quoted S]).
Proof.
  unfold Gateway.challengePart, Build.quoted. cbv zeta.
  change ("Bearer service=" +:+ JS.dquote +:+ S +:+ JS.dquote)
    with (String "B" ("earer service=" +:+ JS.dquote +:+ S +:+ JS.dquote)).
  replace (String "B" ("earer service=" +:+ JS.dquote +:+ S +:+ JS.dquote))
    with (String "B" ("earer service=" +:+ JS.dquote +:+ S) +:+ JS.dquote)
    by (unfold JS.dquote; simpl; rewrite ?app_assoc_s; reflexivity).
  rewrite trim_part by reflexivity.
  reflexivity.
Qed.

(** The loop over a challenge whose first parameter is the realm: the
    part with the realm begins with the scheme, and is kept. *)
Lemma parseChallenge_realm_first (R S : string) :
  charFree "," R = true -> charFree "," S = true ->
  Gateway.parseChallenge
    (Some ("Bearer realm=" +:+ Build.quoted R +:+ ",service=" +:+ Build.quoted S))
  = (S, "repository:*:pull", ["Bearer realm=" +:+ Build.quoted R]).
Proof.
  intros HR HS. unfold Gateway.parseChallenge.
  change (JS.truthy _) with true. cbv iota.
  replace ("Bearer realm=" +:+ Build.quoted R +:+ ",service=" +:+ Build.quoted S)
    with (("Bearer realm=" +:+ Build.quoted R)
          +:+ String "," ("service=" +:+ Build.quoted S))
    by (rewrite !app_assoc_s; simpl; now rewrite ?app_assoc_s).
  rewrite split_app_sep, split_free.
  - cbn [fold_left].
    now rewrite challengePart_bearer, challengePart_service_value.
  - rewrite charFree_app, charFree_quoted, HS; reflexivity.
  - rewrite charFree_app, charFree_quoted, HR; reflexivity.
Qed.

(** The loop over a challenge whose realm is not its first parameter:
    the realm is dropped, and the part with the service begins with the
    scheme. *)
Lemma parseChallenge_realm_second (R S : string) :
  charFree "," R = true -> charFree "," S = true ->
  Gateway.parseChallenge
    (Some ("Bearer service=" +:+ Build.quoted S +:+ ",realm=" +:+ Build.quoted R))
  = ("registry.docker.io", "repository:*:pull", ["Bearer service=" +:+ Build.quoted S]).
Proof.
  intros HR HS. unfold Gateway.parseChallenge.
  change (JS.truthy _) with true. cbv iota.
  replace ("Bearer service=" +:+ Build.quoted S +:+ ",realm=" +:+ Build.quoted R)
    with (("Bearer service=" +:+ Build.quoted S)
          +:+ String "," ("realm=" +:+ Build.quoted R))
    by (rewrite !app_assoc_s; simpl; now rewrite ?app_assoc_s).
  rewrite split_app_sep, split_free.
  - cbn [fold_left].
    now rewrite challengePart_bearer_service, challengePart_realm_value.
  - rewrite charFree_app, charFree_quoted, HR; reflexivity.
  - rewrite charFree_app, charFree_quoted, HS; reflexivity.
Qed.

(** C4, where the gateway script leaves the claim. The challenge of a
    401 on the ping is split at its commas, and a part is dropped as the
    realm of the upstream when it begins with the realm parameter; the
    first part of a challenge begins with the scheme. So for a challenge
    of the upstream that names its realm first, as the one of Docker Hub
    does, the 401 of the gateway names two realms: the token endpoint of
    the gateway, and after the scope the realm of the upstream, on the
    host of the upstream. The realm of the upstream is dropped when it
    is not the first parameter. *)
Theorem ping_challenge_keeps_upstream_realm (request : Request.t)
  (net : Async.network) (up : Response.t) (R S : string) :
  URL.pathname (Request.url request) = "/v2/" ->
  net (Gateway.pingRequest request) = Some up ->
  Response.status up = 401 ->
  charFree "," R = true -> charFree "," S = true ->
  (Headers.get (Response.headers up) "Www-Authenticate"
   = Some ("Bearer realm=" +:+ Build.quoted R +:+ ",service=" +:+ Build.quoted S) ->
   exists r challenge,
     Gateway.handleRequest request net
     = ([Gateway.pingRequest request], Async.Resolved r)
     /\ Response.status r = 401
     /\ Headers.get (Response.headers r) "WWW-Authenticate" = Some challenge
     /\ challenge
        = "Bearer realm="
          +:+ Build.quoted ("https://" +:+ URL.hostname (Request.url request)
                            +:+ "/v2/token")
          +:+ ",service=" +:+ Build.quoted S
          +:+ ",scope=" +:+ Build.quoted "repository:*:pull"
          +:+ ",Bearer realm=" +:+ Build.quoted R
     /\ JS.includes challenge ("realm=" +:+ Build.quoted R) = true)
  /\ (Headers.get (Response.headers up) "Www-Authenticate"
      = Some ("Bearer service=" +:+ Build.quoted S +:+ ",realm=" +:+ Build.quoted R) ->
      exists r,
        Gateway.handleRequest request net
        = ([Gateway.pingRequest request], Async.Resolved r)
        /\ Response.status r = 401
        /\ Headers.get (Response.headers r) "WWW-Authenticate"
           = Some ("Bearer realm="
                   +:+ Build.quoted ("https://" +:+ URL.hostname (Request.url request)
                                     +:+ "/v2/token")
                   +:+ ",service=" +:+ Build.quoted "registry.docker.io"
                   +:+ ",scope=" +:+ Build.quoted "repository:*:pull"
                   +:+ ",Bearer service=" +:+ Build.quoted S)).
Proof.
  intros Hp Hup Hst HR HS.
  rewrite (gateway_ping_run request net up Hp Hup Hst). split.
  - intros Hh. rewrite Hh. eexists. eexists. split; [reflexivity|].
    split; [reflexivity|].
    split; [apply (proj2 (gateway_unauthorized _ _ _))|].
    assert (Hheader :
              Gateway.newAuthHeader (URL.hostname (Request.url request))
                (Some ("Bearer realm=" +:+ Build.quoted R +:+ ",service="
                       +:+ Build.quoted S)) None
              = "Bearer realm="
                +:+ Build.quoted ("https://" +:+ URL.hostname (Request.url request)
                                  +:+ "/v2/token")
                +:+ ",service=" +:+ Build.quoted S
                +:+ ",scope=" +:+ Build.quoted "repository:*:pull"
                +:+ ",Bearer realm=" +:+ Build.quoted R).
    { unfold Gateway.newAuthHeader. cbv zeta.
      rewrite (parseChallenge_realm_first R S HR HS).
      unfold Gateway.inferScope.
      change (JS.truthy_opt None) with false. rewrite andb_false_r. cbv iota.
      change (0 <? length ["Bearer realm=" +:+ Build.quoted R]) with true. cbv iota.
      change (JS.join "," ["Bearer realm=" +:+ Build.quoted R])
        with ("Bearer realm=" +:+ Build.quoted R).
      rewrite !app_assoc_s. simpl. now rewrite ?app_assoc_s. }
    split; [exact Hheader|]. rewrite Hheader.
    replace ("Bearer realm="
             +:+ Build.quoted ("https://" +:+ URL.hostname (Request.url request)
                               +:+ "/v2/token")
             +:+ ",service=" +:+ Build.quoted S
             +:+ ",scope=" +:+ Build.quoted "repository:*:pull"
             +:+ ",Bearer realm=" +:+ Build.quoted R)
      with (("Bearer realm="
             +:+ Build.quoted ("https://" +:+ URL.hostname (Request.url request)
                               +:+ "/v2/token")
             +:+ ",service=" +:+ Build.quoted S
             +:+ ",scope=" +:+ Build.quoted "repository:*:pull" +:+ ",Bearer ")
            +:+ ("realm=" +:+ Build.quoted R) +:+ EmptyString)
      by (rewrite !app_assoc_s; simpl; rewrite ?app_assoc_s, ?app_nil_r_s;
          reflexivity).
    apply includes_app.
  - intros Hh. rewrite Hh. eexists. split; [reflexivity|].
    split; [reflexivity|].
    rewrite (proj2 (gateway_unauthorized _ _ _)). f_equal.
    unfold Gateway.newAuthHeader. cbv zeta.
    rewrite (parseChallenge_realm_second R S HR HS).
    unfold Gateway.inferScope.
    change (JS.truthy_opt None) with false. rewrite andb_false_r. cbv iota.
    change (0 <? length ["Bearer service=" +:+ Build.quoted S]) with true. cbv iota.
    change (JS.join "," ["Bearer service=" +:+ Build.quoted S])
      with ("Bearer service=" +:+ Build.quoted S).
    rewrite !app_assoc_s. simpl. now rewrite ?app_assoc_s.
Qed.

Lemma ping_challenge_keeps_upstream_realm_witness :
  exists r challenge,
    Gateway.handleRequest (client "/v2/")
      (upstream 401 [("Www-Authenticate", hubChallenge)])
    = ([Gateway.pingRequest (client "/v2/")], Async.Resolved r)
    /\ Response.status r = 401
    /\ Headers.get (Response.headers r) "WWW-Authenticate" = Some challenge
    /\ challenge
       = "Bearer realm=" +:+ Build.quoted ("https://" +:+ "gw.example" +:+ "/v2/token")
         +:+ ",service=" +:+ Build.quoted "registry.docker.io"
         +:+ ",scope=" +:+ Build.quoted "repository:*:pull"
         +:+ ",Bearer realm=" +:+ Build.quoted "https://auth.docker.io/token"
    /\ JS.includes challenge ("realm=" +:+ Build.quoted "https://auth.docker.io/token")
       = true.
Proof.
  apply (proj1 (ping_challenge_keeps_upstream_realm (client "/v2/")
                  (upstream 401 [("Www-Authenticate", hubChallenge)])
                  (Response.mk 401 EmptyString
                     (Headers.of_list [("Www-Authenticate", hubChallenge)]) "blob")
                  "https://auth.docker.io/token" "registry.docker.io"
                  eq_refl eq_refl eq_refl eq_refl eq_refl)).
  reflexivity.
Defined.

(** The realms a client reads in the 401 of a ping that Docker Hub
    answered with its challenge: two in the gateway script, the second
    on the host of Docker Hub; the one of the gateway in the script with
    one table. *)
Example hub_ping_realms :
  (exists r challenge,
     Async.result
       (Gateway.handleRequest (client "/v2/")
          (upstream 401 [("Www-Authenticate", hubChallenge)]))
     = Async.Resolved r
     /\ Headers.get (Response.headers r) "WWW-Authenticate" = Some challenge
     /\ realmParameters challenge
        = ["https://gw.example/v2/token"; "https://auth.docker.io/token"]
     /\ map urlHostname (realmParameters challenge)
        = [Some "gw.example"; Some "auth.docker.io"])
  /\ (exists r challenge,
        Async.result
          (TableVariant.handleRegistryRequest (client "/v2/") "/v2/" EmptyString
             (upstream 401 [("Www-Authenticate", hubChallenge)]))
        = Async.Resolved r
        /\ Headers.get (Response.headers r) "WWW-Authenticate" = Some challenge
        /\ realmParameters challenge = ["https://gw.example/v2/token"]).
Proof.
  split.
  - eexists. eexists. split; [vm_compute; reflexivity|].
    split; [vm_compute; reflexivity|]. split; vm_compute; reflexivity.
  - eexists. eexists. split; [vm_compute; reflexivity|].
    split; vm_compute; reflexivity.
Qed.

End UpstreamRealm.

(** ** The routes of the gateway script, end to end *)
Section GatewayRoutes.

Lemma lookupConfig_In (table : list (string * ApiConfig)) (key : string)
  (config : ApiConfig) :
  lookupConfig table key = Some config -> In (key, config) table.
Proof.
  induction table as [|[k c] t IH]; simpl; [discriminate|].
  destruct (String.eqb k key) eqn:E.
  - apply String.eqb_eq in E. intros H. injection H as ->. subst. now left.
  - intros H. right. now apply IH.
Qed.

(** The entries of the two tables of the gateway script are found under
    their keys: no key stands twice. *)
Lemma gateway_tables_lookup (table : list (string * ApiConfig)) (P : string)
  (config : ApiConfig) :
  In table [Gateway.registryConfigs; Gateway.aiConfigs] ->
  In (P, config) table -> lookupConfig table P = Some config.
Proof.
  intros [<- | [<- | []]] Hin; vm_compute in Hin;
    repeat (destruct Hin as [Hin | Hin];
            [injection Hin as <- <-; reflexivity|]); destruct Hin.
Qed.

Lemma gateway_tables_route (table : list (string * ApiConfig)) (P x : string)
  (config : ApiConfig) :
  In table [Gateway.registryConfigs; Gateway.aiConfigs] ->
  In (P, config) table ->
  Gateway.extractPrefixAndRest (P +:+ "/" +:+ x) (keys table) = (Some P, "/" +:+ x)
  /\ lookupConfig table P = Some config.
Proof.
  intros Ht Hin. split; [| now apply gateway_tables_lookup].
  assert (Hflat : flatTable (keys table) = true).
  { destruct Ht as [<- | [<- | []]]; vm_compute; reflexivity. }
  assert (Hk : In P (keys table)).
  { unfold keys. apply in_map_iff. now exists (P, config). }
  destruct (flatTable_spec _ _ Hflat Hk) as [HP Hun].
  now apply gateway_router_slash.
Qed.

Lemma ai_prefix_shape (P : string) (config : ApiConfig) :
  In (P, config) Gateway.aiConfigs -> exists k, P = "/ai/" +:+ k.
Proof.
  unfold Gateway.aiConfigs, withPrefix. intros H.
  apply in_map_iff in H as [[k c] [H _]]. injection H as <- _. now exists k.
Qed.

Lemma registry_prefix_shape (P : string) (config : ApiConfig) :
  In (P, config) Gateway.registryConfigs -> exists k, P = "register/" +:+ k.
Proof.
  unfold Gateway.registryConfigs, withPrefix. intros H.
  apply in_map_iff in H as [[k c] [H _]]. injection H as <- _. now exists k.
Qed.

Lemma gateway_generic_dispatch (request : Request.t) (s : string) :
  URL.pathname (Request.url request) = "/ai/" +:+ s ->
  Gateway.handleRequest request
  = let '(aiPrefix, restPath) :=
      Gateway.extractPrefixAndRest ("/ai/" +:+ s) (keys Gateway.aiConfigs) in
    match aiPrefix with
    | Some p =>
        match lookupConfig Gateway.aiConfigs p with
        | Some config =>
            Gateway.handleGenericApiRequest request (baseUrl config) restPath
              (URL.search (Request.url request)) (allowedHeaders config)
        | None => mret Gateway.internalServerError
        end
    | None => mret Gateway.notFound
    end.
Proof.
  intros H. unfold Gateway.handleRequest, Gateway.handleApiRequest. cbv zeta.
  rewrite H. reflexivity.
Qed.

Lemma gateway_generic_run (request : Request.t) (base restPath search : string)
  (allowed : option (list string)) (net : Async.network) :
  Gateway.handleGenericApiRequest request base restPath search allowed net
  = ([Gateway.genericRequest request base restPath search allowed],
     match net (Gateway.genericRequest request base restPath search allowed) with
     | Some up => relayed up
     | None => Async.Rejected
     end).
Proof. unfold Gateway.handleGenericApiRequest. apply run_relay. Qed.

(** X10: a request for [P/x], [P] a prefix of the generic table, is
    answered by one request to the base URL of [P] with the path [/x] and
    the query string of the client, its method and body, and the headers
    the filter lets through. The client gets the response of the
    upstream under the security headers when its status lies in
    200..599; the promise is rejected when the network fails, and for
    any other status, for which the constructor of [Response] throws. *)
Theorem ai_route_forwarded (request : Request.t) (P x : string) (config : ApiConfig)
  (net : Async.network) :
  In (P, config) Gateway.aiConfigs ->
  URL.pathname (Request.url request) = P +:+ "/" +:+ x ->
  let forwarded :=
    Fetch.mk (baseUrl config +:+ "/" +:+ x +:+ URL.search (Request.url request))
      (Request.method request)
      (Gateway.filterHeaders (Request.headers request)
         (Gateway.DEFAULT_HEADERS ++ default [] (allowedHeaders config)))
      (Request.body request) Fetch.follow in
  Gateway.handleRequest request net
  = ([forwarded],
     match net forwarded with
     | Some up =>
         if Build.validStatus (Response.status up)
         then Async.Resolved
                (Response.mk (Response.status up) (Response.statusText up)
                   (addSecurityHeaders (Response.headers up)) (Response.body up))
         else Async.Rejected
     | None => Async.Rejected
     end).
Proof.
  intros Hin Hpath forwarded.
  destruct (gateway_tables_route Gateway.aiConfigs P x config) as [Hr Hl];
    [right; now left | exact Hin |].
  destruct (ai_prefix_shape P config Hin) as [k ->].
  rewrite (gateway_generic_dispatch request (k +:+ "/" +:+ x)) by exact Hpath.
  change ("/ai/" +:+ k +:+ "/" +:+ x) with (("/ai/" +:+ k) +:+ "/" +:+ x).
  rewrite Hr, Hl, gateway_generic_run.
  assert (Hf : Gateway.genericRequest request (baseUrl config) ("/" +:+ x)
                 (URL.search (Request.url request)) (allowedHeaders config)
               = forwarded).
  { unfold Gateway.genericRequest, forwarded, JS.startsWith. cbv zeta.
    change ("/" +:+ x) with (String "/" x) at 1.
    rewrite prefix_cons, prefix_empty_l. reflexivity. }
  now rewrite Hf.
Qed.

Lemma ai_route_forwarded_witness :
  Gateway.handleRequest claudeClient (upstream 200 [])
  = ([Fetch.mk ("https://api.anthropic.com" +:+ "/" +:+ "v1/messages" +:+ EmptyString)
        "POST"
        (Gateway.filterHeaders (Request.headers claudeClient)
           (Gateway.DEFAULT_HEADERS ++ ["anthropic-version"]))
        (Some "{}") Fetch.follow],
     Async.Resolved
       (Response.mk 200 EmptyString (addSecurityHeaders (Headers.of_list [])) "blob"))
  /\ Gateway.handleRequest claudeClient (upstream 999 [])
     = ([Fetch.mk ("https://api.anthropic.com" +:+ "/" +:+ "v1/messages"
                   +:+ EmptyString)
           "POST"
           (Gateway.filterHeaders (Request.headers claudeClient)
              (Gateway.DEFAULT_HEADERS ++ ["anthropic-version"]))
           (Some "{}") Fetch.follow],
        Async.Rejected).
Proof.
  split.
  - apply (ai_route_forwarded claudeClient "/ai/claude" "v1/messages"
             (mkConfig "https://api.anthropic.com" (Some ["anthropic-version"]))
             (upstream 200 [])).
    + do 3 right. left. reflexivity.
    + reflexivity.
  - apply (ai_route_forwarded claudeClient "/ai/claude" "v1/messages"
             (mkConfig "https://api.anthropic.com" (Some ["anthropic-version"]))
             (upstream 999 [])).
    + do 3 right. left. reflexivity.
    + reflexivity.
Defined.

Lemma gateway_v2_dispatch (request : Request.t) (c : ascii) (s : string) :
  URL.pathname (Request.url request) = "/v2/" +:+ String c s ->
  String.eqb (String c s) "token" = false ->
  String.eqb (String c s) "/" = false ->
  Gateway.handleRequest request
  = match Gateway.resolveRegistry (String c s) with
    | Some (targetBaseUrl, cleanedFinalImagePath) =>
        Gateway.handleRegistryRequest request targetBaseUrl cleanedFinalImagePath
          (URL.search (Request.url request))
    | None => mret Gateway.internalServerError
    end.
Proof.
  intros H Ht Hs. unfold Gateway.handleRequest, Gateway.handleApiRequest. cbv zeta.
  rewrite H.
  change (String.eqb ("/v2/" +:+ String c s) "/v2/token")
    with (String.eqb (String c s) "token").
  rewrite Ht.
  change (JS.slice ("/v2/" +:+ String c s) 4) with (String c s).
  change (String.eqb ("/v2/" +:+ String c s) "/" || String.eqb ("/v2/" +:+ String c s) "/index.html") with false.
  change (String.eqb ("/v2/" +:+ String c s) "/robots.txt") with false.
  change (JS.startsWith ("/v2/" +:+ String c s) "/v2/")
    with (String.prefix "" (String c s)).
  rewrite Hs. reflexivity.
Qed.

Lemma officialImagePath_slash (x : string) :
  Gateway.officialImagePath (String "/" x) = String "/" x.
Proof.
  apply officialImagePath_qualified. unfold Gateway.repoNameOf, Gateway.singleSegment.
  rewrite splitHead_cons.
  destruct (String.prefix "/manifests/" (String "/" x)); [reflexivity|].
  rewrite splitHead_cons.
  destruct (String.prefix "/blobs/" (String "/" _)); [reflexivity|].
  rewrite includes_cons, prefix_cons, prefix_empty_l. reflexivity.
Qed.

(** X11: a request for [/v2/P/x], [P] a prefix of the registry table and
    [x] without a leading slash, is forwarded to [/v2/x] of the base URL
    of [P], with the query string, the method, the headers and the body
    of the client and without following redirects. The image path is
    forwarded as it is, on the route of the Docker Hub prefix too. *)
Theorem registry_route_forwarded (request : Request.t) (P x : string)
  (config : ApiConfig) (net : Async.network) :
  In (P, config) Gateway.registryConfigs ->
  URL.pathname (Request.url request) = "/v2/" +:+ P +:+ "/" +:+ x ->
  JS.startsWith x "/" = false ->
  head (Async.trace (Gateway.handleRequest request net))
  = Some (Fetch.mk (baseUrl config +:+ "/v2/" +:+ x +:+ URL.search (Request.url request))
            (Request.method request) (Request.headers request) (Request.body request)
            Fetch.manual).
Proof.
  intros Hin Hpath Hx.
  destruct (gateway_tables_route Gateway.registryConfigs P x config) as [Hr Hl];
    [now left | exact Hin |].
  destruct (registry_prefix_shape P config Hin) as [k ->].
  rewrite (gateway_v2_dispatch request "r" ("egister/" +:+ k +:+ "/" +:+ x));
    [| exact Hpath | reflexivity | reflexivity].
  change (String "r" ("egister/" +:+ k +:+ "/" +:+ x))
    with (("register/" +:+ k) +:+ "/" +:+ x).
  unfold Gateway.resolveRegistry. rewrite Hr, Hl.
  assert (Hpath' : (if String.eqb (baseUrl config) Gateway.DOCKER_HUB_URL
                    then Gateway.officialImagePath ("/" +:+ x) else "/" +:+ x)
                   = String "/" x).
  { destruct (String.eqb (baseUrl config) Gateway.DOCKER_HUB_URL); [|reflexivity].
    apply officialImagePath_slash. }
  cbv zeta. rewrite Hpath'. unfold JS.startsWith at 1.
  rewrite prefix_cons, prefix_empty_l. simpl andb. cbv iota.
  change (JS.slice (String "/" x) 1) with x.
  rewrite gateway_registry_first. unfold Gateway.registryRequest. cbv zeta.
  now rewrite Hx.
Qed.

Lemma registry_route_forwarded_witness :
  head (Async.trace
          (Gateway.handleRequest (client "/v2/register/quay/org/img/manifests/v1")
             (upstream 200 [])))
  = Some (Fetch.mk ("https://quay.io" +:+ "/v2/" +:+ "org/img/manifests/v1"
                    +:+ EmptyString) "GET" ∅ None Fetch.manual).
Proof.
  apply (registry_route_forwarded (client "/v2/register/quay/org/img/manifests/v1")
           "register/quay" "org/img/manifests/v1" (mkConfig "https://quay.io" None)
           (upstream 200 [])).
  - do 7 right. left. reflexivity.
  - reflexivity.
  - reflexivity.
Defined.

Lemma better_fold_all_false (test : string -> bool) (l : list string) :
  (forall q, In q l -> test q = false) -> fold_left (better test) l None = None.
Proof.
  induction l as [|q l IH]; intros H; [reflexivity|]. simpl.
  change (better test None q) with (if test q then Some q else None).
  rewrite (H q (or_introl eq_refl)). apply IH. intros q' Hq'. apply H. now right.
Qed.

(** Two paths that agree up to their first slashes agree on their first
    segments. *)
Lemma prefix_segment (a b t r : string) :
  charFree "/" a = true -> charFree "/" b = true ->
  String.prefix (b +:+ String "/" t) (a +:+ String "/" r) = true -> a = b.
Proof.
  revert a; induction b as [|d b IH]; intros a Ha Hb H.
  - destruct a as [|c a]; [reflexivity|]. exfalso.
    change (String c a +:+ String "/" r) with (String c (a +:+ String "/" r)) in H.
    change (EmptyString +:+ String "/" t) with (String "/" t) in H.
    rewrite prefix_cons in H. apply andb_true_iff in H as [Hc _].
    apply Ascii.eqb_eq in Hc. subst c. discriminate.
  - change (String d b +:+ String "/" t) with (String d (b +:+ String "/" t)) in H.
    simpl charFree in Hb. apply andb_true_iff in Hb as [Hd Hb].
    destruct a as [|c a].
    + exfalso. change (EmptyString +:+ String "/" r) with (String "/" r) in H.
      rewrite prefix_cons in H. apply andb_true_iff in H as [Hc _].
      apply Ascii.eqb_eq in Hc. subst d. discriminate.
    + change (String c a +:+ String "/" r) with (String c (a +:+ String "/" r)) in H.
      rewrite prefix_cons in H. apply andb_true_iff in H as [Hc H].
      apply Ascii.eqb_eq in Hc. subst d.
      simpl charFree in Ha. apply andb_true_iff in Ha as [_ Ha].
      f_equal. now apply IH.
Qed.

Lemma splitHead_free (sep : string) (s : string) :
  charFree "/" s = true -> JS.splitHead (String "/" sep) s = s.
Proof.
  induction s as [|c s IH]; intros H; [reflexivity|].
  simpl charFree in H. apply andb_true_iff in H as [Hc Hs].
  apply negb_true_iff in Hc.
  rewrite splitHead_cons, prefix_cons, (Ascii.eqb_sym "/" c), Hc. simpl andb. cbv iota.
  now rewrite IH.
Qed.

Lemma splitHead_at (sep name r : string) :
  charFree "/" name = true ->
  JS.splitHead (String "/" sep) (name +:+ String "/" sep +:+ r) = name.
Proof.
  induction name as [|c name IH]; intros H.
  - change (EmptyString +:+ String "/" sep +:+ r) with (String "/" (sep +:+ r)).
    rewrite splitHead_cons.
    change (String "/" (sep +:+ r)) with (String "/" sep +:+ r).
    now rewrite prefix_app.
  - simpl charFree in H. apply andb_true_iff in H as [Hc Hs].
    apply negb_true_iff in Hc.
    change (String c name +:+ String "/" sep +:+ r)
      with (String c (name +:+ String "/" sep +:+ r)).
    rewrite splitHead_cons, prefix_cons, (Ascii.eqb_sym "/" c), Hc. simpl andb. cbv iota.
    now rewrite IH.
Qed.

Lemma oneSegment_single (name : string) :
  oneSegment name = true -> Gateway.singleSegment name = true.
Proof.
  unfold oneSegment, Gateway.singleSegment. now rewrite !charFree_includes.
Qed.

Lemma registry_keys_shape (q : string) :
  In q (keys Gateway.registryConfigs) -> exists k, q = "register" +:+ String "/" k.
Proof.
  unfold keys, Gateway.registryConfigs, withPrefix. rewrite map_map. intros H.
  apply in_map_iff in H as [[k c] [H _]]. simpl in H. subst q. now exists k.
Qed.

(** A path under [/v2/] whose first segment is not [register] matches no
    registry prefix. *)
Lemma registry_router_default (name tail : string) :
  charFree "/" name = true -> name <> "register" ->
  Gateway.extractPrefixAndRest (name +:+ String "/" tail) (keys Gateway.registryConfigs)
  = (None, name +:+ String "/" tail).
Proof.
  intros Hfree Hne. rewrite extract_unfold, better_fold_all_false; [reflexivity|].
  intros q Hq. destruct (registry_keys_shape q Hq) as [k ->].
  destruct (segmentMatch _ _) eqn:Hm; [|reflexivity]. exfalso.
  apply segmentMatch_prefix in Hm. apply Hne.
  now apply (prefix_segment name "register" k tail).
Qed.

Lemma registry_router_manifests (ref : string) :
  Gateway.extractPrefixAndRest ("register/manifests/" +:+ ref)
    (keys Gateway.registryConfigs)
  = (None, "register/manifests/" +:+ ref).
Proof. reflexivity. Qed.

(** X12: a request for the manifest of an image whose name is one
    segment, [/v2/NAME/manifests/REF], is forwarded to Docker Hub as
    [/v2/library/NAME/manifests/REF], with the query string, the method,
    the headers and the body of the client. *)
Theorem official_image_route (request : Request.t) (name ref : string)
  (net : Async.network) :
  oneSegment name = true ->
  URL.pathname (Request.url request) = "/v2/" +:+ name +:+ "/manifests/" +:+ ref ->
  head (Async.trace (Gateway.handleRequest request net))
  = Some (Fetch.mk (Gateway.DOCKER_HUB_URL +:+ "/v2/library/" +:+ name
                    +:+ "/manifests/" +:+ ref +:+ URL.search (Request.url request))
            (Request.method request) (Request.headers request) (Request.body request)
            Fetch.manual).
Proof.
  intros Hone Hpath. pose proof (oneSegment_single name Hone) as Hsingle.
  unfold oneSegment in Hone.
  apply andb_true_iff in Hone as [Hone _]. apply andb_true_iff in Hone as [Hne Hfree].
  assert (Hrouter : Gateway.extractPrefixAndRest (name +:+ "/manifests/" +:+ ref)
                      (keys Gateway.registryConfigs)
                    = (None, name +:+ "/manifests/" +:+ ref)).
  { destruct (string_dec name "register") as [-> | Hreg].
    - apply registry_router_manifests.
    - now apply (registry_router_default name ("manifests/" +:+ ref)). }
  assert (Hrepo : Gateway.repoNameOf (name +:+ "/manifests/" +:+ ref) = name).
  { unfold Gateway.repoNameOf.
    rewrite (splitHead_at "manifests/" name ref Hfree).
    now apply splitHead_free. }
  destruct name as [|c name]; [discriminate|].
  rewrite (gateway_v2_dispatch request c (name +:+ "/manifests/" +:+ ref) Hpath).
  - change (String c (name +:+ "/manifests/" +:+ ref))
      with (String c name +:+ "/manifests/" +:+ ref).
    unfold Gateway.resolveRegistry. rewrite Hrouter.
    change (String.eqb Gateway.DOCKER_HUB_URL Gateway.DOCKER_HUB_URL) with true.
    cbv iota zeta. rewrite officialImagePath_single by now rewrite Hrepo.
    change (JS.startsWith ("library/" +:+ String c name +:+ "/manifests/" +:+ ref) "/")
      with false.
    cbv iota. rewrite gateway_registry_first. unfold Gateway.registryRequest.
    change (JS.startsWith ("library/" +:+ String c name +:+ "/manifests/" +:+ ref) "/")
      with false.
    cbv iota zeta. do 2 f_equal. f_equal.
    change ("/v2/library/" +:+ String c name +:+ "/manifests/" +:+ ref
            +:+ URL.search (Request.url request))
      with ("/v2/library/" +:+ String c (name +:+ "/manifests/" +:+ ref
            +:+ URL.search (Request.url request))).
    change ("/v2/" +:+ ("library/" +:+ String c name +:+ "/manifests/" +:+ ref)
            +:+ URL.search (Request.url request))
      with ("/v2/library/" +:+ String c ((name +:+ ("/manifests/" +:+ ref))
            +:+ URL.search (Request.url request))).
    now rewrite <- !app_assoc_s.
  - apply String.eqb_neq. intros E. apply (f_equal String.length) in E.
    simpl in E. rewrite length_app in E. simpl in E. lia.
  - apply String.eqb_neq. intros E. apply (f_equal String.length) in E.
    simpl in E. rewrite length_app in E. simpl in E. lia.
Qed.

Lemma official_image_route_witness :
  head (Async.trace
          (Gateway.handleRequest (client "/v2/busybox/manifests/latest")
             (upstream 200 [])))
  = Some (Fetch.mk (Gateway.DOCKER_HUB_URL +:+ "/v2/library/" +:+ "busybox"
                    +:+ "/manifests/" +:+ "latest" +:+ EmptyString)
            "GET" ∅ None Fetch.manual).
Proof.
  apply (official_image_route (client "/v2/busybox/manifests/latest") "busybox"
           "latest" (upstream 200 [])); reflexivity.
Defined.

(** X13: the ping [/v2/] never rejects: it sends one request to Docker
    Hub; when the network fails the client gets the 500 of the gateway,
    and a response of the upstream other than a 401 is handed to the
    client as it is. *)
Theorem ping_never_rejects (request : Request.t) (net : Async.network) :
  URL.pathname (Request.url request) = "/v2/" ->
  exists r,
    Gateway.handleRequest request net
    = ([Gateway.pingRequest request], Async.Resolved r)
    /\ (net (Gateway.pingRequest request) = None ->
        r = Gateway.internalServerError /\ Response.status r = 500)
    /\ (forall up, net (Gateway.pingRequest request) = Some up ->
                   Response.status up <> 401 -> r = up).
Proof.
  intros Hp. unfold Gateway.handleRequest, Gateway.handleApiRequest.
  rewrite Hp. simpl. unfold Async.tryCatch. rewrite run_fetch_bind.
  destruct (net (Gateway.pingRequest request)) as [up|].
  - destruct (Response.status up =? 401) eqn:Hst.
    + eexists. split; [reflexivity|]. split; [discriminate|].
      intros up' Hup Hne. injection Hup as <-. apply Nat.eqb_eq in Hst. contradiction.
    + exists up. split; [reflexivity|]. split; [discriminate|].
      intros up' Hup _. now injection Hup.
  - eexists. split; [reflexivity|]. split; [now split | discriminate].
Qed.

Lemma ping_never_rejects_witness :
  exists r,
    Gateway.handleRequest (client "/v2/") offline
    = ([Gateway.pingRequest (client "/v2/")], Async.Resolved r)
    /\ (offline (Gateway.pingRequest (client "/v2/")) = None ->
        r = Gateway.internalServerError /\ Response.status r = 500)
    /\ (forall up, offline (Gateway.pingRequest (client "/v2/")) = Some up ->
                   Response.status up <> 401 -> r = up).
Proof. apply (ping_never_rejects (client "/v2/") offline). reflexivity. Defined.

Lemma hexDigit_unreserved (n : nat) : n < 16 -> JS.unreserved (JS.hexDigit n) = true.
Proof.
  intros H. do 16 (destruct n as [|n]; [reflexivity|]). lia.
Qed.

Lemma encodeURIComponent_encoded (s : string) :
  encodedText (JS.encodeURIComponent s) = true.
Proof.
  induction s as [|c s IH]; [reflexivity|]. simpl JS.encodeURIComponent.
  destruct (JS.unreserved c) eqn:Hc.
  - simpl. unfold encodedChar. now rewrite Hc, IH.
  - cbv zeta. pose proof (nat_ascii_bounded c) as Hb.
    change (encodedChar "%"
            && (encodedChar (JS.hexDigit (nat_of_ascii c / 16))
                && (encodedChar (JS.hexDigit (nat_of_ascii c mod 16))
                    && encodedText (JS.encodeURIComponent s))) = true).
    unfold encodedChar. rewrite !hexDigit_unreserved, IH; [reflexivity | |].
    + apply Nat.mod_upper_bound. lia.
    + apply Nat.Div0.div_lt_upper_bound. simpl. lia.
Qed.

Lemma delete_get (name key : string) (headers : gmap string string) :
  Headers.get (Headers.delete key headers) name
  = if String.eqb (JS.toLowerCase name) (JS.toLowerCase key) then None
    else Headers.get headers name.
Proof.
  unfold Headers.get, Headers.delete.
  destruct (String.eqb (JS.toLowerCase name) (JS.toLowerCase key)) eqn:E.
  - apply String.eqb_eq in E. rewrite E. apply lookup_delete_eq.
  - apply String.eqb_neq in E. now apply lookup_delete_ne.
Qed.

(** X14: the token endpoint sends one GET to the token server of Docker
    Hub, without a body; the two values in its query string hold nothing
    but unreserved characters and percent escapes, so that no value of
    the client adds a parameter; and it carries every header of the
    client but [Host]. *)
Theorem token_relay_request (request : Request.t) (net : Async.network) :
  URL.pathname (Request.url request) = "/v2/token" ->
  exists service scope forwarded,
    Async.trace (Gateway.handleRequest request net)
    = [Fetch.mk ("https://auth.docker.io/token?service=" +:+ service
                 +:+ "&scope=" +:+ scope) "GET" forwarded None Fetch.follow]
    /\ encodedText service = true /\ encodedText scope = true
    /\ forall name,
         Headers.get forwarded name
         = if String.eqb (JS.toLowerCase name) "host" then None
           else Headers.get (Request.headers request) name.
Proof.
  intros Hp. rewrite (gateway_token_route request Hp), gateway_token_run.
  eexists _, _, _. split; [reflexivity|].
  split; [apply encodeURIComponent_encoded|].
  split; [apply encodeURIComponent_encoded|].
  intros name. apply (delete_get name "host").
Qed.

Lemma token_relay_request_witness :
  exists service scope forwarded,
    Async.trace
      (Gateway.handleRequest
         (tokenClient "/v2/token" [("service", "a&b"); ("scope", "x y")])
         (upstream 200 []))
    = [Fetch.mk ("https://auth.docker.io/token?service=" +:+ service
                 +:+ "&scope=" +:+ scope) "GET" forwarded None Fetch.follow]
    /\ encodedText service = true /\ encodedText scope = true
    /\ forall name,
         Headers.get forwarded name
         = if String.eqb (JS.toLowerCase name) "host" then None
           else Headers.get
                  (Request.headers
                     (tokenClient "/v2/token" [("service", "a&b"); ("scope", "x y")]))
                  name.
Proof.
  apply (token_relay_request
           (tokenClient "/v2/token" [("service", "a&b"); ("scope", "x y")])
           (upstream 200 [])).
  reflexivity.
Defined.

Lemma resolveRegistry_base (v2Path base path : string) :
  Gateway.resolveRegistry v2Path = Some (base, path) ->
  base = Gateway.DOCKER_HUB_URL
  \/ In base (map (fun kc => baseUrl (snd kc)) Gateway.registryConfigs).
Proof.
  unfold Gateway.resolveRegistry.
  destruct (Gateway.extractPrefixAndRest v2Path (keys Gateway.registryConfigs))
    as [[p|] rest].
  - destruct (lookupConfig Gateway.registryConfigs p) as [config|] eqn:Hl;
      [| discriminate].
    intros H. injection H as <- _. right. apply lookupConfig_In in Hl.
    apply in_map_iff. now exists (p, config).
  - intros H. injection H as <- _. now left.
Qed.

(** X15: the gateway script is no open proxy: whatever the client asks
    for, the first request it sends goes to the token server of Docker
    Hub, to Docker Hub or to a base URL of its two tables, followed by a
    path or a query string. *)
Theorem first_request_upstream (request : Request.t) (net : Async.network) :
  match Async.trace (Gateway.handleRequest request net) with
  | [] => True
  | first :: _ =>
      exists base rest,
        In base upstreamBases /\ Fetch.url first = base +:+ rest
        /\ (JS.startsWith rest "/" = true \/ JS.startsWith rest "?" = true)
  end.
Proof.
  unfold Gateway.handleRequest.
  destruct (String.eqb (URL.pathname (Request.url request)) "/v2/token").
  { rewrite gateway_token_run. simpl Async.trace.
    exists "https://auth.docker.io/token", ("?service="
      +:+ JS.encodeURIComponent
            (JS.toString (URL.get (URL.searchParams (Request.url request)) "service"))
      +:+ "&scope="
      +:+ JS.encodeURIComponent
            (JS.toString (URL.get (URL.searchParams (Request.url request)) "scope"))).
    split; [now left|]. split; [reflexivity | now right]. }
  unfold Gateway.handleApiRequest. cbv zeta.
  destruct (String.eqb (URL.pathname (Request.url request)) "/"
            || String.eqb (URL.pathname (Request.url request)) "/index.html");
    [exact I|].
  destruct (String.eqb (URL.pathname (Request.url request)) "/robots.txt"); [exact I|].
  destruct (JS.startsWith (URL.pathname (Request.url request)) "/v2/").
  - destruct (String.eqb (JS.slice (URL.pathname (Request.url request)) 4) EmptyString
              || String.eqb (JS.slice (URL.pathname (Request.url request)) 4) "/").
    + unfold Async.tryCatch. rewrite run_fetch_bind.
      assert (Hping : exists base rest,
                 In base upstreamBases
                 /\ Fetch.url (Gateway.pingRequest request) = base +:+ rest
                 /\ (JS.startsWith rest "/" = true \/ JS.startsWith rest "?" = true)).
      { exists Gateway.DOCKER_HUB_URL, "/v2/".
        split; [right; now left|]. split; [reflexivity | now left]. }
      destruct (net (Gateway.pingRequest request)) as [up|]; [|exact Hping].
      destruct (Response.status up =? 401); exact Hping.
    + destruct (Gateway.resolveRegistry _) as [[base path]|] eqn:Hr; [|exact I].
      pose proof (gateway_registry_first request base path
                    (URL.search (Request.url request)) net) as Hfirst.
      destruct (Async.trace _) as [|first l]; [discriminate|].
      injection Hfirst as ->.
      exists base, ("/v2/" +:+ (if JS.startsWith path "/" then JS.slice path 1 else path)
                    +:+ URL.search (Request.url request)).
      split; [| split; [reflexivity | now left]].
      apply resolveRegistry_base in Hr as [-> | Hr]; [right; now left|].
      right. right. unfold upstreamBases. rewrite map_app. apply in_or_app. now left.
  - destruct (Gateway.extractPrefixAndRest _ _) as [[p|] restPath]; [|exact I].
    destruct (lookupConfig Gateway.aiConfigs p) as [config|] eqn:Hl; [|exact I].
    rewrite gateway_generic_run. simpl Async.trace.
    exists (baseUrl config),
      ((if JS.startsWith restPath "/" then restPath else "/" +:+ restPath)
       +:+ URL.search (Request.url request)).
    split; [| split; [reflexivity|]].
    + right. right. rewrite map_app. apply in_or_app. right.
      apply lookupConfig_In in Hl. apply in_map_iff. now exists (p, config).
    + left. unfold JS.startsWith. destruct (String.prefix "/" restPath) eqn:E.
      * destruct restPath as [|c r]; [discriminate|].
        change (String c r +:+ URL.search (Request.url request))
          with (String c (r +:+ URL.search (Request.url request))).
        rewrite prefix_cons in E |- *. apply andb_true_iff in E as [-> _].
        now rewrite prefix_empty_l.
      * change (("/" +:+ restPath) +:+ URL.search (Request.url request))
          with (String "/" (restPath +:+ URL.search (Request.url request))).
        now rewrite prefix_cons, prefix_empty_l.
Qed.

End GatewayRoutes.

(** ** The script with [/v2/auth]: the scope of the token request *)
Section ScopeCompletion.



Lemma split3 (c : ascii) (a b d : string) :
  charFree c a = true -> charFree c b = true -> charFree c d = true ->
  JS.split c (a +:+ String c (b +:+ String c d)) = [a; b; d].
Proof.
  intros Ha Hb Hd. now rewrite (split_app_sep c a _ Ha), (split_app_sep c b _ Hb),
    (split_free c d Hd).
Qed.

(** X16: for a client that names the service the gateway advertises, the
    scope [TYPE:NAME:ACTIONS] of a name without a slash is completed to
    [TYPE:library/NAME:ACTIONS]. *)
Theorem scope_completed (type name actions : string) :
  charFree ":" type = true -> charFree ":" name = true ->
  charFree ":" actions = true -> charFree "/" name = true ->
  AuthVariant.completeScope (AuthVariant.mapService (Some "cloudflare-docker-proxy"))
    (Some (type +:+ ":" +:+ name +:+ ":" +:+ actions))
  = Some (type +:+ ":library/" +:+ name +:+ ":" +:+ actions).
Proof.
  intros Ht Hn Ha Hs. unfold AuthVariant.mapService, AuthVariant.completeScope.
  change (String.eqb "cloudflare-docker-proxy" "cloudflare-docker-proxy") with true.
  cbv iota. change (String.eqb "registry.docker.io" "registry.docker.io") with true.
  rewrite andb_true_r.
  assert (Htr : JS.truthy (type +:+ ":" +:+ name +:+ ":" +:+ actions) = true).
  { destruct type; reflexivity. }
  rewrite Htr.
  change (type +:+ ":" +:+ name +:+ ":" +:+ actions)
    with (type +:+ String ":" (name +:+ String ":" actions)) at 1.
  rewrite (split3 ":" type name actions Ht Hn Ha).
  rewrite charFree_includes in Hs. apply negb_true_iff in Hs.
  change (JS.includes name "/") with (JS.includes name (String "/" EmptyString)).
  rewrite Hs. reflexivity.
Qed.

Lemma scope_completed_witness :
  AuthVariant.completeScope (AuthVariant.mapService (Some "cloudflare-docker-proxy"))
    (Some ("repository" +:+ ":" +:+ "busybox" +:+ ":" +:+ "pull"))
  = Some ("repository" +:+ ":library/" +:+ "busybox" +:+ ":" +:+ "pull").
Proof. apply (scope_completed "repository" "busybox" "pull"); reflexivity. Defined.

(** X17: completing a scope twice is completing it once, for every
    service and every scope. *)
Theorem completeScope_idempotent (service scope : option string) :
  AuthVariant.completeScope service (AuthVariant.completeScope service scope)
  = AuthVariant.completeScope service scope.
Proof.
  destruct scope as [sc|]; [|reflexivity].
  destruct service as [sv|]; [|reflexivity].
  destruct (AuthVariant.completeScope (Some sv) (Some sc)) as [sc'|] eqn:Hout;
    [| reflexivity].
  unfold AuthVariant.completeScope in Hout.
  destruct (JS.truthy sc && String.eqb sv "registry.docker.io") eqn:Hc;
    [| injection Hout as <-; unfold AuthVariant.completeScope; now rewrite Hc].
  pose proof (split_parts_free ":" sc) as Hfree.
  destruct (JS.split ":" sc) as [|a [|b [|c [|d l]]]] eqn:Hsp;
    try (injection Hout as <-; unfold AuthVariant.completeScope; now rewrite Hc, Hsp).
  destruct (negb (JS.includes b "/")) eqn:Hb;
    [| injection Hout as <-; unfold AuthVariant.completeScope; now rewrite Hc, Hsp, Hb].
  remember (JS.join ":" [a; "library/" +:+ b; c]) as joined eqn:Hj.
  injection Hout as <-.
  inversion Hfree as [|? ? Ha Hfree']; subst.
  inversion Hfree' as [|? ? Hb' Hfree'']; subst.
  inversion Hfree'' as [|? ? Hc' _]; subst.
  set (joined := JS.join ":" [a; "library/" +:+ b; c]).
  assert (Hj : joined = a +:+ String ":" (("library" +:+ "/" +:+ b) +:+ String ":" c))
    by reflexivity.
  assert (Htr : JS.truthy joined = true) by (rewrite Hj; destruct a; reflexivity).
  assert (Hsplit : JS.split ":" joined = [a; "library" +:+ "/" +:+ b; c]).
  { rewrite Hj. apply split3; [exact Ha | | exact Hc'].
    change ("library" +:+ "/" +:+ b) with ("library/" +:+ b).
    rewrite charFree_app, Hb'. reflexivity. }
  unfold AuthVariant.completeScope.
  apply andb_true_iff in Hc as [_ Hsv].
  now rewrite Hsv, Htr, Hsplit, includes_app.
Qed.

End ScopeCompletion.

(** ** The script with [/v2/auth]: the challenge of the upstream *)
Section ParseAuthenticate.

Lemma matchQuoted_cons (p1 p2 : ascii) (skip : nat) (c : ascii) (s : string) :
  AuthVariant.matchQuoted p1 p2 skip (String c s)
  = match skip with
    | S k => AuthVariant.matchQuoted p2 c k s
    | 0 =>
        if Ascii.eqb p1 "="%char && AuthVariant.isQuote p2 then
          match AuthVariant.quotedBody (String c s) with
          | Some m => m :: AuthVariant.matchQuoted p2 c (String.length m - 1) s
          | None => AuthVariant.matchQuoted p2 c 0 s
          end
        else AuthVariant.matchQuoted p2 c 0 s
    end.
Proof. reflexivity. Qed.

Lemma quotedBody_plain (v rest : string) :
  plainValue v = true ->
  AuthVariant.quotedBody (v +:+ String (ascii_of_nat 34) rest) = Some v.
Proof.
  induction v as [|c v IH]; intros H; [reflexivity|].
  simpl plainValue in H. apply andb_true_iff in H as [Hc Hv].
  apply andb_true_iff in Hc as [Hq Hb]. apply negb_true_iff in Hq, Hb.
  change (String c v +:+ String (ascii_of_nat 34) rest)
    with (String c (v +:+ String (ascii_of_nat 34) rest)).
  simpl AuthVariant.quotedBody. rewrite Hq, Hb, (IH Hv). reflexivity.
Qed.

Lemma matchQuoted_skip (a : string) :
  forall (p1 p2 c : ascii) (rest : string),
    exists p,
      AuthVariant.matchQuoted p1 p2 (String.length a) (a +:+ String c rest)
      = AuthVariant.matchQuoted p (lastChar p2 a) 0 (String c rest).
Proof.
  induction a as [|x a IH]; intros p1 p2 c rest.
  - now exists p1.
  - change (String x a +:+ String c rest) with (String x (a +:+ String c rest)).
    simpl String.length. rewrite matchQuoted_cons. simpl lastChar. apply IH.
Qed.

Lemma plain_lastChar (v : string) (d : ascii) :
  plainValue v = true -> AuthVariant.isQuote d = false ->
  AuthVariant.isQuote (lastChar d v) = false.
Proof.
  revert d; induction v as [|c v IH]; intros d H Hd; [exact Hd|].
  simpl plainValue in H. apply andb_true_iff in H as [Hc Hv].
  apply andb_true_iff in Hc as [Hq _]. apply negb_true_iff in Hq.
  simpl. now apply IH.
Qed.

(** The match of the expression at the start of a quoted value: the value,
    and the search goes on after the closing quote. *)
Lemma match_value (v rest : string) :
  plainValue v = true ->
  AuthVariant.matchQuoted "=" (ascii_of_nat 34) 0 (v +:+ String (ascii_of_nat 34) rest)
  = v :: AuthVariant.matchQuoted (lastChar (ascii_of_nat 34) v) (ascii_of_nat 34) 0 rest.
Proof.
  intros Hv. destruct v as [|c v].
  - reflexivity.
  - pose proof (quotedBody_plain (String c v) rest Hv) as Hq.
    change (String c v +:+ String (ascii_of_nat 34) rest)
      with (String c (v +:+ String (ascii_of_nat 34) rest)) in Hq |- *.
    rewrite matchQuoted_cons.
    change (Ascii.eqb "=" "=" && AuthVariant.isQuote (ascii_of_nat 34)) with true.
    cbv iota. rewrite Hq. f_equal.
    replace (String.length (String c v) - 1) with (String.length v) by (simpl; lia).
    destruct (matchQuoted_skip v (ascii_of_nat 34) c (ascii_of_nat 34) rest) as [p ->].
    rewrite matchQuoted_cons.
    simpl plainValue in Hv. apply andb_true_iff in Hv as [Hc Hv].
    apply andb_true_iff in Hc as [Hc _]. apply negb_true_iff in Hc.
    rewrite (plain_lastChar v c Hv Hc), andb_false_r. reflexivity.
Qed.

Lemma lastChar_default (d d' : ascii) (v : string) :
  v <> EmptyString -> lastChar d v = lastChar d' v.
Proof. destruct v; [congruence | reflexivity]. Qed.

(** X18: the realm and the service are read back from a challenge
    [Bearer realm=R,service=S] with quoted values that hold no quote and
    no backslash, when the realm does not end with an equals sign. *)
Theorem parse_authenticate_challenge (R S : string) :
  plainValue R = true -> plainValue S = true -> lastChar " " R <> "="%char ->
  AuthVariant.parseAuthenticate
    ("Bearer realm=" +:+ Build.quoted R +:+ ",service=" +:+ Build.quoted S)
  = Some (R, S).
Proof.
  intros HR HS Hlast. unfold AuthVariant.parseAuthenticate.
  assert (Hshape : "Bearer realm=" +:+ Build.quoted R +:+ ",service=" +:+ Build.quoted S
                   = "Bearer realm=" +:+ JS.dquote
                     +:+ (R +:+ String (ascii_of_nat 34)
                            (",service=" +:+ JS.dquote
                             +:+ (S +:+ String (ascii_of_nat 34) EmptyString)))).
  { unfold Build.quoted, JS.dquote. simpl. now rewrite !app_assoc_s. }
  rewrite Hshape.
  change (AuthVariant.matchQuoted " " " " 0
            ("Bearer realm=" +:+ JS.dquote
             +:+ (R +:+ String (ascii_of_nat 34)
                    (",service=" +:+ JS.dquote
                     +:+ (S +:+ String (ascii_of_nat 34) EmptyString)))))
    with (AuthVariant.matchQuoted "=" (ascii_of_nat 34) 0
            (R +:+ String (ascii_of_nat 34)
               (",service=" +:+ JS.dquote
                +:+ (S +:+ String (ascii_of_nat 34) EmptyString)))).
  rewrite (match_value R _ HR).
  assert (Hl : Ascii.eqb (lastChar (ascii_of_nat 34) R) "=" = false).
  { apply Ascii.eqb_neq. destruct R as [|c R]; [discriminate|]. exact Hlast. }
  change (",service=" +:+ JS.dquote +:+ (S +:+ String (ascii_of_nat 34) EmptyString))
    with (String "," ("service=" +:+ JS.dquote
                      +:+ (S +:+ String (ascii_of_nat 34) EmptyString))).
  rewrite matchQuoted_cons, Hl. simpl andb. cbv iota.
  change (AuthVariant.matchQuoted (ascii_of_nat 34) "," 0
            ("service=" +:+ JS.dquote +:+ (S +:+ String (ascii_of_nat 34) EmptyString)))
    with (AuthVariant.matchQuoted "=" (ascii_of_nat 34) 0
            (S +:+ String (ascii_of_nat 34) EmptyString)).
  now rewrite (match_value S _ HS).
Qed.

Lemma parse_authenticate_challenge_witness :
  AuthVariant.parseAuthenticate
    ("Bearer realm=" +:+ Build.quoted "https://auth.docker.io/token"
     +:+ ",service=" +:+ Build.quoted "registry.docker.io")
  = Some ("https://auth.docker.io/token", "registry.docker.io").
Proof.
  apply (parse_authenticate_challenge "https://auth.docker.io/token"
           "registry.docker.io"); [reflexivity | reflexivity | discriminate].
Defined.

Lemma matchQuoted_unquoted (s : string) :
  forall p1 p2,
    AuthVariant.isQuote p2 = false -> quoteFree s = true ->
    AuthVariant.matchQuoted p1 p2 0 s = [].
Proof.
  induction s as [|c s IH]; intros p1 p2 Hp Hs; [reflexivity|].
  simpl quoteFree in Hs. apply andb_true_iff in Hs as [Hc Hs].
  apply negb_true_iff in Hc.
  rewrite matchQuoted_cons, Hp, andb_false_r. now apply IH.
Qed.

(** X19: a challenge that holds no quote, and a challenge with a realm
    and nothing else, are refused: the script throws
    [invalid Www-Authenticate Header]. *)
Theorem parse_authenticate_incomplete (s R : string) :
  (quoteFree s = true -> AuthVariant.parseAuthenticate s = None)
  /\ (plainValue R = true ->
      AuthVariant.parseAuthenticate ("Bearer realm=" +:+ Build.quoted R) = None).
Proof.
  split.
  - intros Hs. unfold AuthVariant.parseAuthenticate.
    now rewrite matchQuoted_unquoted.
  - intros HR. unfold AuthVariant.parseAuthenticate.
    assert (Hshape : "Bearer realm=" +:+ Build.quoted R
                     = "Bearer realm=" +:+ JS.dquote
                       +:+ (R +:+ String (ascii_of_nat 34) EmptyString))
      by reflexivity.
    rewrite Hshape.
    change (AuthVariant.matchQuoted " " " " 0
              ("Bearer realm=" +:+ JS.dquote
               +:+ (R +:+ String (ascii_of_nat 34) EmptyString)))
      with (AuthVariant.matchQuoted "=" (ascii_of_nat 34) 0
              (R +:+ String (ascii_of_nat 34) EmptyString)).
    now rewrite (match_value R _ HR).
Qed.

Lemma parse_authenticate_incomplete_witness :
  AuthVariant.parseAuthenticate "Basic" = None
  /\ AuthVariant.parseAuthenticate
       ("Bearer realm=" +:+ Build.quoted "https://auth.docker.io/token") = None.
Proof.
  split.
  - apply (proj1 (parse_authenticate_incomplete "Basic" EmptyString)). reflexivity.
  - apply (proj2 (parse_authenticate_incomplete EmptyString
                    "https://auth.docker.io/token")). reflexivity.
Defined.

End ParseAuthenticate.

(** ** Facts about single headers *)
Section HeaderFacts.

Lemma set_get_one (key value name : string) :
  Headers.get (Headers.set key value ∅) name
  = if String.eqb (JS.toLowerCase name) (JS.toLowerCase key) then Some value else None.
Proof.
  unfold Headers.get, Headers.set.
  destruct (String.eqb (JS.toLowerCase name) (JS.toLowerCase key)) eqn:E.
  - apply String.eqb_eq in E. rewrite E. apply lookup_insert_eq.
  - apply String.eqb_neq in E. rewrite lookup_insert_ne by congruence.
    apply lookup_empty.
Qed.

End HeaderFacts.

(** ** The script with [/v2/auth]: the handler of the token endpoint *)
Section AuthEndpoint.

Variable urlWithParams : string -> list (string * string) -> option string.

(** X20: what the handler of [/v2/auth] does when the probe of Docker
    Hub brings no usable challenge. It sends the probe and nothing else;
    its promise is rejected when the network fails and when the
    challenge cannot be parsed, and the client gets a 500 when the
    response has no [WWW-Authenticate] header or an empty one. *)
Theorem auth_probe_failures (request : Request.t) (net : Async.network) :
  (net AuthVariant.probeRequest = None ->
   AuthVariant.handleAuthRequest urlWithParams request net
   = ([AuthVariant.probeRequest], Async.Rejected))
  /\ (forall up,
        net AuthVariant.probeRequest = Some up ->
        JS.truthy_opt (Headers.get (Response.headers up) "WWW-Authenticate") = false ->
        AuthVariant.handleAuthRequest urlWithParams request net
        = ([AuthVariant.probeRequest], Async.Resolved AuthVariant.discoveryFailure)
        /\ Response.status AuthVariant.discoveryFailure = 500)
  /\ (forall up challenge,
        net AuthVariant.probeRequest = Some up ->
        Headers.get (Response.headers up) "WWW-Authenticate" = Some challenge ->
        challenge <> EmptyString ->
        AuthVariant.parseAuthenticate challenge = None ->
        AuthVariant.handleAuthRequest urlWithParams request net
        = ([AuthVariant.probeRequest], Async.Rejected)).
Proof.
  unfold AuthVariant.handleAuthRequest. cbv zeta. rewrite run_fetch_bind.
  split; [| split].
  - now intros ->.
  - intros up -> Hh. split; [|reflexivity].
    destruct (Headers.get (Response.headers up) "WWW-Authenticate") as [h|];
      [|reflexivity].
    simpl in Hh. now rewrite Hh.
  - intros up challenge -> -> Hne Hp. apply truthy_nonempty in Hne.
    now rewrite Hne, Hp.
Qed.


(** X21: the relay of [/v2/auth]. After the probe, one GET goes to the
    realm of the challenge of Docker Hub, with the service of that
    challenge and the completed scope of the client as its parameters;
    of the headers of the client it carries [Authorization] and no
    other; the response of the token server is returned as it is. *)
Theorem auth_relay_request (request : Request.t) (net : Async.network)
  (up : Response.t) (challenge realm service scope tokenUrl : string) :
  net AuthVariant.probeRequest = Some up ->
  Headers.get (Response.headers up) "WWW-Authenticate" = Some challenge ->
  challenge <> EmptyString ->
  AuthVariant.parseAuthenticate challenge = Some (realm, service) ->
  service <> EmptyString ->
  AuthVariant.completeScope
    (AuthVariant.mapService (URL.get (URL.searchParams (Request.url request)) "service"))
    (URL.get (URL.searchParams (Request.url request)) "scope") = Some scope ->
  scope <> EmptyString ->
  urlWithParams realm [("service", service); ("scope", scope)] = Some tokenUrl ->
  exists headers,
    AuthVariant.handleAuthRequest urlWithParams request net
    = ([AuthVariant.probeRequest; Fetch.mk tokenUrl "GET" headers None Fetch.follow],
       match net (Fetch.mk tokenUrl "GET" headers None Fetch.follow) with
       | Some r => Async.Resolved r
       | None => Async.Rejected
       end)
    /\ forall name,
         Headers.get headers name
         = if String.eqb (JS.toLowerCase name) "authorization"
           then match Headers.get (Request.headers request) "Authorization" with
                | Some a => if JS.truthy a then Some a else None
                | None => None
                end
           else None.
Proof.
  intros Hprobe Hch Hne Hparse Hsv Hscope Hsc Hurl.
  unfold AuthVariant.handleAuthRequest. cbv zeta.
  rewrite run_fetch_bind, Hprobe, Hch.
  apply truthy_nonempty in Hne. rewrite Hne, Hparse, Hscope.
  unfold AuthVariant.fetchToken.
  assert (Hlen : (0 <? String.length service) = true)
    by (destruct service; [congruence | reflexivity]).
  apply truthy_nonempty in Hsc.
  rewrite Hlen.
  change (JS.truthy_opt (Some scope)) with (JS.truthy scope). rewrite Hsc.
  change ([("service", service)] ++ [("scope", JS.toString (Some scope))])
    with [("service", service); ("scope", scope)].
  rewrite Hurl. eexists. split; [rewrite run_fetch; reflexivity|].
  intros name.
  destruct (Headers.get (Request.headers request) "Authorization") as [a|].
  - simpl JS.truthy_opt. destruct (JS.truthy a).
    + apply (set_get_one "Authorization" a name).
    + unfold Headers.get. rewrite lookup_empty. now destruct (String.eqb _ _).
  - simpl. unfold Headers.get. rewrite lookup_empty. now destruct (String.eqb _ _).
Qed.

End AuthEndpoint.

Lemma auth_probe_failures_witness :
  AuthVariant.handleAuthRequest plainUrlWithParams (tokenClient "/v2/auth" []) offline
  = ([AuthVariant.probeRequest], Async.Rejected)
  /\ AuthVariant.handleAuthRequest plainUrlWithParams (tokenClient "/v2/auth" [])
       (upstream 401 [])
     = ([AuthVariant.probeRequest], Async.Resolved AuthVariant.discoveryFailure)
  /\ AuthVariant.handleAuthRequest plainUrlWithParams (tokenClient "/v2/auth" [])
       (upstream 401 [("WWW-Authenticate", "Basic")])
     = ([AuthVariant.probeRequest], Async.Rejected).
Proof.
  split; [| split].
  - apply (proj1 (auth_probe_failures plainUrlWithParams (tokenClient "/v2/auth" [])
                    offline)).
    reflexivity.
  - apply (proj1 (proj2 (auth_probe_failures plainUrlWithParams
                           (tokenClient "/v2/auth" []) (upstream 401 [])))
             (Response.mk 401 EmptyString (Headers.of_list []) "blob"));
      reflexivity.
  - apply (proj2 (proj2 (auth_probe_failures plainUrlWithParams
                           (tokenClient "/v2/auth" [])
                           (upstream 401 [("WWW-Authenticate", "Basic")])))
             (Response.mk 401 EmptyString
                (Headers.of_list [("WWW-Authenticate", "Basic")]) "blob") "Basic");
      [reflexivity | reflexivity | discriminate | reflexivity].
Defined.

Lemma auth_relay_request_witness :
  exists headers,
    AuthVariant.handleAuthRequest plainUrlWithParams
      (tokenClient "/v2/auth"
         [("service", "cloudflare-docker-proxy"); ("scope", "repository:busybox:pull")])
      (upstream 401 [("WWW-Authenticate", hubChallenge)])
    = ([AuthVariant.probeRequest;
        Fetch.mk "https://auth.docker.io/token?service=registry.docker.io&scope=repository:library/busybox:pull"
          "GET" headers None Fetch.follow],
       match
         upstream 401 [("WWW-Authenticate", hubChallenge)]
           (Fetch.mk "https://auth.docker.io/token?service=registry.docker.io&scope=repository:library/busybox:pull"
              "GET" headers None Fetch.follow)
       with
       | Some r => Async.Resolved r
       | None => Async.Rejected
       end)
    /\ forall name,
         Headers.get headers name
         = if String.eqb (JS.toLowerCase name) "authorization"
           then match
                  Headers.get
                    (Request.headers
                       (tokenClient "/v2/auth"
                          [("service", "cloudflare-docker-proxy");
                           ("scope", "repository:busybox:pull")]))
                    "Authorization"
                with
                | Some a => if JS.truthy a then Some a else None
                | None => None
                end
           else None.
Proof.
  apply (auth_relay_request plainUrlWithParams
           (tokenClient "/v2/auth"
              [("service", "cloudflare-docker-proxy");
               ("scope", "repository:busybox:pull")])
           (upstream 401 [("WWW-Authenticate", hubChallenge)])
           (Response.mk 401 EmptyString
              (Headers.of_list [("WWW-Authenticate", hubChallenge)]) "blob")
           hubChallenge "https://auth.docker.io/token" "registry.docker.io"
           "repository:library/busybox:pull"
           "https://auth.docker.io/token?service=registry.docker.io&scope=repository:library/busybox:pull");
    try reflexivity; discriminate.
Defined.


(** ** The script with [/v2/auth]: the redirect of official images *)
Section RedirectRoutes.

Variable urlWithParams : string -> list (string * string) -> option string.
Variable parseUrl : string -> option string.
Variable hrefWithPath : URL.t -> string -> string.

Lemma auth_v2_dispatch (request : Request.t) (c : ascii) (s : string) :
  URL.pathname (Request.url request) = "/v2/" +:+ String c s ->
  String.eqb (String c s) "auth" = false ->
  String.eqb (String c s) "/" = false ->
  AuthVariant.handleRequest urlWithParams parseUrl hrefWithPath request
  = match AuthVariant.resolveRegistry hrefWithPath (Request.url request) (String c s) with
    | Some (inl redirect) => mret redirect
    | Some (inr (targetBaseUrl, cleanedFinalImagePath)) =>
        AuthVariant.handleRegistryRequest parseUrl request targetBaseUrl
          cleanedFinalImagePath (URL.search (Request.url request))
    | None => mret AuthVariant.internalServerError
    end.
Proof.
  intros H Ht Hs. unfold AuthVariant.handleRequest, AuthVariant.handleApiRequest.
  cbv zeta. rewrite H.
  change (String.eqb ("/v2/" +:+ String c s) "/v2/auth")
    with (String.eqb (String c s) "auth").
  rewrite Ht.
  change (JS.slice ("/v2/" +:+ String c s) 4) with (String c s).
  change (String.eqb ("/v2/" +:+ String c s) "/"
          || String.eqb ("/v2/" +:+ String c s) "/index.html") with false.
  change (String.eqb ("/v2/" +:+ String c s) "/robots.txt") with false.
  change (JS.startsWith ("/v2/" +:+ String c s) "/v2/")
    with (String.prefix "" (String c s)).
  rewrite Hs. reflexivity.
Qed.

Lemma join_cons (sep x : string) (l : list string) :
  l <> [] -> JS.join sep (x :: l) = x +:+ sep +:+ JS.join sep l.
Proof. destruct l; [congruence | reflexivity]. Qed.

(** The path of the redirect: [library] after [/v2/]. *)
Lemma library_inserted (rest : string) :
  JS.join "/" (JS.splice_insert 2 "library" (JS.split "/" ("/v2/" +:+ rest)))
  = "/v2/library/" +:+ rest.
Proof.
  change ("/v2/" +:+ rest)
    with (EmptyString +:+ String "/" ("v2" +:+ String "/" rest)).
  rewrite split_app_sep, split_app_sep by reflexivity.
  change (JS.splice_insert 2 "library" (EmptyString :: "v2" :: JS.split "/" rest))
    with (EmptyString :: "v2" :: "library" :: JS.split "/" rest).
  rewrite !join_cons; try discriminate; [| apply split_nonempty].
  now rewrite join_split.
Qed.

Lemma first_segment_default (first tail : string) :
  charFree "/" first = true -> first <> "register" ->
  AuthVariant.extractPrefixAndRest (first +:+ String "/" tail)
    (keys AuthVariant.registryConfigs)
  = (None, first +:+ String "/" tail).
Proof. apply registry_router_default. Qed.

(** X22: a request for [/v2/FIRST/TAIL] whose first segment holds no dot
    and no colon and is neither [library] nor [register] is answered
    with a 301 to the same URL with [library] put after [/v2/]; nothing
    is sent to an upstream. *)
Theorem unqualified_image_redirected (request : Request.t) (first tail : string)
  (net : Async.network) :
  URL.pathname (Request.url request) = "/v2/" +:+ first +:+ "/" +:+ tail ->
  first <> EmptyString -> charFree "/" first = true ->
  JS.includes first "." = false -> JS.includes first ":" = false ->
  first <> "library" -> first <> "register" ->
  AuthVariant.handleRequest urlWithParams parseUrl hrefWithPath request net
  = ([], Async.Resolved
           (AuthVariant.redirect301
              (hrefWithPath (Request.url request)
                 ("/v2/library/" +:+ first +:+ "/" +:+ tail)))).
Proof.
  intros Hpath Hne Hfree Hdot Hcolon Hlib Hreg.
  pose proof (first_segment_default first tail Hfree Hreg) as Hrouter.
  assert (Hsplit : JS.split "/" (first +:+ String "/" tail) = first :: JS.split "/" tail)
    by now apply split_app_sep.
  destruct first as [|c first]; [congruence|].
  rewrite (auth_v2_dispatch request c (first +:+ "/" +:+ tail) Hpath).
  - change (String c (first +:+ "/" +:+ tail)) with (String c first +:+ String "/" tail).
    unfold AuthVariant.resolveRegistry. rewrite Hrouter. cbv iota zeta.
    unfold AuthVariant.officialImageRedirect. cbv zeta. rewrite Hsplit.
    pose proof (split_nonempty "/" tail) as Htail.
    destruct (JS.split "/" tail) as [|h t] eqn:Et; [congruence|].
    change (hd EmptyString (String c first :: h :: t)) with (String c first).
    rewrite Hdot, Hcolon.
    apply String.eqb_neq in Hlib. rewrite Hlib.
    change (2 <=? length (String c first :: h :: t)) with true.
    simpl andb. cbv iota. rewrite Hpath, library_inserted. reflexivity.
  - apply String.eqb_neq. intros E. apply (f_equal (charFree "/")) in E.
    simpl in E. rewrite charFree_app in E. simpl in E.
    rewrite andb_false_r in E. destruct (negb _); discriminate.
  - apply String.eqb_neq. intros E. apply (f_equal String.length) in E.
    simpl in E. rewrite length_app in E. simpl in E. lia.
Qed.

Lemma auth_registry_first (request : Request.t) (baseUrl imagePath search : string)
  (net : Async.network) :
  head (Async.trace
          (AuthVariant.handleRegistryRequest parseUrl request baseUrl imagePath search net))
  = Some (AuthVariant.registryRequest request baseUrl imagePath search).
Proof.
  unfold AuthVariant.handleRegistryRequest. cbv zeta. rewrite run_fetch_bind.
  now destruct (net _).
Qed.

(** X23: the path such a redirect points to is not redirected again: a
    request for [/v2/library/REST] is forwarded to Docker Hub on that
    very path, with the query string, the method, the headers and the
    body of the client. *)
Theorem redirected_path_forwarded (request : Request.t) (rest : string)
  (net : Async.network) :
  URL.pathname (Request.url request) = "/v2/library/" +:+ rest ->
  head (Async.trace
          (AuthVariant.handleRequest urlWithParams parseUrl hrefWithPath request net))
  = Some (Fetch.mk (AuthVariant.DOCKER_HUB_URL +:+ "/v2/library/" +:+ rest
                    +:+ URL.search (Request.url request))
            (Request.method request) (Request.headers request) (Request.body request)
            Fetch.manual).
Proof.
  intros Hpath.
  rewrite (auth_v2_dispatch request "l" ("ibrary/" +:+ rest));
    [| exact Hpath | reflexivity | reflexivity].
  change (String "l" ("ibrary/" +:+ rest)) with ("library" +:+ String "/" rest).
  unfold AuthVariant.resolveRegistry.
  rewrite (first_segment_default "library" rest) by (reflexivity || discriminate).
  cbv iota zeta. unfold AuthVariant.officialImageRedirect. cbv zeta.
  rewrite split_app_sep by reflexivity.
  change (negb (String.eqb (hd EmptyString ("library" :: JS.split "/" rest)) "library"))
    with false.
  rewrite !andb_false_r. cbv iota.
  change (JS.startsWith ("library" +:+ String "/" rest) "/") with false. cbv iota.
  rewrite auth_registry_first. reflexivity.
Qed.

(** X24: in this script a 307 or 302 of Docker Hub whose [Location] is
    absent or no URL is not relayed to the client: building the URL
    throws after the forwarded request, and the promise of the handler
    is rejected. *)
Theorem hub_redirect_needs_location (request : Request.t) (imagePath search : string)
  (net : Async.network) (up : Response.t) :
  net (AuthVariant.registryRequest request AuthVariant.DOCKER_HUB_URL imagePath search)
  = Some up ->
  isRedirect (Response.status up) = true ->
  parseUrl (JS.toString (Headers.get (Response.headers up) "Location")) = None ->
  AuthVariant.handleRegistryRequest parseUrl request AuthVariant.DOCKER_HUB_URL
    imagePath search net
  = ([AuthVariant.registryRequest request AuthVariant.DOCKER_HUB_URL imagePath search],
     Async.Rejected).
Proof.
  intros Hup Hr Hloc. unfold AuthVariant.handleRegistryRequest. cbv zeta.
  rewrite run_fetch_bind, Hup, (isRedirect_not_401 _ Hr).
  unfold isRedirect in Hr. rewrite Hr, Hloc. reflexivity.
Qed.

End RedirectRoutes.

Lemma unqualified_image_redirected_witness :
  AuthVariant.handleRequest plainUrlWithParams (fun s => Some s)
    (fun url path => "https://" +:+ URL.hostname url +:+ path)
    (client "/v2/busybox/manifests/latest") offline
  = ([], Async.Resolved
           (AuthVariant.redirect301
              ("https://" +:+ "gw.example"
               +:+ ("/v2/library/" +:+ "busybox" +:+ "/" +:+ "manifests/latest")))).
Proof.
  apply (unqualified_image_redirected plainUrlWithParams (fun s => Some s)
           (fun url path => "https://" +:+ URL.hostname url +:+ path)
           (client "/v2/busybox/manifests/latest") "busybox" "manifests/latest" offline);
    try reflexivity; discriminate.
Defined.

Lemma redirected_path_forwarded_witness :
  head (Async.trace
          (AuthVariant.handleRequest plainUrlWithParams (fun s => Some s)
             (fun url path => "https://" +:+ URL.hostname url +:+ path)
             (client "/v2/library/busybox/manifests/latest") (upstream 200 [])))
  = Some (Fetch.mk (AuthVariant.DOCKER_HUB_URL +:+ "/v2/library/"
                    +:+ "busybox/manifests/latest" +:+ EmptyString)
            "GET" ∅ None Fetch.manual).
Proof.
  apply (redirected_path_forwarded plainUrlWithParams (fun s => Some s)
           (fun url path => "https://" +:+ URL.hostname url +:+ path)
           (client "/v2/library/busybox/manifests/latest") "busybox/manifests/latest"
           (upstream 200 [])).
  reflexivity.
Defined.

Lemma hub_redirect_needs_location_witness :
  AuthVariant.handleRegistryRequest
    (fun s => if JS.startsWith s "https://" then Some s else None)
    blobClient AuthVariant.DOCKER_HUB_URL "library/busybox/blobs/sha256:0" EmptyString
    (upstream 307 [])
  = ([AuthVariant.registryRequest blobClient AuthVariant.DOCKER_HUB_URL
        "library/busybox/blobs/sha256:0" EmptyString],
     Async.Rejected).
Proof.
  apply (hub_redirect_needs_location
           (fun s => if JS.startsWith s "https://" then Some s else None)
           blobClient "library/busybox/blobs/sha256:0" EmptyString (upstream 307 [])
           (Response.mk 307 EmptyString (Headers.of_list []) "blob"));
    reflexivity.
Defined.


(** ** The routes of the script with one table *)
Section TableRoutes.


Lemma table_flat : flatTable (keys TableVariant.apiConfigs) = true.
Proof. vm_compute. reflexivity. Qed.

Lemma table_lookup (P : string) (config : ApiConfig) :
  In (P, config) TableVariant.apiConfigs ->
  lookupConfig TableVariant.apiConfigs P = Some config.
Proof.
  intros Hin. vm_compute in Hin.
  repeat (destruct Hin as [Hin | Hin]; [injection Hin as <- <-; reflexivity|]).
  destruct Hin.
Qed.

Lemma table_key (P : string) (config : ApiConfig) :
  In (P, config) TableVariant.apiConfigs ->
  In P (keys TableVariant.apiConfigs) /\ exists P0, P = String "/" P0.
Proof.
  intros Hin. split.
  - unfold keys. apply in_map_iff. now exists (P, config).
  - unfold TableVariant.apiConfigs, withPrefix in Hin.
    apply in_app_or in Hin as [Hin | Hin];
      apply in_map_iff in Hin as [[k c] [H _]]; injection H as <- _; eexists;
      reflexivity.
Qed.

(** The router on a path [P/x] and on the same path without its leading
    slash. *)
Lemma table_router_entry (P0 x : string) (config : ApiConfig) :
  In (String "/" P0, config) TableVariant.apiConfigs ->
  TableVariant.extractPrefixAndRest (String "/" P0 +:+ "/" +:+ x)
    (keys TableVariant.apiConfigs) = (Some (String "/" P0), "/" +:+ x)
  /\ (JS.startsWith P0 "/" = false ->
      TableVariant.extractPrefixAndRest (P0 +:+ "/" +:+ x)
        (keys TableVariant.apiConfigs) = (Some (String "/" P0), "/" +:+ x)).
Proof.
  intros Hin. destruct (table_key _ _ Hin) as [Hk _].
  destruct (flatTable_spec _ _ table_flat Hk) as [HP Hun].
  pose proof (table_fold_slash _ _ x Hk HP Hun) as Hfold.
  split.
  - rewrite table_router_normalized.
    change (String "/" P0 +:+ "/" +:+ x) with (String "/" (P0 +:+ "/" +:+ x)) at 1 2.
    rewrite normalizedPath_slash.
    change (String "/" (P0 +:+ "/" +:+ x)) with (String "/" P0 +:+ "/" +:+ x).
    rewrite Hfold. simpl JS.truthy. cbv iota.
    now rewrite (slice_app (String "/" P0) ("/" +:+ x)).
  - intros Hs.
    assert (Hn : normalizedPath (P0 +:+ "/" +:+ x) = String "/" P0 +:+ "/" +:+ x).
    { unfold normalizedPath. destruct P0 as [|c P0].
      - vm_compute in Hin. exfalso.
        repeat (destruct Hin as [Hin | Hin]; [discriminate|]). destruct Hin.
      - unfold JS.startsWith in *. rewrite prefix_cons in Hs.
        change (String c P0 +:+ "/" +:+ x) with (String c (P0 +:+ "/" +:+ x)).
        rewrite prefix_cons. rewrite prefix_empty_l, andb_true_r in Hs.
        now rewrite Hs. }
    rewrite table_router_normalized, Hn, Hfold. simpl JS.truthy. cbv iota.
    now rewrite (slice_app (String "/" P0) ("/" +:+ x)).
Qed.

Lemma table_registry_first (request : Request.t) (pathname search targetUrl : string)
  (isDockerHub : bool) (net : Async.network) :
  JS.slice pathname 4 <> EmptyString -> JS.slice pathname 4 <> "/" ->
  TableVariant.registryTarget pathname search = Some (targetUrl, isDockerHub) ->
  head (Async.trace (TableVariant.handleRegistryRequest request pathname search net))
  = Some (TableVariant.registryRequest request targetUrl).
Proof.
  intros H1 H2 Ht. unfold TableVariant.handleRegistryRequest. cbv zeta.
  apply String.eqb_neq in H1, H2. rewrite H1, H2.
  change (false || false) with false. cbv iota. rewrite Ht. cbv beta iota.
  rewrite run_fetch_bind. now destruct (net _).
Qed.

(** X25: in the script with one table a request for
    [/v2/registry/K/x], [K] a key of the registry table, is forwarded to
    [/v2/x] of the base URL of [K], with the query string, the method,
    the headers and the body of the client and without following
    redirects. *)
Theorem table_registry_route (request : Request.t) (k x search : string)
  (config : ApiConfig) (net : Async.network) :
  In (k, config) (registryEntries TableVariant.DOCKER_HUB_URL) ->
  head (Async.trace
          (TableVariant.handleRegistryRequest request
             ("/v2/registry/" +:+ k +:+ "/" +:+ x) search net))
  = Some (Fetch.mk (baseUrl config +:+ "/v2/" +:+ x +:+ search)
            (Request.method request) (Request.headers request) (Request.body request)
            Fetch.manual).
Proof.
  intros Hin.
  assert (Hin' : In (String "/" ("registry/" +:+ k), config) TableVariant.apiConfigs).
  { unfold TableVariant.apiConfigs. apply in_or_app. left.
    unfold withPrefix. apply in_map_iff. now exists (k, config). }
  destruct (table_router_entry _ x _ Hin') as [_ Hr].
  specialize (Hr eq_refl).
  apply (table_registry_first request _ search _
           (String.eqb (baseUrl config) TableVariant.DOCKER_HUB_URL)).
  - discriminate.
  - discriminate.
  - unfold TableVariant.registryTarget. cbv zeta.
    change (JS.slice ("/v2/registry/" +:+ k +:+ "/" +:+ x) 4)
      with (("registry/" +:+ k) +:+ "/" +:+ x).
    rewrite Hr.
    change (JS.startsWith (String "/" ("registry/" +:+ k)) "/registry/")
      with (String.prefix "/registry/" ("/registry/" +:+ k)).
    rewrite prefix_app, (table_lookup _ _ Hin'). unfold JS.startsWith.
    change ("/" +:+ x) with (String "/" x) at 1.
    rewrite prefix_cons, prefix_empty_l. reflexivity.
Qed.

Lemma table_registry_route_witness :
  head (Async.trace
          (TableVariant.handleRegistryRequest
             (client "/v2/registry/quay/org/img/manifests/v1")
             ("/v2/registry/" +:+ "quay" +:+ "/" +:+ "org/img/manifests/v1")
             EmptyString (upstream 200 [])))
  = Some (Fetch.mk ("https://quay.io" +:+ "/v2/" +:+ "org/img/manifests/v1"
                    +:+ EmptyString) "GET" ∅ None Fetch.manual).
Proof.
  apply (table_registry_route (client "/v2/registry/quay/org/img/manifests/v1")
           "quay" "org/img/manifests/v1" EmptyString (mkConfig "https://quay.io" None)
           (upstream 200 [])).
  do 7 right. left. reflexivity.
Defined.

Lemma prefix_trans (a b s : string) :
  String.prefix a b = true -> String.prefix b s = true -> String.prefix a s = true.
Proof.
  intros Hab Hbs. rewrite (prefix_slice b s Hbs). now apply prefix_app_r.
Qed.

(** X26: in the script with one table every other path under [/v2/],
    one that does not begin with [registry/], is forwarded to Docker Hub
    as it is: no [library/] is put before the name of an image. *)
Theorem table_default_route (request : Request.t) (v2Path search : string)
  (net : Async.network) :
  v2Path <> EmptyString -> v2Path <> "/" ->
  JS.startsWith (normalizedPath v2Path) "/registry/" = false ->
  head (Async.trace
          (TableVariant.handleRegistryRequest request ("/v2/" +:+ v2Path) search net))
  = Some (Fetch.mk (TableVariant.DOCKER_HUB_URL +:+ "/v2/" +:+ v2Path +:+ search)
            (Request.method request) (Request.headers request) (Request.body request)
            Fetch.manual).
Proof.
  intros H1 H2 Hreg.
  apply (table_registry_first request _ search _ true); [exact H1 | exact H2 |].
  unfold TableVariant.registryTarget. cbv zeta.
  change (JS.slice ("/v2/" +:+ v2Path) 4) with v2Path.
  rewrite table_router_normalized.
  destruct (fold_left _ (keys TableVariant.apiConfigs) None) as [b|] eqn:Hf;
    [| reflexivity].
  destruct (JS.truthy b); [| reflexivity].
  destruct (JS.startsWith b "/registry/") eqn:Hb; [| reflexivity].
  exfalso. apply better_fold_origin in Hf as [Hf | [_ Hm]]; [discriminate|].
  unfold JS.startsWith in *. apply prefix_app_l in Hm.
  rewrite (prefix_trans _ _ _ Hb Hm) in Hreg. discriminate.
Qed.

Lemma table_default_route_witness :
  head (Async.trace
          (TableVariant.handleRegistryRequest (client "/v2/busybox/manifests/latest")
             ("/v2/" +:+ "busybox/manifests/latest") EmptyString (upstream 200 [])))
  = Some (Fetch.mk (TableVariant.DOCKER_HUB_URL +:+ "/v2/" +:+ "busybox/manifests/latest"
                    +:+ EmptyString) "GET" ∅ None Fetch.manual).
Proof.
  apply (table_default_route (client "/v2/busybox/manifests/latest")
           "busybox/manifests/latest" EmptyString (upstream 200 []));
    [discriminate | discriminate | reflexivity].
Defined.

(** X27: the generic handler of the script with one table. A request
    for [P/x], [P] a prefix of the table, is answered by one request to
    the base URL of [P] with the path [/x], the query string, the method
    and the body of the client and the headers the filter lets through.
    The response comes back under the security headers when its status
    lies in 200..599; the promise is rejected when the network fails,
    and for any other status, for which the constructor of [Response]
    throws. A path in which no prefix of the table is followed by a
    slash is answered with 404, and nothing is sent to an upstream. *)
Theorem table_generic_route (request : Request.t) (pathname search : string)
  (net : Async.network) :
  (forall P config x,
     In (P, config) TableVariant.apiConfigs -> pathname = P +:+ "/" +:+ x ->
     let forwarded :=
       Fetch.mk (baseUrl config +:+ "/" +:+ x +:+ search) (Request.method request)
         (Gateway.filterHeaders (Request.headers request)
            (TableVariant.DEFAULT_HEADERS ++ default [] (allowedHeaders config)))
         (Request.body request) Fetch.follow in
     TableVariant.handleGenericApiRequest request pathname search net
     = ([forwarded],
        match net forwarded with
        | Some up =>
            if Build.validStatus (Response.status up)
            then Async.Resolved
                   (Response.mk (Response.status up) (Response.statusText up)
                      (addSecurityHeaders (Response.headers up)) (Response.body up))
            else Async.Rejected
        | None => Async.Rejected
        end))
  /\ ((forall q, In q (keys TableVariant.apiConfigs) ->
                 JS.startsWith (normalizedPath pathname) (q +:+ "/") = false) ->
      TableVariant.handleGenericApiRequest request pathname search net
      = ([], Async.Resolved TableVariant.notFound)
      /\ Response.status TableVariant.notFound = 404).
Proof.
  split.
  - intros P config x Hin -> forwarded.
    destruct (table_key _ _ Hin) as [_ [P0 ->]].
    destruct (table_router_entry P0 x config Hin) as [Hr _].
    unfold TableVariant.handleGenericApiRequest.
    rewrite Hr, (table_lookup _ _ Hin), run_relay.
    assert (Hf : TableVariant.genericRequest request config ("/" +:+ x) search
                 = forwarded).
    { unfold TableVariant.genericRequest, forwarded, JS.startsWith. cbv zeta.
      change ("/" +:+ x) with (String "/" x) at 1.
      rewrite prefix_cons, prefix_empty_l. reflexivity. }
    rewrite Hf. reflexivity.
  - intros Hnone. split; [| reflexivity].
    unfold TableVariant.handleGenericApiRequest.
    rewrite table_router_normalized, better_fold_all_false by exact Hnone.
    reflexivity.
Qed.

Lemma table_generic_route_witness :
  TableVariant.handleGenericApiRequest claudeClient "/ai/claude/v1/messages"
    EmptyString (upstream 200 [])
  = ([Fetch.mk ("https://api.anthropic.com" +:+ "/" +:+ "v1/messages" +:+ EmptyString)
        "POST"
        (Gateway.filterHeaders (Request.headers claudeClient)
           (TableVariant.DEFAULT_HEADERS ++ ["anthropic-version"]))
        (Some "{}") Fetch.follow],
     Async.Resolved
       (Response.mk 200 EmptyString (addSecurityHeaders (Headers.of_list [])) "blob"))
  /\ TableVariant.handleGenericApiRequest claudeClient "/ai/claude/v1/messages"
       EmptyString (upstream 999 [])
     = ([Fetch.mk ("https://api.anthropic.com" +:+ "/" +:+ "v1/messages"
                   +:+ EmptyString)
           "POST"
           (Gateway.filterHeaders (Request.headers claudeClient)
              (TableVariant.DEFAULT_HEADERS ++ ["anthropic-version"]))
           (Some "{}") Fetch.follow],
        Async.Rejected)
  /\ TableVariant.handleGenericApiRequest (client "/ai/openai") "/ai/openai"
       EmptyString (upstream 200 [])
     = ([], Async.Resolved TableVariant.notFound).
Proof.
  split; [| split].
  - apply (proj1 (table_generic_route claudeClient "/ai/claude/v1/messages"
                    EmptyString (upstream 200 []))
             "/ai/claude" (mkConfig "https://api.anthropic.com" (Some ["anthropic-version"]))
             "v1/messages").
    + vm_compute. tauto.
    + reflexivity.
  - apply (proj1 (table_generic_route claudeClient "/ai/claude/v1/messages"
                    EmptyString (upstream 999 []))
             "/ai/claude" (mkConfig "https://api.anthropic.com" (Some ["anthropic-version"]))
             "v1/messages").
    + vm_compute. tauto.
    + reflexivity.
  - apply (proj2 (table_generic_route (client "/ai/openai") "/ai/openai"
                    EmptyString (upstream 200 []))).
    intros q Hq. vm_compute in Hq.
    repeat (destruct Hq as [<- | Hq]; [reflexivity|]). destruct Hq.
Defined.

(** X28: the token endpoint of the script with one table sends one GET
    to the token server of Docker Hub, with the two parameters of the
    client written into the query string as they are; of the headers of
    the client it carries [authorization] and no other; the response is
    returned as it is. *)
Theorem table_token_relay (request : Request.t) (net : Async.network) :
  exists forwarded,
    TableVariant.handleTokenRequest request net
    = ([Fetch.mk ("https://auth.docker.io/token?service="
                  +:+ JS.toString (URL.get (URL.searchParams (Request.url request))
                                     "service")
                  +:+ "&scope="
                  +:+ JS.toString (URL.get (URL.searchParams (Request.url request))
                                     "scope"))
          "GET" forwarded None Fetch.follow],
       match net (TableVariant.tokenRequest request) with
       | Some r => Async.Resolved r
       | None => Async.Rejected
       end)
    /\ forall name,
         Headers.get forwarded name
         = if String.eqb (JS.toLowerCase name) "authorization"
           then Headers.get (Request.headers request) "authorization"
           else None.
Proof.
  rewrite table_token_run. eexists. split; [reflexivity|].
  intros name. simpl Fetch.headers.
  destruct (Headers.get (Request.headers request) "authorization") as [a|].
  - apply (set_get_one "authorization" a name).
  - unfold Headers.get. rewrite lookup_empty. now destruct (String.eqb _ _).
Qed.

End TableRoutes.

(** ** The routes of [src/index.js] *)
Section IndexRoutes.

Lemma withSlash_slash (x : string) : IndexJs.withSlash ("/" +:+ x) = "/" +:+ x.
Proof.
  unfold IndexJs.withSlash, JS.startsWith. change ("/" +:+ x) with (String "/" x).
  now rewrite prefix_cons, prefix_empty_l.
Qed.

Lemma index_dispatch (request : Request.t) (P x : string) (config : ApiConfig) :
  In (P, config) IndexJs.apiMapping ->
  URL.pathname (Request.url request) = P +:+ "/" +:+ x ->
  IndexJs.handleRequest request
  = (response ←
       Async.fetch
         (Fetch.mk (baseUrl config +:+ IndexJs.withSlash ("/" +:+ x)
                    +:+ URL.search (Request.url request))
            (Request.method request)
            (if JS.startsWith P "/registry/"
             then IndexJs.necessaryHeaders (Request.headers request)
             else IndexJs.forwardedHeaders (Request.headers request)
                    (default [] (allowedHeaders config)))
            (Request.body request) Fetch.follow);
     Async.attempt (IndexJs.secured response)).
Proof.
  intros Hin Hpath. unfold IndexJs.handleRequest. cbv zeta. rewrite Hpath.
  vm_compute in Hin.
  repeat (destruct Hin as [Hin | Hin]; [injection Hin as <- <-; reflexivity|]).
  destruct Hin.
Qed.

(** X29: in [src/index.js] a request for [P/x], [P] a key of the merged
    table, is answered by one request to the base URL of [P] with the
    path [/x] and the query string, the method and the body of the
    client. A registry route, the one of Docker Hub with it, carries the
    four necessary headers alone and goes to the base URL of the table;
    a generic route carries the headers the target allows as well. The
    response comes back under the security headers when its status lies
    in 200..599; the promise is rejected when the network fails, and for
    any other status: the constructor of [Response] throws inside the
    [try] block, and the [catch] block throws in its turn. *)
Theorem index_route_forwarded (request : Request.t) (P x : string)
  (config : ApiConfig) (net : Async.network) :
  In (P, config) IndexJs.apiMapping ->
  URL.pathname (Request.url request) = P +:+ "/" +:+ x ->
  let forwarded :=
    Fetch.mk (baseUrl config +:+ "/" +:+ x +:+ URL.search (Request.url request))
      (Request.method request)
      (if JS.startsWith P "/registry/"
       then IndexJs.necessaryHeaders (Request.headers request)
       else IndexJs.forwardedHeaders (Request.headers request)
              (default [] (allowedHeaders config)))
      (Request.body request) Fetch.follow in
  IndexJs.handleRequest request net
  = ([forwarded],
     match net forwarded with
     | Some up =>
         if Build.validStatus (Response.status up)
         then Async.Resolved
                (Response.mk (Response.status up) (Response.statusText up)
                   (addSecurityHeaders (Response.headers up)) (Response.body up))
         else Async.Rejected
     | None => Async.Rejected
     end).
Proof.
  intros Hin Hpath forwarded.
  rewrite (index_dispatch request P x config Hin Hpath), withSlash_slash.
  change (Fetch.mk (baseUrl config +:+ ("/" +:+ x) +:+ URL.search (Request.url request))
            (Request.method request)
            (if JS.startsWith P "/registry/"
             then IndexJs.necessaryHeaders (Request.headers request)
             else IndexJs.forwardedHeaders (Request.headers request)
                    (default [] (allowedHeaders config)))
            (Request.body request) Fetch.follow) with forwarded.
  unfold IndexJs.secured. now rewrite run_relay.
Qed.

Lemma index_route_forwarded_witness :
  IndexJs.handleRequest (client "/registry/docker/hub/v2/library/busybox/tags/list")
    (upstream 200 [])
  = ([Fetch.mk ("https://docker.io" +:+ "/" +:+ "v2/library/busybox/tags/list"
                +:+ EmptyString) "GET"
        (IndexJs.necessaryHeaders ∅) None Fetch.follow],
     Async.Resolved
       (Response.mk 200 EmptyString (addSecurityHeaders (Headers.of_list [])) "blob"))
  /\ IndexJs.handleRequest (client "/registry/docker/hub/v2/library/busybox/tags/list")
       (upstream 999 [])
     = ([Fetch.mk ("https://docker.io" +:+ "/" +:+ "v2/library/busybox/tags/list"
                   +:+ EmptyString) "GET"
           (IndexJs.necessaryHeaders ∅) None Fetch.follow],
        Async.Rejected).
Proof.
  split.
  - apply (index_route_forwarded
             (client "/registry/docker/hub/v2/library/busybox/tags/list")
             "/registry/docker/hub" "v2/library/busybox/tags/list"
             (mkConfig "https://docker.io" None) (upstream 200 [])).
    + vm_compute. tauto.
    + reflexivity.
  - apply (index_route_forwarded
             (client "/registry/docker/hub/v2/library/busybox/tags/list")
             "/registry/docker/hub" "v2/library/busybox/tags/list"
             (mkConfig "https://docker.io" None) (upstream 999 [])).
    + vm_compute. tauto.
    + reflexivity.
Defined.

End IndexRoutes.
